(** * tc-builder.py: artifact acquisition of the MinGW-w64 toolchain builder

    A shallow embedding of the acquisition helpers of [tc-builder.py]
    ([ftp_get], [select_mirror], [html_get], [hash_file_md5], [untar],
    [set_env], [restore_env]) and the properties of them that the
    specification states.

    Conventions of the embedding:
    - a Python [str] is a [string]; Python orders [str] by code point, which
      is the byte order of the UTF-8 encoding, i.e. [String.compare];
    - a Python [dict] is an association list in insertion order ([Dict]),
      because the code iterates and sorts [items()];
    - a Python exception is the [Raise] result of [pyresult];
    - the file system, the working directory, [os.environ] and the I/O a
      call performs are explicit ([world], [event], the monad [M]);
    - library calls the script does not define ([re], [os.path.normpath],
      [urllib.parse], [hashlib], [tarfile]) and the remote peers (sockets,
      FTP and HTTP servers) are parameters: [Platform] and [Network]. *)

From Stdlib Require Import ZArith QArith Lia Ascii.
From stdpp Require Import base option list strings gmap.

(** ** Python results *)

Inductive exn : Type :=
  | IndexError              (* [].pop() *)
  | KeyError                (* d[k], os.environ[k] with k absent *)
  | AttributeError          (* FTP.quit() on a session that never connected *)
  | FtpError                (* one of ftplib.all_errors *)
  | ConnectionRefusedError  (* an OSError that is none of herror, gaierror, timeout *)
  | FileNotFoundError       (* open() or os.chdir() on a path that is not there *)
  | TypeError               (* None in "..." *)
  | URLError
  | TarReadError            (* tarfile.ReadError out of tarfile.open *)
  | TarStreamError.         (* an exception out of extractall that is neither
                               ExtractError nor IOError *)

Inductive pyresult (A : Type) : Type :=
  | Return (a : A)
  | Raise (e : exn).
Arguments Return {A} a.
Arguments Raise {A} e.

(** The values the acquisition functions hand back: [None], [False] or a
    path. *)
Inductive pyval : Type :=
  | PyNone
  | PyFalse
  | PyStr (s : string).

(** [bool(s)] of a [str]. *)
Definition str_truthy (s : string) : bool :=
  match s with
  | EmptyString => false
  | String _ _ => true
  end.

(** [bool(k)] of a value that is [None] or an [int] key: [None] and [0] are
    both false. *)
Definition key_truthy (k : option nat) : bool :=
  match k with
  | Some (S _) => true
  | Some O => false
  | None => false
  end.

(** ** Dictionaries in insertion order *)

Module Dict.
Section Dict.
Context {K V : Type} `{EqDecision K}.

(** [d[k]] *)
Fixpoint get (d : list (K * V)) (k : K) : option V :=
  match d with
  | [] => None
  | (k', v) :: d' => if decide (k' = k) then Some v else get d' k
  end.

(** [d[k] = v]: an existing key keeps its place, a new key goes last. *)
Fixpoint set (d : list (K * V)) (k : K) (v : V) : list (K * V) :=
  match d with
  | [] => [(k, v)]
  | (k', v') :: d' =>
      if decide (k' = k) then (k, v) :: d' else (k', v') :: set d' k v
  end.

(** [d[k]] as an expression: [KeyError] when [k] is absent. *)
Definition item (d : list (K * V)) (k : K) : pyresult V :=
  match get d k with
  | Some v => Return v
  | None => Raise KeyError
  end.

End Dict.
End Dict.

(** ** [sorted(items, key=...)] and [list.pop()] *)

(** Python's [sorted] is a stable sort that compares keys with [<]; on a
    total order its result is the one an insertion sort produces that puts
    each element before the elements already placed whose key is not
    smaller. *)
Section Sorted.
Context {A K : Type} (key : A → K) (leb : K → K → bool).

Fixpoint insert_by (x : A) (l : list A) : list A :=
  match l with
  | [] => [x]
  | y :: l' => if leb (key x) (key y) then x :: y :: l' else y :: insert_by x l'
  end.

Fixpoint sorted_by (l : list A) : list A :=
  match l with
  | [] => []
  | x :: l' => insert_by x (sorted_by l')
  end.

(** Every element is below all the elements after it. *)
Inductive ascending : list A → Prop :=
  | ascending_nil : ascending []
  | ascending_cons x l :
      Forall (λ y, leb (key x) (key y) = true) l → ascending l → ascending (x :: l).

End Sorted.

(** [l.pop()]: the last element, [IndexError] on the empty list. *)
Definition pop {A : Type} (l : list A) : pyresult A :=
  match last l with
  | Some x => Return x
  | None => Raise IndexError
  end.

(** ** The libraries and the remote peers *)

(** One entry of [FTP.mlsd(facts=["type", "modify"])]. *)
Record mlsd_fact : Type := MlsdFact {
  fact_type : string;
  fact_modify : string
}.

(** What [tarfile.open(archive)] followed by [extractall(destination)] does
    with the bytes of an archive. [tarfile.open] returns a [TarFile], which is
    always true as a condition, or raises. *)
Inductive tar_outcome : Type :=
  | OpenFails         (* tarfile.open raises ReadError *)
  | Extracts          (* extractall returns *)
  | ExtractError      (* extractall raises tarfile.ExtractError *)
  | ExtractIOError    (* extractall raises IOError *)
  | ExtractOther.     (* extractall raises anything else *)

(** The library functions the script calls and does not define. The two laws
    are facts of the libraries: an MD5 hex digest has 32 characters, and
    appending [".md5"] to a path names another file. *)
Record Platform : Type := {
  (** [re.compile(p).fullmatch(s)]: the match object, as its [group], taken
      to give a string at the index the caller asks for. *)
  re_fullmatch : string → string → option (Z → string);
  (** [os.path.normpath] *)
  normpath : string → string;
  (** [urllib.parse.urljoin] *)
  urljoin : string → string → string;
  (** [urllib.parse.urlparse]: the [netloc] and the [path] of the result. *)
  urlparse : string → string * string;
  (** [hashlib.md5] of the bytes of a file, as its [hexdigest()]. *)
  md5_hexdigest : string → string;
  (** [tarfile] on the bytes of an archive and a destination. *)
  tar_behaviour : string → string → tar_outcome;
  md5_length : ∀ data, String.length (md5_hexdigest data) = 32%nat;
  normpath_sidecar : ∀ p, normpath (p +:+ ".md5") ≠ normpath p
}.

(** What [socket.connect((server, port))] does. [Connected t] carries the
    measured [end - start]; a finite float is a rational number and the
    code only orders these values. [Refused] stands for an [OSError] that is
    not one of the three classes [select_mirror] catches, such as
    [ConnectionRefusedError]. *)
Inductive probe : Type :=
  | Connected (latency : Q)
  | HostnameError     (* socket.herror *)
  | AddressError      (* socket.gaierror *)
  | TimedOut          (* socket.timeout *)
  | Refused.

(** What [FTP.connect] followed by [FTP.login] does. [ConnectFails]:
    [connect] raises before the session has a socket (the name does not
    resolve, the connection is refused or times out). [GreetingFails]: the
    socket is open and the greeting is refused; [quit] then sends QUIT on
    it, and [quit_answered] tells whether the server still replies or has
    hung up. [LoginFails]: the session is up and [login] is refused. On a
    session that got past the greeting QUIT is taken to be answered. *)
Inductive ftp_open : Type :=
  | ConnectFails
  | GreetingFails (quit_answered : bool)
  | LoginFails
  | LoggedIn (home : string).

(** The peers: a function of the request, the same at every call. An FTP
    session is the server and the directory it is in. [None] is the error
    the library raises. *)
Record Network : Type := {
  sock_connect : string → Z → Q → probe;
  ftp_open_session : string → ftp_open;
  ftp_chdir : string → string → string → option string;
  ftp_mlsd : string → string → option (list (string * mlsd_fact));
  ftp_nlst : string → string → option (list string);
  ftp_retr : string → string → string → option string;
  (** The bytes that [retrbinary] has handed to its callback, block by
      block, when the transfer raises. *)
  ftp_retr_partial : string → string → string → string;
  (** [urlopen(url)] parsed by BeautifulSoup: the [href] of every [a] that
      has one, in document order. *)
  http_links : string → option (list string);
  (** [urlretrieve(url, path)]: the bytes saved. *)
  http_body : string → option string
}.

(** ** Version selection *)

(** The [id: version] and [id: name] dictionaries and the next [keyid]. The
    [id: modified date] dictionary ([modify_data], [file_date]) is written and
    never read, its only reader is commented out, so it is left out. *)
Record matches : Type := Matches {
  versions : list (nat * string);
  names : list (nat * string);
  keyid : nat
}.

Definition no_matches : matches := Matches [] [] 0.

(** The body of the scanning loops after a successful [fullmatch]. *)
Definition record_match (acc : matches) (name version : string) : matches :=
  {| versions := Dict.set (versions acc) (keyid acc) version;
     names := Dict.set (names acc) (keyid acc) name;
     keyid := S (keyid acc) |}.

Section Scan.
Context (P : Platform).

(** The loop over [ftp.nlst()] in [ftp_get], and the loop over the links in
    [html_get]. *)
Definition scan_names (pattern : string) (group : Z) (name_list : list string) : matches :=
  fold_left
    (λ acc name,
       match re_fullmatch P pattern name with
       | None => acc
       | Some m => record_match acc name (m group)
       end)
    name_list no_matches.

(** The loop over [ftp.mlsd(...)] in [ftp_get]; [kind] is ["dir"] for the
    folder and ["file"] for the archive. *)
Definition scan_mlsd (pattern : string) (group : Z) (kind : string)
    (listing : list (string * mlsd_fact)) : matches :=
  fold_left
    (λ acc entry,
       if negb (bool_decide (fact_type entry.2 = kind)) then acc
       else match re_fullmatch P pattern entry.1 with
            | None => acc
            | Some m => record_match acc entry.1 (m group)
            end)
    listing no_matches.

End Scan.

(** [for key, ver in d.items(): if ver == preferred: foundkey = key; break] *)
Fixpoint find_version (items : list (nat * string)) (preferred : string) : option nat :=
  match items with
  | [] => None
  | (key, ver) :: rest =>
      if bool_decide (ver = preferred) then Some key else find_version rest preferred
  end.

(** [sorted(d.items(), key=itemgetter(1), reverse=False).pop()], the key of
    the pair. *)
Definition latest_key (items : list (nat * string)) : pyresult nat :=
  match pop (sorted_by snd String.leb items) with
  | Return (latestid, stamp) => Return latestid
  | Raise e => Raise e
  end.

(** The selection written out three times in the source: for the folder and
    for the file in [ftp_get] ([if foundkey: ... else: ...]) and in [html_get]
    ([if not file_id: ...]). The test is on the key, not on [is None]. *)
Definition select_version (version_of name_of : list (nat * string)) (preferred : string)
    : pyresult string :=
  let foundkey := find_version version_of preferred in
  if key_truthy foundkey then Dict.item name_of (default 0%nat foundkey)
  else match latest_key version_of with
       | Return latestid => Dict.item name_of latestid
       | Raise e => Raise e
       end.

(** The dictionaries a scan builds from the matched entries, in listing
    order: the keys are 0, 1, 2, ... *)
Fixpoint keyed_from (k : nat) (l : list string) : list (nat * string) :=
  match l with
  | [] => []
  | x :: l' => (k, x) :: keyed_from (S k) l'
  end.

Definition keyed (l : list string) : list (nat * string) := keyed_from 0 l.

(** The state of a scan that has matched [entries], name and version. *)
Definition scanned (entries : list (string * string)) : matches :=
  {| versions := keyed entries.*2; names := keyed entries.*1; keyid := length entries |}.

(** The entries of a listing that the pattern matches, each with its
    version. *)
Definition matched (P : Platform) (pattern : string) (group : Z) (name_list : list string)
    : list (string * string) :=
  omap (λ name, (λ m : Z → string, (name, m group)) <$> re_fullmatch P pattern name) name_list.

(** The same for an MLSD listing, of the entries of the given kind. *)
Definition matched_mlsd (P : Platform) (pattern : string) (group : Z) (kind : string)
    (listing : list (string * mlsd_fact)) : list (string * string) :=
  matched P pattern group
    (fst <$> filter (λ entry, fact_type entry.2 = kind) listing).

(** ** [select_mirror] *)

Definition port_of (protocol : string) : Z :=
  if bool_decide (protocol = "HTTP") then 80
  else if bool_decide (protocol = "HTTPS") then 443
  else if bool_decide (protocol = "FTP") then 21
  else if bool_decide (protocol = "SFTP") || bool_decide (protocol = "SSH") then 22
  else 1.

Section Mirror.
Context (N : Network).

(** The loop over [server_list]: [benchmark[server] = end - start] on
    success, [continue] on the three exceptions caught; any other exception
    leaves the function. *)
Fixpoint probe_servers (server_list : list string) (port : Z) (timeout : Q)
    (benchmark : list (string * Q)) : pyresult (list (string * Q)) :=
  match server_list with
  | [] => Return benchmark
  | server :: rest =>
      match sock_connect N server port timeout with
      | Connected t => probe_servers rest port timeout (Dict.set benchmark server t)
      | HostnameError => probe_servers rest port timeout benchmark
      | AddressError => probe_servers rest port timeout benchmark
      | TimedOut => probe_servers rest port timeout benchmark
      | Refused => Raise ConnectionRefusedError
      end
  end.

(** [None] is the pair [(None, None)]. *)
Definition select_mirror (server_list : list string) (priority : Z) (protocol : string)
    (timeout : Q) : pyresult (option (string * Q)) :=
  match probe_servers server_list (port_of protocol) timeout [] with
  | Raise e => Raise e
  | Return benchmark =>
      let valid_servers := Z.of_nat (length benchmark) in
      if (valid_servers <=? 0)%Z then Return None
      else
        let priority := (Z.min valid_servers priority - 1)%Z in
        let priority := Z.max 0 priority in
        let sorted_servers := sorted_by snd Qle_bool benchmark in
        match sorted_servers !! Z.to_nat priority with
        | Some mirror => Return (Some mirror)
        | None => Raise IndexError
        end
  end.

(** The benchmark of a list no probe of which raises: the servers that
    connected, each with its latency. *)
Definition reachable (server_list : list string) (port : Z) (timeout : Q)
    : list (string * Q) :=
  fold_left
    (λ benchmark server,
       match sock_connect N server port timeout with
       | Connected t => Dict.set benchmark server t
       | _ => benchmark
       end)
    server_list [].

(** No probe ends in an exception that [select_mirror] does not catch. *)
Definition all_caught (server_list : list string) (port : Z) (timeout : Q) : Prop :=
  Forall (λ server, sock_connect N server port timeout ≠ Refused) server_list.

End Mirror.

(** ** [os.path] on POSIX *)

Definition isabs (p : string) : bool :=
  match p with
  | String c _ => bool_decide (c = "/"%char)
  | EmptyString => false
  end.

Fixpoint ends_with_slash (p : string) : bool :=
  match p with
  | EmptyString => false
  | String c EmptyString => bool_decide (c = "/"%char)
  | String _ rest => ends_with_slash rest
  end.

(** [os.path.join(a, b)] *)
Definition join (a b : string) : string :=
  if isabs b then b
  else if negb (str_truthy a) || ends_with_slash a then a +:+ b
  else a +:+ "/" +:+ b.

(** [(p[:i], p[i:])] for [i = p.rfind('/') + 1]. *)
Fixpoint split_last_slash (p : string) : string * string :=
  match p with
  | EmptyString => (EmptyString, EmptyString)
  | String c rest =>
      let '(head, tail) := split_last_slash rest in
      if str_truthy head then (String c head, tail)
      else if bool_decide (c = "/"%char) then (String c EmptyString, rest)
      else (EmptyString, String c rest)
  end.

(** [p.rstrip('/')] *)
Fixpoint rstrip_slash (p : string) : string :=
  match p with
  | EmptyString => EmptyString
  | String c rest =>
      let rest' := rstrip_slash rest in
      if bool_decide (c = "/"%char) && negb (str_truthy rest') then EmptyString
      else String c rest'
  end.

(** [os.path.basename(p)] *)
Definition basename (p : string) : string := (split_last_slash p).2.

(** [os.path.dirname(p)]: the head, without its trailing slashes unless it
    is made of slashes only. *)
Definition dirname (p : string) : string :=
  let head := (split_last_slash p).1 in
  if str_truthy head && str_truthy (rstrip_slash head) then rstrip_slash head else head.

(** ** The local world and the effects of a call *)

Record world : Type := World {
  files : gmap string string;     (* regular files: absolute path to bytes *)
  dirs : gset string;             (* directories, by absolute path *)
  cwd : string;                   (* os.getcwd() *)
  environ : gmap string string    (* os.environ *)
}.

Inductive event : Type :=
  | FtpConnect (server : string)
  | FtpLogin
  | FtpCwd (folder : string)
  | FtpMlsd
  | FtpNlst
  | FtpRetr (name : string)
  | FtpQuit
  | HttpOpen (url : string)
  | HttpRetrieve (url : string)
  | MakeDirs (path : string)
  | WriteFile (path : string)
  | TarOpen (archive : string)
  | Unpack (archive destination : string).

Definition is_network (e : event) : bool :=
  match e with
  | MakeDirs _ | WriteFile _ | TarOpen _ | Unpack _ _ => false
  | _ => true
  end.

(** The transfers of an archive: [RETR] and [urlretrieve]. *)
Definition is_download (e : event) : bool :=
  match e with
  | FtpRetr _ | HttpRetrieve _ => true
  | _ => false
  end.

Definition is_unpack (e : event) : bool :=
  match e with
  | Unpack _ _ => true
  | _ => false
  end.

Definition is_write (path : string) (e : event) : bool :=
  match e with
  | WriteFile p => bool_decide (p = path)
  | _ => false
  end.

(** An event that neither transfers an archive nor writes a file. *)
Definition quiet (e : event) : Prop := is_download e = false ∧ ∀ p, is_write p e = false.

(** A conversation with a peer: a result or an exception, and the requests
    sent. It neither reads nor writes the local world. *)
Definition Net (A : Type) : Type := pyresult A * list event.

Definition net_ret {A : Type} (a : A) : Net A := (Return a, []).

Definition net_bind {A B : Type} (m : Net A) (f : A → Net B) : Net B :=
  match m with
  | (Return a, ev) => let '(r, ev') := f a in (r, ev ++ ev')
  | (Raise e, ev) => (Raise e, ev)
  end.

Declare Scope net_scope.
Delimit Scope net_scope with net.
Notation "x ← m ; k" := (net_bind m (λ x, k))
  (at level 20, m at level 100, k at level 200, only parsing) : net_scope.
Notation "m ;; k" := (net_bind m (λ _, k))
  (at level 100, k at level 200, only parsing, right associativity) : net_scope.

Definition send (e : event) : Net unit := (Return (), [e]).

Definition net_result {A : Type} (r : pyresult A) : Net A := (r, []).

(** A call: a result or an exception, the world it leaves and the events it
    caused, oldest first. The effects made before an exception stay. *)
Definition M (A : Type) : Type := world → pyresult A * world * list event.

Definition ret {A : Type} (a : A) : M A := λ w, (Return a, w, []).

Definition bind {A B : Type} (m : M A) (f : A → M B) : M B := λ w,
  match m w with
  | (Return a, w', ev) => let '(r, w'', ev') := f a w' in (r, w'', ev ++ ev')
  | (Raise e, w', ev) => (Raise e, w', ev)
  end.

Declare Scope call_scope.
Delimit Scope call_scope with call.
Notation "x ← m ; k" := (bind m (λ x, k))
  (at level 20, m at level 100, k at level 200, only parsing) : call_scope.
Notation "m ;; k" := (bind m (λ _, k))
  (at level 100, k at level 200, only parsing, right associativity) : call_scope.

Definition emit (e : event) : M unit := λ w, (Return (), w, [e]).

Definition raise {A : Type} (e : exn) : M A := λ w, (Raise e, w, []).

Definition result {A : Type} (r : pyresult A) : M A := λ w, (r, w, []).

Definition lift {A : Type} (n : Net A) : M A := λ w, (n.1, w, n.2).

Definition os_getcwd : M string := λ w, (Return (cwd w), w, []).

(** The world with one more directory, and with a file written. *)
Definition with_dir (w : world) (path : string) : world :=
  {| files := files w; dirs := {[path]} ∪ dirs w; cwd := cwd w; environ := environ w |}.

Definition with_file (w : world) (path data : string) : world :=
  {| files := <[path := data]> (files w); dirs := dirs w; cwd := cwd w;
     environ := environ w |}.

(** The world after [os.chdir], and after [os.environ[k] = v]. *)
Definition with_cwd (w : world) (path : string) : world :=
  {| files := files w; dirs := dirs w; cwd := path; environ := environ w |}.

Definition with_environ (w : world) (k v : string) : world :=
  {| files := files w; dirs := dirs w; cwd := cwd w;
     environ := <[k := v]> (environ w) |}.

Section Os.
Context (P : Platform).

(** [os.path.abspath(p)] in a given working directory. *)
Definition abspath_in (current : string) (p : string) : string :=
  normpath P (if isabs p then p else join current p).

Definition os_path_abspath (p : string) : M string :=
  λ w, (Return (abspath_in (cwd w) p), w, []).

Definition exists_in (w : world) (p : string) : bool :=
  let q := abspath_in (cwd w) p in
  bool_decide (is_Some (files w !! q)) || bool_decide (q ∈ dirs w).

Definition os_path_exists (p : string) : M bool := λ w, (Return (exists_in w p), w, []).

(** [os.makedirs(p)]; the intermediate directories are not tracked. *)
Definition os_makedirs (p : string) : M unit :=
  λ w, (Return (), with_dir w (abspath_in (cwd w) p), [MakeDirs (abspath_in (cwd w) p)]).

Definition os_chdir (p : string) : M unit :=
  λ w, let q := abspath_in (cwd w) p in
       if bool_decide (q ∈ dirs w) then (Return (), with_cwd w q, [])
       else (Raise FileNotFoundError, w, []).

(** [open(p, "w").write(data)], and [open(p, "wb")] with [data] empty; the
    open is taken to succeed. *)
Definition write_file (p data : string) : M unit :=
  λ w, (Return (), with_file w (abspath_in (cwd w) p) data,
        [WriteFile (abspath_in (cwd w) p)]).

(** [open(p, "r").read()] *)
Definition read_file (p : string) : M string :=
  λ w, match files w !! abspath_in (cwd w) p with
       | Some data => (Return data, w, [])
       | None => (Raise FileNotFoundError, w, [])
       end.

(** The world after [if not os.path.exists(p): os.makedirs(p)], and the
    events of it. *)
Definition ensured (w : world) (p : string) : world :=
  if exists_in w p then w else with_dir w (abspath_in (cwd w) p).

Definition ensured_events (w : world) (p : string) : list event :=
  if exists_in w p then [] else [MakeDirs (abspath_in (cwd w) p)].

(** [os.environ[k]] and [os.environ[k] = v] *)
Definition environ_get (k : string) : M string :=
  λ w, match environ w !! k with
       | Some v => (Return v, w, [])
       | None => (Raise KeyError, w, [])
       end.

Definition environ_set (k v : string) : M unit :=
  λ w, (Return (), with_environ w k v, []).

End Os.

(** [needle in haystack] on [str] *)
Fixpoint contains (needle haystack : string) : bool :=
  String.prefix needle haystack ||
  match haystack with
  | EmptyString => false
  | String _ rest => contains needle rest
  end.

(** The [LOCATIONS] table of the script. *)
Definition LOCATIONS : list (string * string) :=
  [("pkg_dir", "./pkgs/");
   ("mingw_w64_i686_prefix", "./mingw-w64-i686/");
   ("mingw_w64_x86_64_prefix", "./mingw-w64-x86_64/");
   ("mingw_w64_source_dir", "./source/");
   ("mingw_w64_build_dir", "./build/")].

(** *** The FTP session of [ftp_get] *)

Section Session.
Context (P : Platform) (N : Network).
Local Open Scope net_scope.

(** [ftp.cwd(folder)] in the session of [server] that is in [dir]. *)
Definition ftp_cwd (server dir folder : string) : Net string :=
  send (FtpCwd folder);;
  match ftp_chdir N server dir folder with
  | Some dir' => net_ret dir'
  | None => net_result (Raise FtpError)
  end.

(** The [try: ftp.mlsd(...) except ftplib.all_errors: ftp.nlst()] block with
    its two loops. A server without MLSD refuses the command before it
    lists anything. *)
Definition ftp_listing (server dir pattern : string) (group : Z) (kind : string)
    : Net matches :=
  send FtpMlsd;;
  match ftp_mlsd N server dir with
  | Some listing => net_ret (scan_mlsd P pattern group kind listing)
  | None =>
      send FtpNlst;;
      match ftp_nlst N server dir with
      | Some name_list => net_ret (scan_names P pattern group name_list)
      | None => net_result (Raise FtpError)
      end
  end.

(** From [ftp.cwd(folder)] to the choice of [final_archive]: the directory
    the session ends in and the name chosen. *)
Definition ftp_locate (server home folder filename_re : string)
    (file_version_capture_group : Z) (preferred_version : string)
    (folder_re : option string) (folder_version_capture_group : Z)
    (preferred_folder_version : string) : Net (string * string) :=
  dir ← ftp_cwd server home folder;
  dir ← match folder_re with
        | Some (String _ _ as folder_re) =>
            found ← ftp_listing server dir folder_re folder_version_capture_group "dir";
            name ← net_result (select_version (versions found) (names found)
                                 preferred_folder_version);
            ftp_cwd server dir (urljoin P folder name)
        | _ => net_ret dir
        end;
  found ← ftp_listing server dir filename_re file_version_capture_group "file";
  final_archive ← net_result (select_version (versions found) (names found)
                                preferred_version);
  net_ret (dir, final_archive).

End Session.

Section Acquisition.
Context (P : Platform) (N : Network).
Local Open Scope call_scope.

(** *** [ftp_get] *)

(** The computation of [final_path], the same in [ftp_get] and [html_get]. *)
Definition save_path_for (save_path : option string) (final_archive : string) : M string :=
  match save_path with
  | Some (String _ _ as save_path) =>
      let dir_name := dirname save_path in
      let filename := basename save_path in
      (if str_truthy dir_name
       then present ← os_path_exists P dir_name;
            if present then ret () else os_makedirs P dir_name
       else ret ());;
      os_path_abspath P (if str_truthy filename then save_path
                         else join dir_name final_archive)
  | _ =>
      current ← os_getcwd;
      ret (join current final_archive)
  end.

(** The value of [final_path] in a given working directory, and the world
    and the events of its computation. *)
Definition final_path_in (current : string) (save_path : option string)
    (final_archive : string) : string :=
  match save_path with
  | Some (String _ _ as save_path) =>
      abspath_in P current (if str_truthy (basename save_path) then save_path
                            else join (dirname save_path) final_archive)
  | _ => join current final_archive
  end.

Definition prepared (w : world) (save_path : option string) : world :=
  match save_path with
  | Some (String _ _ as save_path) =>
      if str_truthy (dirname save_path) then ensured P w (dirname save_path) else w
  | _ => w
  end.

Definition prepared_events (w : world) (save_path : option string) : list event :=
  match save_path with
  | Some (String _ _ as save_path) =>
      if str_truthy (dirname save_path) then ensured_events P w (dirname save_path) else []
  | _ => []
  end.

(** [preferred_version] and [preferred_folder_version] are the arguments
    after [str(...)]. [FTP.quit()] on a session whose [connect] failed finds
    no socket and raises; on a session whose greeting was refused it sends
    QUIT, and raises when no reply comes. [open(final_path, "wb")] leaves an
    empty file before RETR is sent, and the callback of [retrbinary] writes
    each block as it comes, so a transfer that raises leaves the blocks it
    had delivered. *)
Definition ftp_get (server folder filename_re : string) (file_version_capture_group : Z)
    (save_path : option string) (preferred_version : string)
    (folder_re : option string) (folder_version_capture_group : Z)
    (preferred_folder_version : string) : M pyval :=
  if negb (str_truthy server) then ret PyNone
  else if negb (str_truthy folder) then ret PyNone
  else if negb (str_truthy filename_re) then ret PyNone
  else if (file_version_capture_group <? 1)%Z then ret PyNone
  else
    emit (FtpConnect server);;
    match ftp_open_session N server with
    | ConnectFails => raise AttributeError
    | GreetingFails quit_answered =>
        emit FtpQuit;;
        if quit_answered then ret PyFalse else raise FtpError
    | LoginFails => emit FtpLogin;; emit FtpQuit;; ret PyFalse
    | LoggedIn home =>
        emit FtpLogin;;
        located ← lift (ftp_locate P N server home folder filename_re
                          file_version_capture_group preferred_version folder_re
                          folder_version_capture_group preferred_folder_version);
        let final_archive := located.2 in
        final_path ← save_path_for save_path final_archive;
        present ← os_path_exists P final_path;
        if present then emit FtpQuit;; ret (PyStr final_path)
        else
          write_file P final_path "";;
          emit (FtpRetr final_archive);;
          match ftp_retr N server located.1 final_archive with
          | None =>
              let partial := ftp_retr_partial N server located.1 final_archive in
              (if str_truthy partial then write_file P final_path partial else ret ());;
              raise FtpError
          | Some data =>
              write_file P final_path data;;
              emit FtpQuit;;
              ret (PyStr final_path)
          end
    end.

(** *** [html_get] *)

Definition html_get (url filename_re : string) (file_version_capture_group : Z)
    (save_path : option string) (preferred_version : string) : M pyval :=
  if negb (str_truthy url) then ret PyNone
  else if negb (str_truthy filename_re) then ret PyNone
  else
    emit (HttpOpen url);;
    match http_links N url with
    | None => raise URLError
    | Some links =>
        let found := scan_names P filename_re file_version_capture_group links in
        final_url ← result (select_version (versions found) (names found) preferred_version);
        let parsed_url := urlparse P final_url in
        let final_url := if negb (str_truthy parsed_url.1) then urljoin P url final_url
                         else final_url in
        let final_archive := basename parsed_url.2 in
        final_path ← save_path_for save_path final_archive;
        present ← os_path_exists P final_path;
        if present then ret (PyStr final_path)
        else
          emit (HttpRetrieve final_url);;
          match http_body N final_url with
          | None => raise URLError
          | Some data =>
              write_file P final_path data;;
              ret (if str_truthy final_path then PyStr final_path else PyNone)
          end
    end.

(** *** [hash_file_md5] and [untar] *)

Definition hash_file_md5 (filename : string) : M (option string) :=
  present ← os_path_exists P filename;
  if negb present then ret None
  else data ← read_file P filename; ret (Some (md5_hexdigest P data)).

(** The members an archive unpacks go below [destination_folder]; the
    unpacking is recorded as the [Unpack] event and the members are kept out
    of [files], which holds the archives and their sidecars. What
    [extractall] writes is therefore not in the model: after an [Unpack]
    event, [files] tells what [untar] itself has written. *)
Definition untar (source_archive destination_folder : string) : M pyval :=
  present ← os_path_exists P source_archive;
  if negb present then ret PyNone
  else
    present ← os_path_exists P destination_folder;
    (if negb present then os_makedirs P destination_folder else ret ());;
    let source_md5_file := source_archive +:+ ".md5" in
    new_md5 ← hash_file_md5 source_archive;
    present ← os_path_exists P source_md5_file;
    same ← (if present
            then old_md5 ← read_file P source_md5_file;
                 match new_md5 with
                 | Some digest => ret (contains digest old_md5)
                 | None => raise TypeError
                 end
            else ret false);
    if same then ret (PyStr destination_folder)
    else
      emit (TarOpen source_archive);;
      data ← read_file P source_archive;
      match tar_behaviour P data destination_folder with
      | OpenFails => raise TarReadError
      | Extracts =>
          emit (Unpack source_archive destination_folder);;
          match new_md5 with
          | Some digest => write_file P source_md5_file digest
          | None => raise TypeError
          end;;
          ret (PyStr destination_folder)
      | ExtractError =>
          emit (Unpack source_archive destination_folder);;
          ret (PyStr destination_folder)
      | ExtractIOError =>
          emit (Unpack source_archive destination_folder);;
          ret (PyStr destination_folder)
      | ExtractOther =>
          emit (Unpack source_archive destination_folder);;
          raise TarStreamError
      end.

(** What [untar] does in a world that holds the archive, with bytes
    [data], and the destination folder: the statement of
    [untar_destination_present] below. *)
Definition untar_in_place (w : world) (source_archive destination_folder data : string)
    : pyresult pyval * world * list event :=
  let sidecar := abspath_in P (cwd w) (source_archive +:+ ".md5") in
  let digest := md5_hexdigest P data in
  let extract :=
    match tar_behaviour P data destination_folder with
    | OpenFails => (Raise TarReadError, w, [TarOpen source_archive])
    | Extracts =>
        (Return (PyStr destination_folder), with_file w sidecar digest,
         [TarOpen source_archive; Unpack source_archive destination_folder;
          WriteFile sidecar])
    | ExtractError | ExtractIOError =>
        (Return (PyStr destination_folder), w,
         [TarOpen source_archive; Unpack source_archive destination_folder])
    | ExtractOther =>
        (Raise TarStreamError, w,
         [TarOpen source_archive; Unpack source_archive destination_folder])
    end in
  match files w !! sidecar with
  | Some old_md5 =>
      if contains digest old_md5 then (Return (PyStr destination_folder), w, [])
      else extract
  | None =>
      if bool_decide (sidecar ∈ dirs w) then (Raise FileNotFoundError, w, [])
      else extract
  end.

(** *** [set_env] and [restore_env] *)

(** [WORK_FOLDER] is the global the command line sets. *)
Definition set_env (WORK_FOLDER : string) (x86_64 : bool) : M (list (string * string)) :=
  old_path ← environ_get "PATH";
  old_cc ← environ_get "CC";
  let origin := [("old_path", old_path); ("old_cc", old_cc)] in
  current_dir ← os_getcwd;
  os_chdir P WORK_FOLDER;;
  location ← result (Dict.item LOCATIONS "mingw_w64_i686_prefix");
  prefix_x86 ← os_path_abspath P location;
  let prefix_x86 := join prefix_x86 "bin" in
  location ← result (Dict.item LOCATIONS "mingw_w64_x86_64_prefix");
  prefix_x86_64 ← os_path_abspath P location;
  let prefix_x86_64 := join prefix_x86_64 "bin" in
  old_path_var ← environ_get "PATH";
  let x86_env_path := prefix_x86 +:+ ":" +:+ old_path_var in
  let x86_64_env_path := prefix_x86_64 +:+ ":" +:+ old_path_var in
  (if x86_64 then environ_set "PATH" x86_64_env_path
   else environ_set "PATH" x86_env_path);;
  environ_set "CC" "gcc";;
  os_chdir P current_dir;;
  ret origin.

Definition restore_env (old_env : list (string * string)) : M unit :=
  old_cc ← result (Dict.item old_env "old_cc");
  old_path ← result (Dict.item old_env "old_path");
  (if str_truthy old_cc then environ_set "CC" old_cc else ret ());;
  (if str_truthy old_path then environ_set "PATH" old_path else ret ()).

End Acquisition.

(** ** A small platform, network and world to run the model on *)

Module Demo.

(** [s] without the prefix [pre], when it has it. *)
Fixpoint strip_prefix (pre s : string) : option string :=
  match pre, s with
  | EmptyString, _ => Some s
  | String a pre', String b s' => if bool_decide (a = b) then strip_prefix pre' s' else None
  | String _ _, EmptyString => None
  end.

Definition strip_suffix (suf s : string) : option string :=
  String.rev <$> strip_prefix (String.rev suf) (String.rev s).

(** The pattern up to its first star, and after it. *)
Fixpoint split_star (pattern : string) : string * string :=
  match pattern with
  | EmptyString => (EmptyString, EmptyString)
  | String c rest =>
      if bool_decide (c = "*"%char) then (EmptyString, rest)
      else let '(pre, suf) := split_star rest in (String c pre, suf)
  end.

(** Patterns of the shape [prefix*suffix]: group 1 is what the star
    stands for, any other group the whole name. *)
Definition fullmatch (pattern name : string) : option (Z → string) :=
  let '(pre, suf) := split_star pattern in
  rest ← strip_prefix pre name;
  version ← strip_suffix suf rest;
  Some (λ group : Z, if (group =? 1)%Z then version else name).

(** The first [n] characters of [s], padded with zeros. *)
Fixpoint pad (n : nat) (s : string) : string :=
  match n with
  | O => EmptyString
  | S n' =>
      match s with
      | EmptyString => String "0"%char (pad n' EmptyString)
      | String c rest => String c (pad n' rest)
      end
  end.

Definition digest (data : string) : string := pad 32 data.

Definition tar (data destination : string) : tar_outcome :=
  if bool_decide (data = "corrupt") then OpenFails
  else if bool_decide (data = "read-only target") then ExtractIOError
  else if bool_decide (data = "bad member") then ExtractError
  else if bool_decide (data = "truncated") then ExtractOther
  else Extracts.

Lemma pad_length n s : String.length (pad n s) = n.
Proof.
  revert s. induction n as [|n IH]; intros s; simpl; [done|].
  destruct s; simpl; by rewrite IH.
Qed.

Lemma length_app (s t : string) :
  String.length (s +:+ t) = (String.length s + String.length t)%nat.
Proof. induction s as [|c s IH]; simpl; [done|]. by rewrite <- IH. Qed.

Lemma sidecar_differs (p : string) : p +:+ ".md5" ≠ p.
Proof.
  intros H. apply (f_equal String.length) in H.
  rewrite length_app in H. simpl in H. lia.
Qed.

Definition platform : Platform :=
  {| re_fullmatch := fullmatch;
     normpath := λ p, p;
     urljoin := λ base rel, base +:+ rel;
     urlparse := λ url, (EmptyString, url);
     md5_hexdigest := digest;
     tar_behaviour := tar;
     md5_length := pad_length 32;
     normpath_sidecar := sidecar_differs |}.

Definition probe_of (server : string) : probe :=
  if bool_decide (server = "near.example.org") then Connected (1 # 100)
  else if bool_decide (server = "far.example.org") then Connected (3 # 10)
  else if bool_decide (server = "mid.example.org") then Connected (1 # 10)
  else if bool_decide (server = "silent.example.org") then TimedOut
  else if bool_decide (server = "closed.example.org") then Refused
  else AddressError.

(** One FTP server without MLSD that lists two archives in every directory,
    and one page with three links. *)
Definition network : Network :=
  {| sock_connect := λ server port timeout, probe_of server;
     ftp_open_session := λ server,
       if bool_decide (server = "ftp.example.org") then LoggedIn "/" else ConnectFails;
     ftp_chdir := λ server dir folder, Some folder;
     ftp_mlsd := λ server dir, None;
     ftp_nlst := λ server dir, Some ["pkg-1.0.tar.gz"; "pkg-2.5.tar.gz"];
     ftp_retr := λ server dir name, Some ("bytes of " +:+ name);
     ftp_retr_partial := λ server dir name, "";
     http_links := λ url, Some ["index.html"; "pkg-1.0.tar.gz"; "pkg-2.5.tar.gz"];
     http_body := λ url, Some ("bytes of " +:+ url) |}.

Definition start : world :=
  {| files := ∅;
     dirs := {["/work"]};
     cwd := "/work";
     environ := {["PATH" := "/usr/bin"; "CC" := "cc"]} |}.

(** A world that holds the archive [/work/dl/pkg.tar.gz] with the given
    bytes and no sidecar. *)
Definition holding (data : string) : world :=
  {| files := {["/work/dl/pkg.tar.gz" := data]};
     dirs := {["/work"; "/work/dl"; "/work/pkgs"]};
     cwd := "/work";
     environ := ∅ |}.

End Demo.

(** ** The callers: tables, settings, components, source folders *)

(** The tables of the script that nothing assigns to after their
    definition. *)
Definition GNU_MIRRORS : list string :=
  ["mirror.jre655.com"; "ftp.yzu.edu.tw"; "reflection.oss.ou.edu";
   "mirrors.ocf.berkeley.edu"; "mirrorservice.org"; "ftp.igh.cnrs.fr";
   "mirror.checkdomain.de"; "ftp.unicamp.br"; "gnu.mirror.iweb.com";
   "mirror.tochlab.net"; "ftp.gnu.org"].

Definition GCC_MIRRORS : list string :=
  ["ftp.irisa.fr"; "ftp.fu-berlin.de"; "ftp.ntua.gr"; "ftp.nluug.nl"; "gcc.gnu.org"].

Definition FTP_DOWNLOADS : list string :=
  ["binutils"; "gcc"; "gmp"; "mpfr"; "mpc"; "isl"; "cloog"].

Definition HTML_DOWNLOADS : list string := ["mingw64"].

Definition PRIMARY_FTP_FOLDERS : list (string * string) :=
  [("gcc", "/pub/gcc/releases/");
   ("binutils", "/pub/gnu/binutils/");
   ("gmp", "/pub/gcc/infrastructure/");
   ("mpfr", "/pub/gcc/infrastructure/");
   ("mpc", "/pub/gcc/infrastructure/");
   ("isl", "/pub/gcc/infrastructure/");
   ("cloog", "/pub/gcc/infrastructure/")].

Definition HTML_URLS : list (string * string) :=
  [("mingw64", "https://github.com/mirror/mingw-w64/releases")].

Definition FILENAME_PATTERNS : list (string * string) :=
  [("gcc", "^gcc-([0-9.]+).tar.gz$");
   ("binutils", "^binutils-([0-9.]+).tar.bz2$");
   ("gmp", "^gmp-([0-9.]+).tar.bz2$");
   ("mpfr", "^mpfr-([0-9.]+).tar.bz2$");
   ("mpc", "^mpc-([0-9.]+).tar.gz$");
   ("isl", "^isl-([0-9.]+).tar.bz2$");
   ("cloog", "^cloog-([0-9.]+).tar.gz$");
   ("mingw64", ".+?([0-9.]+).tar.gz$")].

Definition FILENAME_VERSION_CAPTURE : list (string * Z) :=
  [("gcc", 1%Z); ("binutils", 1%Z); ("gmp", 1%Z); ("mpfr", 1%Z); ("mpc", 1%Z);
   ("isl", 1%Z); ("cloog", 1%Z); ("mingw64", 1%Z)].

Definition FOLDER_PATTERNS : list (string * option string) :=
  [("gcc", Some "^gcc-([0-9.]+)$"); ("binutils", None); ("gmp", None); ("mpfr", None);
   ("mpc", None); ("isl", None); ("cloog", None)].

Definition FOLDER_VERSION_CAPTURE : list (string * Z) :=
  [("gcc", 1%Z); ("binutils", 1%Z); ("gmp", 1%Z); ("mpfr", 1%Z); ("mpc", 1%Z);
   ("isl", 1%Z); ("cloog", 1%Z)].

Definition SAVE_PATH : list (string * string) :=
  [("gcc", "./dl/gcc.tar.gz");
   ("binutils", "./dl/binutils.tar.bz2");
   ("gmp", "./dl/gmp.tar.bz2");
   ("mpfr", "./dl/mpfr.tar.bz2");
   ("mpc", "./dl/mpc.tar.gz");
   ("isl", "./dl/isl.tar.bz2");
   ("cloog", "./dl/cloog.tar.gz");
   ("mingw64", "./dl/mingw64.tar.gz")].

(** The globals the script assigns to after their definition. *)
Record settings : Type := Settings {
  WORK_FOLDER : string;
  GNU_SERVER : string;
  GCC_SERVER : string;
  PREFERRED_FOLDER_VERSION : list (string * string);
  PREFERRED_FILE_VERSION : list (string * string);
  USE_SJLJ : bool
}.

(** Their values when the module has been read. *)
Definition initial_settings : settings :=
  {| WORK_FOLDER := "~/MWTC/";
     GNU_SERVER := "ftp.yzu.edu.tw";
     GCC_SERVER := "gcc.gnu.org";
     PREFERRED_FOLDER_VERSION :=
       [("gcc", "99"); ("binutils", "99"); ("gmp", "99"); ("mpfr", "99"); ("mpc", "99");
        ("isl", "99"); ("cloog", "99")];
     PREFERRED_FILE_VERSION :=
       [("gcc", "99"); ("binutils", "99"); ("gmp", "99"); ("mpfr", "99"); ("mpc", "99");
        ("isl", "99"); ("cloog", "99"); ("mingw64", "99")];
     USE_SJLJ := false |}.

(** [FTP_SERVERS = {"gcc": GCC_SERVER, "binutils": GNU_SERVER, ...}]: the
    dictionary holds the values the two names had when it was built. *)
Definition FTP_SERVERS : list (string * string) :=
  [("gcc", GCC_SERVER initial_settings);
   ("binutils", GNU_SERVER initial_settings);
   ("gmp", GCC_SERVER initial_settings);
   ("mpfr", GCC_SERVER initial_settings);
   ("mpc", GCC_SERVER initial_settings);
   ("isl", GCC_SERVER initial_settings);
   ("cloog", GCC_SERVER initial_settings)].

(** [vars(parser.parse_args())] *)
Record arguments : Type := Arguments {
  arg_prefix : string;
  arg_gcc : string;
  arg_binutils : string;
  arg_mingw : string;
  arg_sjlj : bool
}.

(** The assignments from [args] at the end of the script. *)
Definition read_arguments (args : arguments) (g : settings) : settings :=
  let folder_version := Dict.set (PREFERRED_FOLDER_VERSION g) "gcc" (arg_gcc args) in
  let file_version := Dict.set (PREFERRED_FILE_VERSION g) "gcc" (arg_gcc args) in
  let folder_version := Dict.set folder_version "binutils" (arg_binutils args) in
  let file_version := Dict.set file_version "binutils" (arg_binutils args) in
  let file_version := Dict.set file_version "mingw64" (arg_mingw args) in
  {| WORK_FOLDER := arg_prefix args;
     GNU_SERVER := GNU_SERVER g;
     GCC_SERVER := GCC_SERVER g;
     PREFERRED_FOLDER_VERSION := folder_version;
     PREFERRED_FILE_VERSION := file_version;
     USE_SJLJ := if arg_sjlj args then true else false |}.

(** [mirror, latency = select_mirror(...); if mirror: SERVER = mirror], for
    the GNU mirrors and then for the GCC mirrors. *)
Definition use_mirror (found : option (string * Q)) (server : string) : string :=
  match found with
  | Some (mirror, latency) => if str_truthy mirror then mirror else server
  | None => server
  end.

Definition choose_mirrors (N : Network) (g : settings) : pyresult settings :=
  match select_mirror N GNU_MIRRORS 1 "FTP" 5 with
  | Raise e => Raise e
  | Return gnu =>
      match select_mirror N GCC_MIRRORS 1 "FTP" 5 with
      | Raise e => Raise e
      | Return gcc =>
          Return {| WORK_FOLDER := WORK_FOLDER g;
                    GNU_SERVER := use_mirror gnu (GNU_SERVER g);
                    GCC_SERVER := use_mirror gcc (GCC_SERVER g);
                    PREFERRED_FOLDER_VERSION := PREFERRED_FOLDER_VERSION g;
                    PREFERRED_FILE_VERSION := PREFERRED_FILE_VERSION g;
                    USE_SJLJ := USE_SJLJ g |}
      end
  end.

Section Components.
Context (P : Platform) (N : Network).
Local Open Scope call_scope.

(** The arguments are looked up from left to right; the value of [ftp_get]
    is dropped and the function returns [None]. *)
Definition ftp_get_by_component (g : settings) (component : string) : M pyval :=
  os_chdir P (WORK_FOLDER g);;
  server ← result (Dict.item FTP_SERVERS component);
  folder ← result (Dict.item PRIMARY_FTP_FOLDERS component);
  filename_re ← result (Dict.item FILENAME_PATTERNS component);
  file_version_capture_group ← result (Dict.item FILENAME_VERSION_CAPTURE component);
  save_path ← result (Dict.item SAVE_PATH component);
  preferred_version ← result (Dict.item (PREFERRED_FILE_VERSION g) component);
  folder_re ← result (Dict.item FOLDER_PATTERNS component);
  folder_version_capture_group ← result (Dict.item FOLDER_VERSION_CAPTURE component);
  preferred_folder_version ← result (Dict.item (PREFERRED_FOLDER_VERSION g) component);
  ftp_get P N server folder filename_re file_version_capture_group (Some save_path)
    preferred_version folder_re folder_version_capture_group preferred_folder_version;;
  save_path ← result (Dict.item SAVE_PATH component);
  pkg_dir ← result (Dict.item LOCATIONS "pkg_dir");
  untar P save_path pkg_dir;;
  ret PyNone.

(** [html_get] is called with four arguments: its [preferred_version] is the
    default, ["99"]. *)
Definition html_get_by_component (g : settings) (component : string) : M pyval :=
  os_chdir P (WORK_FOLDER g);;
  url ← result (Dict.item HTML_URLS component);
  filename_re ← result (Dict.item FILENAME_PATTERNS component);
  file_version_capture_group ← result (Dict.item FILENAME_VERSION_CAPTURE component);
  save_path ← result (Dict.item SAVE_PATH component);
  html_get P N url filename_re file_version_capture_group (Some save_path) "99";;
  save_path ← result (Dict.item SAVE_PATH component);
  pkg_dir ← result (Dict.item LOCATIONS "pkg_dir");
  untar P save_path pkg_dir;;
  ret PyNone.

End Components.

(** One entry of [os.scandir(LOCATIONS["pkg_dir"])]. *)
Record dir_entry : Type := DirEntry {
  entry_name : string;
  entry_path : string;
  entry_is_dir : bool
}.

Definition all_components : list string :=
  ["binutils"; "gcc"; "gmp"; "mpfr"; "mpc"; "isl"; "cloog"; "mingw-w64"].

(** The loop of [main] that fills [source_folders]: every component whose
    name occurs in the name of a directory gets the path of that
    directory. *)
Definition note_entry (source_folders : list (string * string)) (entry : dir_entry)
    : list (string * string) :=
  if negb (entry_is_dir entry) then source_folders
  else
    fold_left
      (λ folders component,
         if contains component (entry_name entry)
         then Dict.set folders component (entry_path entry)
         else folders)
      all_components source_folders.

Definition find_source_folders (entries : list dir_entry) : list (string * string) :=
  fold_left note_entry entries [].

(** [run_nproc], on the integer that [int] reads from the output of
    [nproc]. *)
Definition run_nproc (cores : Z) : Z :=
  if (cores >? 2)%Z then (cores - 1)%Z else cores.

(** A network whose FTP server accepts the session and the listing and
    breaks the transfer off after the first block, one whose server refuses
    the login, one whose server refuses the greeting and hangs up, one where
    every host answers a probe in the same time, and a world where CC is set
    and empty. *)
Module Faulty.

Definition network : Network :=
  {| sock_connect := sock_connect Demo.network;
     ftp_open_session := ftp_open_session Demo.network;
     ftp_chdir := ftp_chdir Demo.network;
     ftp_mlsd := ftp_mlsd Demo.network;
     ftp_nlst := ftp_nlst Demo.network;
     ftp_retr := λ server dir name, None;
     ftp_retr_partial := λ server dir name, "bytes of ";
     http_links := λ url, Some ["index.html"];
     http_body := http_body Demo.network |}.

Definition no_login : Network :=
  {| sock_connect := sock_connect Demo.network;
     ftp_open_session := λ server, LoginFails;
     ftp_chdir := ftp_chdir Demo.network;
     ftp_mlsd := ftp_mlsd Demo.network;
     ftp_nlst := ftp_nlst Demo.network;
     ftp_retr := ftp_retr Demo.network;
     ftp_retr_partial := ftp_retr_partial Demo.network;
     http_links := http_links Demo.network;
     http_body := http_body Demo.network |}.

Definition no_greeting : Network :=
  {| sock_connect := sock_connect Demo.network;
     ftp_open_session := λ server, GreetingFails false;
     ftp_chdir := ftp_chdir Demo.network;
     ftp_mlsd := ftp_mlsd Demo.network;
     ftp_nlst := ftp_nlst Demo.network;
     ftp_retr := ftp_retr Demo.network;
     ftp_retr_partial := ftp_retr_partial Demo.network;
     http_links := http_links Demo.network;
     http_body := http_body Demo.network |}.

Definition open_mirrors : Network :=
  {| sock_connect := λ server port timeout, Connected (1 # 100);
     ftp_open_session := ftp_open_session Demo.network;
     ftp_chdir := ftp_chdir Demo.network;
     ftp_mlsd := ftp_mlsd Demo.network;
     ftp_nlst := ftp_nlst Demo.network;
     ftp_retr := ftp_retr Demo.network;
     ftp_retr_partial := ftp_retr_partial Demo.network;
     http_links := http_links Demo.network;
     http_body := http_body Demo.network |}.

Definition empty_cc : world :=
  {| files := ∅;
     dirs := {["/work"]};
     cwd := "/work";
     environ := {["PATH" := "/usr/bin"; "CC" := ""]} |}.

End Faulty.

(** * Properties *)

(** ** Dictionaries *)

Section DictFacts.
Context {K V : Type} `{EqDecision K}.
Implicit Types (d : list (K * V)) (k : K) (v : V).

Lemma dict_get_set_eq d k v : Dict.get (Dict.set d k v) k = Some v.
Proof.
  induction d as [|[k' v'] d IH]; simpl.
  - by rewrite decide_True.
  - destruct (decide (k' = k)) as [->|Hne]; simpl.
    + by rewrite decide_True.
    + by rewrite decide_False.
Qed.

Lemma dict_get_set_ne d k k' v : k ≠ k' → Dict.get (Dict.set d k v) k' = Dict.get d k'.
Proof.
  intros Hne. induction d as [|[k0 v0] d IH]; simpl.
  - by rewrite decide_False.
  - destruct (decide (k0 = k)) as [->|Hne0]; simpl.
    + by rewrite !decide_False.
    + destruct (decide (k0 = k')); [done | exact IH].
Qed.

Lemma dict_set_fresh d k v : Dict.get d k = None → Dict.set d k v = d ++ [(k, v)].
Proof.
  induction d as [|[k' v'] d IH]; simpl; [done|].
  destruct (decide (k' = k)); [done|]. intros Hd. by rewrite IH.
Qed.

Lemma dict_get_elem_of d k v : Dict.get d k = Some v → (k, v) ∈ d.
Proof.
  induction d as [|[k' v'] d IH]; simpl; [done|].
  destruct (decide (k' = k)) as [->|]; [intros [= ->]; left | right; auto].
Qed.

Lemma dict_get_None d k : Dict.get d k = None ↔ k ∉ d.*1.
Proof.
  induction d as [|[k' v'] d IH]; csimpl.
  - split; [intros _; apply not_elem_of_nil | done].
  - destruct (decide (k' = k)) as [->|Hne].
    + split; [done | intros []; left].
    + rewrite IH, not_elem_of_cons. split; [by split | by intros [_ ?]].
Qed.

End DictFacts.

(** ** Sorting *)

Section SortedFacts.
Context {A K : Type} (key : A → K) (leb : K → K → bool).

Lemma insert_by_perm x l : insert_by key leb x l ≡ₚ x :: l.
Proof.
  induction l as [|y l IH]; simpl; [done|].
  destruct (leb (key x) (key y)); [done|].
  rewrite IH. apply Permutation_swap.
Qed.

Lemma sorted_by_perm l : sorted_by key leb l ≡ₚ l.
Proof.
  induction l as [|x l IH]; simpl; [done|].
  by rewrite insert_by_perm, IH.
Qed.

Lemma sorted_by_length l : length (sorted_by key leb l) = length l.
Proof. by rewrite sorted_by_perm. Qed.

Hypothesis leb_total : ∀ a b, leb a b = true ∨ leb b a = true.
Hypothesis leb_trans : ∀ a b c, leb a b = true → leb b c = true → leb a c = true.

Lemma insert_by_ascending x l :
  ascending key leb l → ascending key leb (insert_by key leb x l).
Proof.
  induction 1 as [|y l Hy Hl IH]; simpl.
  - constructor; constructor.
  - destruct (leb (key x) (key y)) eqn:Hxy.
    + constructor; [|by constructor].
      constructor; [done|].
      eapply Forall_impl; [exact Hy|]. simpl. intros z Hz. eauto.
    + constructor; [|done].
      rewrite insert_by_perm. constructor; [|done].
      destruct (leb_total (key x) (key y)); congruence.
Qed.

Lemma sorted_by_ascending l : ascending key leb (sorted_by key leb l).
Proof.
  induction l; simpl; [constructor | by apply insert_by_ascending].
Qed.

Lemma ascending_lookup l i j x y :
  ascending key leb l → l !! i = Some x → l !! j = Some y → (i ≤ j)%nat →
  leb (key x) (key y) = true.
Proof.
  intros Hl. revert i j. induction Hl as [|z l Hz Hl IH]; intros i j Hi Hj Hij.
  - done.
  - destruct i as [|i], j as [|j]; simpl in *; simplify_eq.
    + destruct (leb_total (key x) (key x)); done.
    + rewrite Forall_forall in Hz. apply Hz. eapply list_elem_of_lookup_2, Hj.
    + lia.
    + eapply IH; eauto. lia.
Qed.

Lemma ascending_last l x y :
  ascending key leb l → last l = Some x → y ∈ l → leb (key y) (key x) = true.
Proof.
  intros Hl Hx Hy. apply list_elem_of_lookup in Hy as [j Hj].
  rewrite last_lookup in Hx.
  eapply ascending_lookup; eauto.
  apply lookup_lt_Some in Hj. lia.
Qed.

(** What [sorted(l, key=...).pop()] returns: an element of [l] whose key is
    maximal. *)
Lemma pop_sorted_by l :
  l ≠ [] →
  ∃ x, pop (sorted_by key leb l) = Return x ∧ x ∈ l ∧
       ∀ y, y ∈ l → leb (key y) (key x) = true.
Proof.
  intros Hne. unfold pop.
  destruct (last (sorted_by key leb l)) as [x|] eqn:Hlast.
  - exists x. split; [done|]. split.
    + rewrite <- (sorted_by_perm l). by eapply last_Some_elem_of.
    + intros y Hy. eapply ascending_last; eauto using sorted_by_ascending.
      by rewrite sorted_by_perm.
  - apply last_None in Hlast. destruct l; [done|].
    apply (f_equal length) in Hlast. rewrite sorted_by_length in Hlast. done.
Qed.

End SortedFacts.

Lemma string_leb_total (a b : string) : String.leb a b = true ∨ String.leb b a = true.
Proof. apply String.leb_total. Qed.

Lemma string_leb_trans (a b c : string) :
  String.leb a b = true → String.leb b c = true → String.leb a c = true.
Proof.
  intros Hab Hbc. apply Is_true_true.
  change (String.le a c). transitivity b; apply Is_true_true; done.
Qed.

Lemma Qle_bool_total (a b : Q) : Qle_bool a b = true ∨ Qle_bool b a = true.
Proof.
  rewrite !Qle_bool_iff. destruct (Qlt_le_dec a b) as [Hlt|Hle]; [left | by right].
  by apply Qlt_le_weak.
Qed.

Lemma Qle_bool_trans (a b c : Q) :
  Qle_bool a b = true → Qle_bool b c = true → Qle_bool a c = true.
Proof. rewrite !Qle_bool_iff. apply Qle_trans. Qed.

(** ** The dictionaries of a scan *)

Lemma keyed_from_get k l i :
  Dict.get (keyed_from k l) i = if decide (k ≤ i)%nat then l !! (i - k)%nat else None.
Proof.
  revert k. induction l as [|x l IH]; intros k; simpl.
  - by destruct (decide (k ≤ i)%nat).
  - destruct (decide (k = i)) as [->|Hne].
    + rewrite decide_True by lia. by rewrite Nat.sub_diag.
    + rewrite IH. destruct (decide (S k ≤ i)%nat), (decide (k ≤ i)%nat); try lia; [|done].
      by replace (i - k)%nat with (S (i - S k)) by lia.
Qed.

Lemma keyed_get l i : Dict.get (keyed l) i = l !! i.
Proof. unfold keyed. rewrite keyed_from_get, decide_True by lia. by rewrite Nat.sub_0_r. Qed.

Lemma keyed_from_app k l x :
  keyed_from k (l ++ [x]) = keyed_from k l ++ [((k + length l)%nat, x)].
Proof.
  revert k. induction l as [|y l IH]; intros k; simpl.
  - by rewrite Nat.add_0_r.
  - rewrite IH. by replace (S k + length l)%nat with (k + S (length l))%nat by lia.
Qed.

Lemma keyed_set_next l x : Dict.set (keyed l) (length l) x = keyed (l ++ [x]).
Proof.
  rewrite dict_set_fresh.
  - unfold keyed. by rewrite keyed_from_app.
  - rewrite keyed_get. apply lookup_ge_None. lia.
Qed.

Lemma keyed_from_elem_of k l i x :
  (i, x) ∈ keyed_from k l ↔ (k ≤ i)%nat ∧ l !! (i - k)%nat = Some x.
Proof.
  revert k. induction l as [|y l IH]; intros k; simpl.
  - rewrite elem_of_nil. split; [done | by intros [_ ?]].
  - rewrite elem_of_cons, IH. split.
    + intros [[= -> ->]|[Hle Hl]].
      * split; [lia|]. by rewrite Nat.sub_diag.
      * split; [lia|]. by replace (i - k)%nat with (S (i - S k)) by lia.
    + intros [Hle Hl]. destruct (decide (i = k)) as [->|Hne].
      * left. rewrite Nat.sub_diag in Hl. by simplify_eq/=.
      * right. split; [lia|].
        by replace (i - k)%nat with (S (i - S k)) in Hl by lia.
Qed.

Lemma keyed_elem_of l i x : (i, x) ∈ keyed l ↔ l !! i = Some x.
Proof.
  unfold keyed. rewrite keyed_from_elem_of, Nat.sub_0_r.
  split; [by intros [_ ?] | split; [lia | done]].
Qed.

Lemma record_match_scanned entries name version :
  record_match (scanned entries) name version = scanned (entries ++ [(name, version)]).
Proof.
  unfold record_match, scanned. cbn [versions names keyid].
  rewrite !fmap_app. cbn [fmap list_fmap fst snd].
  rewrite <- !keyed_set_next, !length_fmap, length_app. f_equal. simpl. lia.
Qed.

(** What the loop over a name listing (NLST, or the links of a page) leaves
    in the dictionaries. *)
Lemma scan_names_scanned P pattern group name_list :
  scan_names P pattern group name_list = scanned (matched P pattern group name_list).
Proof.
  unfold scan_names, matched. change no_matches with (scanned []).
  rewrite <- (app_nil_l (omap _ name_list)). generalize (@nil (string * string)).
  induction name_list as [|name l IH]; intros entries; simpl.
  - by rewrite app_nil_r.
  - destruct (re_fullmatch P pattern name) as [m|]; simpl.
    + rewrite record_match_scanned, IH. by rewrite <- app_assoc.
    + apply IH.
Qed.

(** The same for the loop over an MLSD listing. *)
Lemma scan_mlsd_scanned P pattern group kind listing :
  scan_mlsd P pattern group kind listing =
  scanned (matched_mlsd P pattern group kind listing).
Proof.
  unfold scan_mlsd, matched_mlsd, matched. change no_matches with (scanned []).
  rewrite <- (app_nil_l (omap _ _)). generalize (@nil (string * string)).
  induction listing as [|[name fact] l IH]; intros entries; simpl.
  - by rewrite app_nil_r.
  - rewrite filter_cons. simpl. case_bool_decide as Hkind; simpl.
    + rewrite decide_True by done. simpl.
      destruct (re_fullmatch P pattern name) as [m|]; simpl.
      * rewrite record_match_scanned, IH. by rewrite <- app_assoc.
      * apply IH.
    + rewrite decide_False by done. apply IH.
Qed.

(** ** Version selection *)

Lemma find_version_None items preferred :
  find_version items preferred = None ↔ ∀ k v, (k, v) ∈ items → v ≠ preferred.
Proof.
  induction items as [|[k v] items IH]; simpl.
  - split; [intros _ k v Hin; by apply elem_of_nil in Hin | done].
  - case_bool_decide as Hv.
    + split; [done|]. intros Hall. exfalso. eapply Hall; [left | done].
    + rewrite IH. split.
      * intros Hall k' v' [[= -> ->]|Hin]%elem_of_cons; eauto.
      * intros Hall k' v' Hin. eapply Hall. by right.
Qed.

(** The loop stops at the first entry whose version is the preferred one. *)
Lemma find_version_first versions i preferred :
  versions !! i = Some preferred →
  (∀ j v, (j < i)%nat → versions !! j = Some v → v ≠ preferred) →
  find_version (keyed versions) preferred = Some i.
Proof.
  unfold keyed. replace (Some i) with (Some (0 + i)%nat) by done.
  generalize 0%nat as k. revert i.
  induction versions as [|v versions IH]; intros i k Hi Hbefore; [done|].
  simpl. destruct i as [|i]; simpl in *.
  - simplify_eq. rewrite bool_decide_eq_true_2 by done. by rewrite Nat.add_0_r.
  - rewrite bool_decide_eq_false_2 by (apply (Hbefore 0%nat); [lia | done]).
    rewrite (IH i (S k)); [f_equal; lia | done |].
    intros j v' Hj Hv'. apply (Hbefore (S j)); [lia | done].
Qed.

(** The fallback: whatever the preferred version, when the key found is
    [None] or [0] the choice is an entry whose version is the greatest
    string. *)
Lemma select_version_latest (entries : list (string * string)) (preferred : string) :
  entries ≠ [] →
  key_truthy (find_version (keyed entries.*2) preferred) = false →
  ∃ name version,
    select_version (keyed entries.*2) (keyed entries.*1) preferred = Return name ∧
    (name, version) ∈ entries ∧
    ∀ name' version', (name', version') ∈ entries → String.leb version' version = true.
Proof.
  intros Hne Hkey. unfold select_version. rewrite Hkey. unfold latest_key.
  destruct (pop_sorted_by snd String.leb string_leb_total string_leb_trans
              (keyed entries.*2)) as ([k v] & -> & Hin & Hmax).
  { destruct entries; [done | discriminate]. }
  apply keyed_elem_of in Hin. rewrite list_lookup_fmap in Hin.
  destruct (entries !! k) as [[name v']|] eqn:Hk; [|done].
  simpl in Hin. injection Hin as ->.
  exists name, v. split; [|split].
  - unfold Dict.item. by rewrite keyed_get, list_lookup_fmap, Hk.
  - by eapply list_elem_of_lookup_2.
  - intros name' version' [j Hj]%list_elem_of_lookup.
    apply (Hmax (j, version')). apply keyed_elem_of.
    by rewrite list_lookup_fmap, Hj.
Qed.

(** A preferred version whose first occurrence is at a key other than 0 is
    chosen. *)
Lemma select_version_preferred (entries : list (string * string)) i name preferred :
  entries !! S i = Some (name, preferred) →
  (∀ j n v, (j < S i)%nat → entries !! j = Some (n, v) → v ≠ preferred) →
  select_version (keyed entries.*2) (keyed entries.*1) preferred = Return name.
Proof.
  intros Hi Hbefore. unfold select_version.
  rewrite (find_version_first _ (S i)).
  - simpl. unfold Dict.item. by rewrite keyed_get, list_lookup_fmap, Hi.
  - by rewrite list_lookup_fmap, Hi.
  - intros j v Hj. rewrite list_lookup_fmap.
    destruct (entries !! j) as [[n v']|] eqn:Hn; [|done]. intros [= <-]. eauto.
Qed.

(** A preferred version at key 0 is found and then dropped by the test
    [if foundkey:]: the choice is that of the fallback. *)
Lemma select_version_key_zero (entries : list (string * string)) name preferred :
  entries !! 0%nat = Some (name, preferred) →
  key_truthy (find_version (keyed entries.*2) preferred) = false.
Proof.
  intros H0. rewrite (find_version_first _ 0%nat); [done | | intros; lia].
  by rewrite list_lookup_fmap, H0.
Qed.

(** C1 (the code departs from the claim). The listing has the archives of
    versions 1.0 and 2.5, in this order, and the preferred version is 1.0,
    present once, at the first match. The loop finds key 0, the test
    [if foundkey:] takes 0 for "not found", and the selection returns the
    string-maximal entry, 2.5: in the selection step alone, and through
    [ftp_get] and [html_get], whose saved path is that of version 2.5. *)
Theorem C1_preferred_at_first_match_is_dropped :
  select_version (keyed ["1.0"; "2.5"]) (keyed ["pkg-1.0.tar.gz"; "pkg-2.5.tar.gz"]) "1.0"
    = Return "pkg-2.5.tar.gz" ∧
  (ftp_get Demo.platform Demo.network "ftp.example.org" "/pub/pkg/" "pkg-*.tar.gz" 1
     (Some "/work/dl/") "1.0" None 1 "99" Demo.start).1.1
    = Return (PyStr "/work/dl/pkg-2.5.tar.gz") ∧
  (html_get Demo.platform Demo.network "http://example.org/" "pkg-*.tar.gz" 1
     (Some "/work/dl/") "1.0" Demo.start).1.1
    = Return (PyStr "/work/dl/pkg-2.5.tar.gz").
Proof. split; [|split]; vm_compute; reflexivity. Qed.

(** C2. For every non-empty list of matched entries (name, version) none of
    whose versions is the preferred one, the selection, on the dictionaries
    the scan has built from them ([scan_names_scanned], [scan_mlsd_scanned]),
    returns the name of an entry whose version is the greatest under the
    comparison of strings, [String.leb]; on the versions 7.1.0, 8.3.0, 10.0.1
    with preferred 99 it returns the entry of 8.3.0. *)
Theorem C2_fallback_is_string_max (entries : list (string * string)) (preferred : string) :
  entries ≠ [] →
  Forall (λ entry, entry.2 ≠ preferred) entries →
  (∃ name version,
     select_version (versions (scanned entries)) (names (scanned entries)) preferred
       = Return name ∧
     (name, version) ∈ entries ∧
     ∀ name' version', (name', version') ∈ entries → String.leb version' version = true) ∧
  select_version (keyed ["7.1.0"; "8.3.0"; "10.0.1"])
    (keyed ["gcc-7.1.0"; "gcc-8.3.0"; "gcc-10.0.1"]) "99" = Return "gcc-8.3.0".
Proof.
  intros Hne Hnone. split; [|vm_compute; reflexivity].
  cbn [scanned versions names].
  apply select_version_latest; [done|].
  replace (find_version (keyed entries.*2) preferred) with (@None nat); [done|].
  symmetry. apply find_version_None. intros k v Hin%keyed_elem_of.
  rewrite list_lookup_fmap in Hin.
  destruct (entries !! k) as [[n v']|] eqn:Hk; simplify_eq/=.
  rewrite Forall_forall in Hnone.
  apply (Hnone (n, v)). by eapply list_elem_of_lookup_2.
Qed.

(** The three GCC folders, with the default preferred version. *)
Lemma C2_fallback_is_string_max_witness :
  (∃ name version,
     select_version
       (versions
          (scanned [("gcc-7.1.0", "7.1.0"); ("gcc-8.3.0", "8.3.0"); ("gcc-10.0.1", "10.0.1")]))
       (names
          (scanned [("gcc-7.1.0", "7.1.0"); ("gcc-8.3.0", "8.3.0"); ("gcc-10.0.1", "10.0.1")]))
       "99" = Return name ∧
     (name, version) ∈ [("gcc-7.1.0", "7.1.0"); ("gcc-8.3.0", "8.3.0"); ("gcc-10.0.1", "10.0.1")] ∧
     ∀ name' version',
       (name', version') ∈ [("gcc-7.1.0", "7.1.0"); ("gcc-8.3.0", "8.3.0"); ("gcc-10.0.1", "10.0.1")] →
       String.leb version' version = true) ∧
  select_version (keyed ["7.1.0"; "8.3.0"; "10.0.1"])
    (keyed ["gcc-7.1.0"; "gcc-8.3.0"; "gcc-10.0.1"]) "99" = Return "gcc-8.3.0".
Proof.
  apply (C2_fallback_is_string_max
           [("gcc-7.1.0", "7.1.0"); ("gcc-8.3.0", "8.3.0"); ("gcc-10.0.1", "10.0.1")] "99").
  - discriminate.
  - repeat constructor; simpl; discriminate.
Defined.

(** ** [select_mirror] *)

Section MirrorFacts.
Context (N : Network).
Implicit Types (server_list : list string) (port priority : Z) (timeout : Q).

Lemma probe_servers_caught server_list port timeout benchmark :
  all_caught N server_list port timeout →
  probe_servers N server_list port timeout benchmark =
  Return (fold_left
            (λ benchmark server,
               match sock_connect N server port timeout with
               | Connected t => Dict.set benchmark server t
               | _ => benchmark
               end)
            server_list benchmark).
Proof.
  intros Hall. revert benchmark.
  induction Hall as [|server rest Hserver _ IH]; intros benchmark; simpl; [done|].
  destruct (sock_connect N server port timeout); done || apply IH.
Qed.

(** A probe that raises an exception outside the three caught ones ends the
    call with that exception, whatever the other hosts do. *)
Lemma probe_servers_refused before server rest port timeout benchmark :
  all_caught N before port timeout →
  sock_connect N server port timeout = Refused →
  probe_servers N (before ++ server :: rest) port timeout benchmark =
  Raise ConnectionRefusedError.
Proof.
  intros Hall Hserver. revert benchmark.
  induction Hall as [|s l Hs _ IH]; intros benchmark; simpl.
  - by rewrite Hserver.
  - destruct (sock_connect N s port timeout); done || apply IH.
Qed.

(** With every probe ending in one of the three caught exceptions, the
    result is the pair of [None]. *)
Lemma select_mirror_none_reachable server_list priority protocol timeout :
  Forall (λ server,
            sock_connect N server (port_of protocol) timeout = HostnameError ∨
            sock_connect N server (port_of protocol) timeout = AddressError ∨
            sock_connect N server (port_of protocol) timeout = TimedOut) server_list →
  select_mirror N server_list priority protocol timeout = Return None.
Proof.
  intros Hall. unfold select_mirror.
  assert (∀ benchmark,
    probe_servers N server_list (port_of protocol) timeout benchmark = Return benchmark)
    as ->; [|done].
  induction Hall as [|server rest Hserver _ IH]; intros benchmark; simpl; [done|].
  destruct Hserver as [-> | [-> | ->]]; apply IH.
Qed.

(** The rank, when no probe raises past the handlers and a host connected:
    the result is the entry of the benchmark, sorted by ascending latency,
    at index [priority - 1], brought back into [0, n - 1]. *)
Lemma select_mirror_rank server_list priority protocol timeout :
  let benchmark := reachable N server_list (port_of protocol) timeout in
  let sorted_servers := sorted_by snd Qle_bool benchmark in
  all_caught N server_list (port_of protocol) timeout →
  benchmark ≠ [] →
  ∃ mirror,
    select_mirror N server_list priority protocol timeout = Return (Some mirror) ∧
    sorted_servers ≡ₚ benchmark ∧
    ascending snd Qle_bool sorted_servers ∧
    ((1 ≤ priority ≤ Z.of_nat (length benchmark))%Z →
       sorted_servers !! Z.to_nat (priority - 1) = Some mirror) ∧
    ((Z.of_nat (length benchmark) < priority)%Z →
       last sorted_servers = Some mirror ∧
       ∀ other, other ∈ benchmark → (other.2 <= mirror.2)%Q) ∧
    ((priority < 1)%Z → sorted_servers !! 0%nat = Some mirror).
Proof.
  intros benchmark sorted_servers Hall Hne.
  unfold select_mirror. rewrite probe_servers_caught by done.
  fold (reachable N server_list (port_of protocol) timeout). fold benchmark.
  assert (0 < length benchmark)%nat as Hlen by (destruct benchmark; [done | simpl; lia]).
  rewrite (proj2 (Z.leb_gt _ _)) by lia.
  fold sorted_servers.
  set (index := Z.to_nat (Z.max 0 (Z.min (Z.of_nat (length benchmark)) priority - 1))).
  assert (index < length sorted_servers)%nat as Hindex.
  { unfold sorted_servers. rewrite sorted_by_length. unfold index. lia. }
  destruct (lookup_lt_is_Some_2 _ _ Hindex) as [mirror Hmirror].
  exists mirror. rewrite Hmirror.
  assert (ascending snd Qle_bool sorted_servers) as Hasc
    by apply (sorted_by_ascending _ _ Qle_bool_total Qle_bool_trans).
  split; [done|]. split; [apply sorted_by_perm|]. split; [done|].
  split; [|split].
  - intros Hin. rewrite <- Hmirror. f_equal. unfold index. lia.
  - intros Hbeyond.
    assert (last sorted_servers = Some mirror) as Hlast.
    { rewrite last_lookup, <- Hmirror. f_equal. unfold index, sorted_servers.
      rewrite sorted_by_length. lia. }
    split; [done|]. intros other Hother. apply Qle_bool_iff.
    eapply (ascending_last snd Qle_bool Qle_bool_total); eauto.
    unfold sorted_servers. by rewrite sorted_by_perm.
  - intros Hlow. rewrite <- Hmirror. f_equal. unfold index. lia.
Qed.

End MirrorFacts.

(** C3 (the code departs from the claim). One candidate, whose connection
    is refused: [socket.connect] raises [ConnectionRefusedError], which is
    none of [socket.herror], [socket.gaierror], [socket.timeout], so no
    handler of the loop takes it and [select_mirror] raises instead of
    returning the pair of [None]. *)
Theorem C3_refused_connection_raises :
  select_mirror Demo.network ["closed.example.org"] 1 "FTP" 5
    = Raise ConnectionRefusedError.
Proof. reflexivity. Qed.

(** C4 (the code departs from the claim). One host connects, one refuses
    the connection, and the rank asked for, 2, is beyond the one reachable
    host: the call raises [ConnectionRefusedError] where the claim has it
    return the reachable host. *)
Theorem C4_refused_connection_defeats_rank :
  select_mirror Demo.network ["near.example.org"; "closed.example.org"] 2 "FTP" 5
    = Raise ConnectionRefusedError.
Proof. reflexivity. Qed.
(** ** Strings *)

Lemma string_app_nil_r (s : string) : s +:+ "" = s.
Proof. induction s as [|c s IH]; [done|]. unfold String.app in *. simpl. by rewrite IH. Qed.

Lemma string_app_assoc (s t u : string) : (s +:+ t) +:+ u = s +:+ t +:+ u.
Proof. induction s as [|c s IH]; [done|]. unfold String.app in *. simpl. by rewrite IH. Qed.

Lemma prefix_refl (s : string) : String.prefix s s = true.
Proof. induction s as [|c s IH]; simpl; [done|]. by destruct (ascii_dec c c). Qed.

Lemma prefix_length (a b : string) :
  String.prefix a b = true → (String.length a ≤ String.length b)%nat.
Proof.
  revert a. induction b as [|c b IH]; intros [|d a]; simpl; try done; try lia.
  destruct (ascii_dec d c); [|done]. intros H%IH. lia.
Qed.

Lemma prefix_same_length (a b : string) :
  String.prefix a b = true → String.length a = String.length b → a = b.
Proof.
  revert a. induction b as [|c b IH]; intros [|d a]; simpl; try done.
  destruct (ascii_dec d c) as [->|]; [|done]. intros Hp [= Hl]. f_equal. auto.
Qed.

Lemma contains_refl (s : string) : contains s s = true.
Proof. destruct s; cbn [contains]; by rewrite prefix_refl. Qed.

Lemma contains_length (a b : string) :
  contains a b = true → (String.length a ≤ String.length b)%nat.
Proof.
  induction b as [|c b IH]; cbn [contains].
  - rewrite orb_false_r. apply prefix_length.
  - intros [H%prefix_length | H%IH]%orb_true_iff; simpl in *; lia.
Qed.

Lemma contains_same_length (a b : string) :
  contains a b = true → String.length a = String.length b → a = b.
Proof.
  destruct b as [|c b]; cbn [contains].
  - rewrite orb_false_r. apply prefix_same_length.
  - intros [H | H%contains_length]%orb_true_iff Hl.
    + by apply prefix_same_length.
    + simpl in Hl. lia.
Qed.

(** ** Calls *)

Section CallFacts.
Context (P : Platform).
Implicit Types (w : world) (src dst data : string).

Lemma sidecar_path_ne current src :
  abspath_in P current (src +:+ ".md5") ≠ abspath_in P current src.
Proof.
  unfold abspath_in.
  replace (if isabs (src +:+ ".md5") then src +:+ ".md5" else join current (src +:+ ".md5"))
    with ((if isabs src then src else join current src) +:+ ".md5");
    [apply normpath_sidecar|].
  destruct src as [|c r].
  - cbn [isabs]. unfold join. cbn [isabs].
    change ("" +:+ ".md5") with ".md5". cbn [isabs String.append].
    destruct (negb (str_truthy current) || ends_with_slash current).
    + by rewrite string_app_nil_r.
    + by rewrite !string_app_assoc.
  - change (String c r +:+ ".md5") with (String c (r +:+ ".md5")). cbn [isabs].
    case_bool_decide; [done|]. unfold join. cbn [isabs].
    rewrite bool_decide_eq_false_2 by done.
    destruct (negb (str_truthy current) || ends_with_slash current).
    + change (String c (r +:+ ".md5")) with (String c r +:+ ".md5"). by rewrite string_app_assoc.
    + change (String c (r +:+ ".md5")) with (String c r +:+ ".md5"). by rewrite !string_app_assoc.
Qed.

Lemma bind_ret {A B : Type} (a : A) (f : A → M B) w : bind (ret a) f w = f a w.
Proof. unfold bind, ret. by destruct (f a w) as [[? ?] ?]. Qed.

Lemma bind_raise {A B : Type} (e : exn) (f : A → M B) w :
  bind (raise e) f w = (Raise e, w, []).
Proof. done. Qed.

Lemma bind_result_Return {A B : Type} (a : A) (f : A → M B) w :
  bind (result (Return a)) f w = f a w.
Proof. unfold bind, result. by destruct (f a w) as [[? ?] ?]. Qed.

Lemma bind_result_Raise {A B : Type} (e : exn) (f : A → M B) w :
  bind (result (Raise e)) f w = (Raise e, w, []).
Proof. done. Qed.

Lemma bind_lift {A B : Type} (n : Net A) (f : A → M B) w :
  bind (lift n) f w =
  match n.1 with
  | Return a => let '(r, w', ev) := f a w in (r, w', n.2 ++ ev)
  | Raise e => (Raise e, w, n.2)
  end.
Proof. done. Qed.

Lemma bind_emit {B : Type} (e : event) (f : unit → M B) w :
  bind (emit e) f w = let '(r, w', ev) := f () w in (r, w', e :: ev).
Proof. done. Qed.

Lemma bind_bind {A B C : Type} (m : M A) (f : A → M B) (g : B → M C) w :
  bind (bind m f) g w = bind m (λ a, bind (f a) g) w.
Proof.
  unfold bind. destruct (m w) as [[[a|e] w1] ev1]; [|done].
  destruct (f a w1) as [[[b|e] w2] ev2]; [|done].
  destruct (g b w2) as [[r w3] ev3]. by rewrite app_assoc.
Qed.

Lemma bind_os_path_exists {B : Type} p (f : bool → M B) w :
  bind (os_path_exists P p) f w = f (exists_in P w p) w.
Proof. unfold bind, os_path_exists. by destruct (f _ w) as [[? ?] ?]. Qed.

Lemma bind_read_file {B : Type} p (f : string → M B) w :
  bind (read_file P p) f w =
  match files w !! abspath_in P (cwd w) p with
  | Some data => f data w
  | None => (Raise FileNotFoundError, w, [])
  end.
Proof.
  unfold bind, read_file. destruct (files w !! _); [|done].
  by destruct (f _ w) as [[? ?] ?].
Qed.

Lemma bind_os_makedirs {B : Type} p (f : unit → M B) w :
  bind (os_makedirs P p) f w =
  let '(r, w', ev) := f () (with_dir w (abspath_in P (cwd w) p)) in
  (r, w', MakeDirs (abspath_in P (cwd w) p) :: ev).
Proof. done. Qed.

Lemma bind_write_file {B : Type} p data (f : unit → M B) w :
  bind (write_file P p data) f w =
  let '(r, w', ev) := f () (with_file w (abspath_in P (cwd w) p) data) in
  (r, w', WriteFile (abspath_in P (cwd w) p) :: ev).
Proof. done. Qed.

End CallFacts.

(** ** [untar] *)

Section UntarFacts.
Context (P : Platform).
Implicit Types (w : world) (src dst data : string).

Lemma exists_in_file w p data :
  files w !! abspath_in P (cwd w) p = Some data → exists_in P w p = true.
Proof. intros Hp. unfold exists_in. by rewrite Hp. Qed.

Lemma exists_in_with_dir w p : exists_in P (with_dir w (abspath_in P (cwd w) p)) p = true.
Proof.
  unfold exists_in. cbn [with_dir files dirs cwd].
  rewrite (bool_decide_eq_true_2 (_ ∈ _)) by set_solver. apply orb_true_r.
Qed.

Lemma untar_destination_present w src dst data :
  files w !! abspath_in P (cwd w) src = Some data →
  exists_in P w dst = true →
  untar P src dst w = untar_in_place P w src dst data.
Proof.
  intros Hdata Hdst. unfold untar, hash_file_md5, untar_in_place.
  rewrite bind_os_path_exists, (exists_in_file _ _ _ Hdata). cbn [negb].
  rewrite bind_os_path_exists, Hdst. cbn [negb]. rewrite bind_ret.
  rewrite bind_bind, bind_os_path_exists, (exists_in_file _ _ _ Hdata). cbn [negb].
  rewrite bind_bind, bind_read_file, Hdata, bind_ret.
  rewrite bind_os_path_exists. unfold exists_in.
  destruct (files w !! abspath_in P (cwd w) (src +:+ ".md5")) as [old|] eqn:Hold.
  - rewrite (bool_decide_eq_true_2 (is_Some (Some old))) by eauto. cbn [orb].
    rewrite bind_bind, bind_read_file, Hold, bind_ret.
    destruct (contains (md5_hexdigest P data) old); [done|].
    rewrite bind_emit, bind_read_file, Hdata.
    destruct (tar_behaviour P data dst); done.
  - rewrite (bool_decide_eq_false_2 (is_Some None)) by (by intros [? ?]). cbn [orb].
    case_bool_decide.
    + by rewrite bind_bind, bind_read_file, Hold.
    + rewrite bind_ret, bind_emit, bind_read_file, Hdata.
      destruct (tar_behaviour P data dst); done.
Qed.

Lemma untar_destination_absent w src dst data :
  files w !! abspath_in P (cwd w) src = Some data →
  exists_in P w dst = false →
  untar P src dst w =
  let '(r, w', ev) := untar_in_place P (with_dir w (abspath_in P (cwd w) dst)) src dst data in
  (r, w', MakeDirs (abspath_in P (cwd w) dst) :: ev).
Proof.
  intros Hdata Hdst.
  rewrite <- (untar_destination_present (with_dir w _) src dst data)
    by (done || apply exists_in_with_dir).
  unfold untar at 1.
  rewrite bind_os_path_exists, (exists_in_file _ _ _ Hdata). cbn [negb].
  rewrite bind_os_path_exists, Hdst. cbn [negb]. rewrite bind_os_makedirs.
  unfold untar.
  rewrite bind_os_path_exists, (exists_in_file (with_dir w _) _ data) by done. cbn [negb].
  rewrite bind_os_path_exists, exists_in_with_dir. cbn [negb]. by rewrite bind_ret.
Qed.


Lemma untar_cases w src dst data :
  files w !! abspath_in P (cwd w) src = Some data →
  let w0 := ensured P w dst in
  files w0 = files w ∧ cwd w0 = cwd w ∧ exists_in P w0 dst = true ∧
  untar P src dst w =
  let '(r, w', ev) := untar_in_place P w0 src dst data in (r, w', ensured_events P w dst ++ ev).
Proof.
  intros Hdata. unfold ensured, ensured_events.
  destruct (exists_in P w dst) eqn:Hdst.
  - repeat split; try done. rewrite (untar_destination_present _ _ _ data) by done.
    by destruct (untar_in_place _ _ _ _ _) as [[? ?] ?].
  - repeat split; try done; [apply exists_in_with_dir|].
    by rewrite (untar_destination_absent _ _ _ data).
Qed.


Lemma exists_in_with_file w p q data :
  exists_in P w p = true → exists_in P (with_file w q data) p = true.
Proof.
  unfold exists_in. cbn [with_file files dirs cwd].
  intros [Hf%bool_decide_eq_true | Hd]%orb_true_iff; apply orb_true_iff; [left | by right].
  apply bool_decide_eq_true. destruct (decide (q = abspath_in P (cwd w) p)) as [->|Hne].
  - rewrite lookup_insert_eq. eauto.
  - by rewrite lookup_insert_ne.
Qed.

Lemma ensured_events_not_unpack w dst e :
  e ∈ ensured_events P w dst → is_unpack e = false ∧ (∀ p, is_write p e = false).
Proof.
  unfold ensured_events. destruct (exists_in P w dst).
  - by intros ?%elem_of_nil.
  - by intros ->%list_elem_of_singleton.
Qed.

(** The world in which [untar] has just recorded the digest of [data]. *)
Lemma untar_after_record w src dst data :
  files w !! abspath_in P (cwd w) src = Some data →
  exists_in P w dst = true →
  let w1 := with_file w (abspath_in P (cwd w) (src +:+ ".md5")) (md5_hexdigest P data) in
  untar P src dst w1 = (Return (PyStr dst), w1, []) ∧
  ∀ data',
    md5_hexdigest P data' ≠ md5_hexdigest P data →
    let second := untar P src dst (with_file w1 (abspath_in P (cwd w1) src) data') in
    TarOpen src ∈ second.2 ∧
    (tar_behaviour P data' dst ≠ OpenFails → Unpack src dst ∈ second.2).
Proof.
  intros Hdata Hdst w1.
  pose proof (sidecar_path_ne P (cwd w) src) as Hne.
  split.
  - rewrite (untar_destination_present w1 src dst data).
    + unfold untar_in_place, w1. cbn [with_file files cwd].
      by rewrite lookup_insert_eq, contains_refl.
    + unfold w1. cbn [with_file files cwd]. by rewrite lookup_insert_ne.
    + by apply exists_in_with_file.
  - intros data' Hdigest second. unfold second.
    rewrite (untar_destination_present _ src dst data').
    + unfold untar_in_place, w1. cbn [with_file files cwd dirs].
      rewrite lookup_insert_ne, lookup_insert_eq by done.
      destruct (contains (md5_hexdigest P data') (md5_hexdigest P data)) eqn:Hin.
      { apply contains_same_length in Hin; [done|]. by rewrite !md5_length. }
      destruct (tar_behaviour P data' dst); cbn [snd]; split; try done; set_solver.
    + unfold w1. cbn [with_file files cwd]. by rewrite lookup_insert_eq.
    + unfold w1. by do 2 apply exists_in_with_file.
Qed.

(** C6 (as amended). For every archive that [tarfile] extracts without an
    exception. Whatever was there before, a second [untar] of the unchanged
    bytes unpacks nothing. When the first run finds no sidecar that holds
    the digest of the archive (there is none, and no directory in its
    place, or there is one without the digest), the first run returns the
    destination, unpacks exactly once and leaves the digest in the sidecar;
    the second run on the unchanged bytes returns the destination with no
    event at all; and bytes with another digest make the second run open
    the archive again and, unless [tarfile.open] fails on the new bytes,
    unpack it. *)
Theorem C6_unchanged_archive_is_unpacked_once w src dst data :
  files w !! abspath_in P (cwd w) src = Some data →
  tar_behaviour P data dst = Extracts →
  let sidecar := abspath_in P (cwd w) (src +:+ ".md5") in
  let first := untar P src dst w in
  let w1 := first.1.2 in
  filter is_unpack (untar P src dst w1).2 = [] ∧
  (match files w !! sidecar with
   | Some old => contains (md5_hexdigest P data) old = false
   | None => (sidecar ∉ dirs w) ∧ abspath_in P (cwd w) dst ≠ sidecar
   end →
   first.1.1 = Return (PyStr dst) ∧
   filter is_unpack first.2 = [Unpack src dst] ∧
   files w1 !! sidecar = Some (md5_hexdigest P data) ∧
   untar P src dst w1 = (Return (PyStr dst), w1, []) ∧
   ∀ data',
     md5_hexdigest P data' ≠ md5_hexdigest P data →
     let second := untar P src dst (with_file w1 (abspath_in P (cwd w1) src) data') in
     TarOpen src ∈ second.2 ∧
     (tar_behaviour P data' dst ≠ OpenFails → Unpack src dst ∈ second.2)).
Proof.
  intros Hdata Hok sidecar first w1.
  destruct (untar_cases w src dst data Hdata) as (Hf0 & Hc0 & Hd0 & Hrun).
  assert (∀ p, p ∈ dirs (ensured P w dst) → p ∈ dirs w ∨ p = abspath_in P (cwd w) dst)
    as Hdirs0.
  { intros p. unfold ensured. destruct (exists_in P w dst); [by left|].
    cbn [with_dir dirs]. intros [->%elem_of_singleton|?]%elem_of_union; [by right | by left]. }
  assert (filter is_unpack (ensured_events P w dst) = []) as Hpre.
  { unfold ensured_events. by destruct (exists_in P w dst). }
  set (w0 := ensured P w dst) in *.
  assert (files w0 !! abspath_in P (cwd w0) src = Some data) as Hdata0
    by (by rewrite Hf0, Hc0).
  destruct (untar_after_record w0 src dst data Hdata0 Hd0) as [Hskip Hchanged].
  rewrite Hc0 in Hskip, Hchanged. fold sidecar in Hskip, Hchanged.
  subst first w1. rewrite Hrun. clear Hrun.
  pose proof (eq_refl (untar_in_place P w0 src dst data)) as Hplace.
  unfold untar_in_place at 2 in Hplace. rewrite Hok, Hc0, Hf0 in Hplace.
  fold sidecar in Hplace.
  destruct (files w !! sidecar) as [old|] eqn:Hold;
    [destruct (contains (md5_hexdigest P data) old) eqn:Hin | case_bool_decide as Hdir];
    rewrite Hplace; cbn [fst snd].
  - (* the sidecar was there and held the digest *)
    split; [|done].
    rewrite (untar_destination_present w0 src dst data), Hplace by done. done.
  - (* the sidecar was there without the digest *)
    split; [by rewrite Hskip|]. intros _.
    split; [done|]. split; [by rewrite filter_app, Hpre|].
    split; [cbn [with_file files]; apply lookup_insert_eq|].
    split; [done|]. intros data' Hdigest. by apply Hchanged.
  - (* a directory has the name of the sidecar *)
    split.
    + rewrite (untar_destination_present w0 src dst data), Hplace by done. done.
    + intros [Hnot Hdst]. by destruct (Hdirs0 _ Hdir).
  - (* there was no sidecar *)
    split; [by rewrite Hskip|]. intros _.
    split; [done|]. split; [by rewrite filter_app, Hpre|].
    split; [cbn [with_file files]; apply lookup_insert_eq|].
    split; [done|]. intros data' Hdigest. by apply Hchanged.
Qed.


(** Without a regular file at the archive path nothing is opened. *)
Lemma untar_no_archive w src dst :
  files w !! abspath_in P (cwd w) src = None →
  untar P src dst w =
  if exists_in P w src
  then (Raise FileNotFoundError, ensured P w dst, ensured_events P w dst)
  else (Return PyNone, w, []).
Proof.
  intros Hnone. unfold untar, hash_file_md5.
  rewrite bind_os_path_exists.
  destruct (exists_in P w src) eqn:Hsrc; cbn [negb]; [|done].
  rewrite bind_os_path_exists. unfold ensured, ensured_events.
  assert (∀ w', files w' = files w → cwd w' = cwd w → dirs w ⊆ dirs w' →
            exists_in P w' src = true) as Hsrc'.
  { intros w' Hf Hc Hd. unfold exists_in in *. rewrite Hf, Hc.
    apply orb_true_iff in Hsrc as [Hs|Hs]; apply orb_true_iff; [by left | right].
    apply bool_decide_eq_true in Hs. apply bool_decide_eq_true. set_solver. }
  destruct (exists_in P w dst); cbn [negb].
  - rewrite bind_ret, bind_bind, bind_os_path_exists, Hsrc. cbn [negb].
    by rewrite bind_bind, bind_read_file, Hnone.
  - rewrite bind_os_makedirs, bind_bind, bind_os_path_exists.
    rewrite Hsrc' by (done || set_solver). cbn [negb].
    rewrite bind_bind, bind_read_file. cbn [with_dir files cwd]. by rewrite Hnone.
Qed.

Lemma untar_in_place_write w src dst data p :
  WriteFile p ∈ (untar_in_place P w src dst data).2 →
  p = abspath_in P (cwd w) (src +:+ ".md5") ∧
  tar_behaviour P data dst = Extracts ∧
  (untar_in_place P w src dst data).2 = [TarOpen src; Unpack src dst; WriteFile p] ∧
  files (untar_in_place P w src dst data).1.2 !! p = Some (md5_hexdigest P data).
Proof.
  unfold untar_in_place.
  destruct (files w !! _) as [old|];
    [destruct (contains _ old) | case_bool_decide];
    try (by intros ?%elem_of_nil).
  all: destruct (tar_behaviour P data dst); cbn [fst snd]; intros Hw;
    repeat (apply elem_of_cons in Hw as [Hw|Hw]; try discriminate Hw);
    try (by apply elem_of_nil in Hw).
  all: injection Hw as ->; cbn [with_file files]; by rewrite lookup_insert_eq.
Qed.

Lemma untar_in_place_failed w src dst data :
  tar_behaviour P data dst ≠ Extracts →
  (untar_in_place P w src dst data).1.2 = w ∧
  ∀ p, WriteFile p ∉ (untar_in_place P w src dst data).2.
Proof.
  intros Hfail. split.
  - unfold untar_in_place.
    destruct (files w !! _) as [old|];
      [destruct (contains _ old) | case_bool_decide]; try done.
    all: by destruct (tar_behaviour P data dst).
  - intros p Hw. by apply untar_in_place_write in Hw as (_ & ? & _).
Qed.

Lemma ensured_events_MakeDirs w dst e :
  e ∈ ensured_events P w dst → ∃ p, e = MakeDirs p.
Proof.
  unfold ensured_events. destruct (exists_in P w dst).
  - by intros ?%elem_of_nil.
  - intros ->%list_elem_of_singleton. eauto.
Qed.

(** C7. [untar] writes the sidecar only after [extractall] has returned:
    a write of the sidecar is the last event of the run, right after the
    unpacking of an archive that extracts, and leaves the digest in the
    sidecar. When the archive was opened and the extraction did not succeed,
    no file is written, the sidecar in particular, and a second run opens
    the archive again, and unpacks again when the first run came to
    unpack. *)
Theorem C7_digest_recorded_only_after_extraction w src dst :
  let first := untar P src dst w in
  let sidecar := abspath_in P (cwd w) (src +:+ ".md5") in
  (WriteFile sidecar ∈ first.2 →
     ∃ data pre,
       files w !! abspath_in P (cwd w) src = Some data ∧
       tar_behaviour P data dst = Extracts ∧
       first.2 = pre ++ [Unpack src dst; WriteFile sidecar] ∧
       files first.1.2 !! sidecar = Some (md5_hexdigest P data)) ∧
  (∀ data,
     files w !! abspath_in P (cwd w) src = Some data →
     tar_behaviour P data dst ≠ Extracts →
     TarOpen src ∈ first.2 →
     files first.1.2 = files w ∧
     (WriteFile sidecar ∉ first.2) ∧
     TarOpen src ∈ (untar P src dst first.1.2).2 ∧
     (Unpack src dst ∈ first.2 → Unpack src dst ∈ (untar P src dst first.1.2).2)).
Proof.
  intros first sidecar.
  assert (∀ e, e ∈ ensured_events P w dst →
            e ≠ Unpack src dst ∧ e ≠ WriteFile sidecar ∧ e ≠ TarOpen src) as Hpre.
  { intros e [p ->]%ensured_events_MakeDirs. done. }
  destruct (files w !! abspath_in P (cwd w) src) as [data|] eqn:Hdata.
  - destruct (untar_cases w src dst data Hdata) as (Hf0 & Hc0 & Hd0 & Hrun).
    set (w0 := ensured P w dst) in *.
    assert (files w0 !! abspath_in P (cwd w0) src = Some data) as Hdata0
      by (by rewrite Hf0, Hc0).
    subst first. rewrite Hrun. clear Hrun.
    destruct (untar_in_place P w0 src dst data) as [[r w1] ev] eqn:Hplace.
    cbn [fst snd]. split.
    + intros [Hw|Hw]%elem_of_app; [by destruct (Hpre _ Hw) as (_ & [] & _) |].
      pose proof (untar_in_place_write w0 src dst data sidecar) as Hwrite.
      rewrite Hplace in Hwrite. cbn [fst snd] in Hwrite.
      destruct (Hwrite Hw) as (_ & Hok & -> & Hfile).
      exists data, (ensured_events P w dst ++ [TarOpen src]).
      repeat split; try done. by rewrite <- app_assoc.
    + intros data' [= <-] Hfail [Hopen|Hopen]%elem_of_app;
        [by destruct (Hpre _ Hopen) as (_ & _ & []) |].
      destruct (untar_in_place_failed w0 src dst data Hfail) as [Hw1 Hnowrite].
      rewrite Hplace in Hw1, Hnowrite. cbn [fst snd] in Hw1, Hnowrite. subst w1.
      rewrite (untar_destination_present w0 src dst data) by done. rewrite Hplace. cbn [snd].
      split; [done|]. split; [|split; [done|]].
      * intros [Hw|Hw]%elem_of_app;
          [by destruct (Hpre _ Hw) as (_ & [] & _) | by eapply Hnowrite].
      * intros [Hun|Hun]%elem_of_app; [by destruct (Hpre _ Hun) as ([] & _) | done].
  - subst first. rewrite untar_no_archive by done. split; [|done].
    destruct (exists_in P w src); cbn [snd].
    + intros Hw. by destruct (Hpre _ Hw) as (_ & [] & _).
    + by intros ?%elem_of_nil.
Qed.

End UntarFacts.

(** An archive that extracts, in a world without a sidecar, untarred
    twice. *)
Lemma C6_unchanged_archive_is_unpacked_once_witness :
  let w := Demo.holding "archive bytes" in
  let first := untar Demo.platform "/work/dl/pkg.tar.gz" "/work/pkgs" w in
  let w1 := first.1.2 in
  filter is_unpack (untar Demo.platform "/work/dl/pkg.tar.gz" "/work/pkgs" w1).2 = [] ∧
  first.1.1 = Return (PyStr "/work/pkgs") ∧
  filter is_unpack first.2 = [Unpack "/work/dl/pkg.tar.gz" "/work/pkgs"] ∧
  files w1 !! "/work/dl/pkg.tar.gz.md5"
    = Some (md5_hexdigest Demo.platform "archive bytes") ∧
  untar Demo.platform "/work/dl/pkg.tar.gz" "/work/pkgs" w1
    = (Return (PyStr "/work/pkgs"), w1, []) ∧
  ∀ data',
    md5_hexdigest Demo.platform data' ≠ md5_hexdigest Demo.platform "archive bytes" →
    let second :=
      untar Demo.platform "/work/dl/pkg.tar.gz" "/work/pkgs"
        (with_file w1 (abspath_in Demo.platform (cwd w1) "/work/dl/pkg.tar.gz") data') in
    TarOpen "/work/dl/pkg.tar.gz" ∈ second.2 ∧
    (tar_behaviour Demo.platform data' "/work/pkgs" ≠ OpenFails →
     Unpack "/work/dl/pkg.tar.gz" "/work/pkgs" ∈ second.2).
Proof.
  intros w first w1.
  destruct (C6_unchanged_archive_is_unpacked_once Demo.platform w
              "/work/dl/pkg.tar.gz" "/work/pkgs" "archive bytes" eq_refl eq_refl)
    as [Hsecond Hfirst].
  split; [exact Hsecond|]. apply Hfirst.
  split; [vm_compute; intros Hdir; discriminate Hdir | discriminate].
Defined.

(** C6 as stated fails: the extraction of this archive ends in an [IOError],
    which [untar] catches; no digest is recorded, and the second run, on the
    same bytes, unpacks again. *)
Lemma C6_failed_archive_is_unpacked_twice :
  let w := Demo.holding "read-only target" in
  let first := untar Demo.platform "/work/dl/pkg.tar.gz" "/work/pkgs" w in
  let second := untar Demo.platform "/work/dl/pkg.tar.gz" "/work/pkgs" first.1.2 in
  files first.1.2 !! "/work/dl/pkg.tar.gz" = files w !! "/work/dl/pkg.tar.gz" ∧
  filter is_unpack first.2 = [Unpack "/work/dl/pkg.tar.gz" "/work/pkgs"] ∧
  filter is_unpack second.2 = [Unpack "/work/dl/pkg.tar.gz" "/work/pkgs"].
Proof. vm_compute. repeat split; reflexivity. Qed.

(** An archive that extracts, and one whose extraction ends in an [IOError]. *)
Lemma C7_digest_recorded_only_after_extraction_witness :
  (let w := Demo.holding "archive bytes" in
   let first := untar Demo.platform "/work/dl/pkg.tar.gz" "/work/pkgs" w in
   ∃ data pre,
     files w !! "/work/dl/pkg.tar.gz" = Some data ∧
     tar_behaviour Demo.platform data "/work/pkgs" = Extracts ∧
     first.2 = pre ++ [Unpack "/work/dl/pkg.tar.gz" "/work/pkgs";
                       WriteFile "/work/dl/pkg.tar.gz.md5"] ∧
     files first.1.2 !! "/work/dl/pkg.tar.gz.md5" = Some (md5_hexdigest Demo.platform data)) ∧
  (let w := Demo.holding "read-only target" in
   let first := untar Demo.platform "/work/dl/pkg.tar.gz" "/work/pkgs" w in
   files first.1.2 = files w ∧
   (WriteFile "/work/dl/pkg.tar.gz.md5" ∉ first.2) ∧
   TarOpen "/work/dl/pkg.tar.gz"
     ∈ (untar Demo.platform "/work/dl/pkg.tar.gz" "/work/pkgs" first.1.2).2 ∧
   (Unpack "/work/dl/pkg.tar.gz" "/work/pkgs" ∈ first.2 →
    Unpack "/work/dl/pkg.tar.gz" "/work/pkgs"
      ∈ (untar Demo.platform "/work/dl/pkg.tar.gz" "/work/pkgs" first.1.2).2)).
Proof.
  split; intros w first.
  - apply (proj1 (C7_digest_recorded_only_after_extraction Demo.platform w
                    "/work/dl/pkg.tar.gz" "/work/pkgs")).
    vm_compute. set_solver.
  - apply (proj2 (C7_digest_recorded_only_after_extraction Demo.platform w
                    "/work/dl/pkg.tar.gz" "/work/pkgs") "read-only target").
    + reflexivity.
    + discriminate.
    + vm_compute. set_solver.
Defined.

(** C8 (the code departs from the claim). The archive is there and has no
    sidecar. When [extractall] raises [IOError] or [tarfile.ExtractError],
    [untar] catches it and returns the destination folder, the value of a
    success, where its docstring says "None if failed". When
    [tarfile.open] raises on a corrupt archive, or [extractall] raises any
    other exception, nothing catches it and [untar] raises. *)
Theorem C8_untar_failure_is_not_None :
  (untar Demo.platform "/work/dl/pkg.tar.gz" "/work/pkgs"
     (Demo.holding "read-only target")).1.1 = Return (PyStr "/work/pkgs") ∧
  (untar Demo.platform "/work/dl/pkg.tar.gz" "/work/pkgs"
     (Demo.holding "bad member")).1.1 = Return (PyStr "/work/pkgs") ∧
  (untar Demo.platform "/work/dl/pkg.tar.gz" "/work/pkgs"
     (Demo.holding "corrupt")).1.1 = Raise TarReadError ∧
  (untar Demo.platform "/work/dl/pkg.tar.gz" "/work/pkgs"
     (Demo.holding "truncated")).1.1 = Raise TarStreamError.
Proof. vm_compute. repeat split; reflexivity. Qed.

(** ** [set_env] and [restore_env] *)

Section EnvFacts.
Context (P : Platform).
Implicit Types (w : world).

Lemma bind_environ_get {B : Type} k (f : string → M B) w :
  bind (environ_get k) f w =
  match environ w !! k with
  | Some v => f v w
  | None => (Raise KeyError, w, [])
  end.
Proof.
  unfold bind, environ_get. destruct (environ w !! k); [|done].
  by destruct (f _ w) as [[? ?] ?].
Qed.

Lemma bind_environ_set {B : Type} k v (f : unit → M B) w :
  bind (environ_set k v) f w = f () (with_environ w k v).
Proof. unfold bind, environ_set, with_environ. by destruct (f _ _) as [[? ?] ?]. Qed.

Lemma bind_os_getcwd {B : Type} (f : string → M B) w :
  bind os_getcwd f w = f (cwd w) w.
Proof. unfold bind, os_getcwd. by destruct (f _ w) as [[? ?] ?]. Qed.

Lemma bind_os_path_abspath {B : Type} p (f : string → M B) w :
  bind (os_path_abspath P p) f w = f (abspath_in P (cwd w) p) w.
Proof. unfold bind, os_path_abspath. by destruct (f _ w) as [[? ?] ?]. Qed.

Lemma bind_os_chdir {B : Type} p (f : unit → M B) w :
  bind (os_chdir P p) f w =
  if bool_decide (abspath_in P (cwd w) p ∈ dirs w)
  then f () (with_cwd w (abspath_in P (cwd w) p))
  else (Raise FileNotFoundError, w, []).
Proof.
  unfold bind, os_chdir, with_cwd. case_bool_decide; [|done].
  by destruct (f _ _) as [[? ?] ?].
Qed.

Lemma set_env_returns WORK_FOLDER x86_64 w origin w1 ev :
  set_env P WORK_FOLDER x86_64 w = (Return origin, w1, ev) →
  ∃ path cc new_path,
    environ w !! "PATH" = Some path ∧ environ w !! "CC" = Some cc ∧
    origin = [("old_path", path); ("old_cc", cc)] ∧
    environ w1 = <["CC" := "gcc"]> (<["PATH" := new_path +:+ ":" +:+ path]> (environ w)) ∧
    files w1 = files w ∧ dirs w1 = dirs w ∧ ev = [].
Proof.
  unfold set_env. rewrite !bind_environ_get.
  destruct (environ w !! "PATH") as [path|] eqn:Hpath; [|done].
  rewrite bind_environ_get.
  destruct (environ w !! "CC") as [cc|] eqn:Hcc; [|done].
  rewrite bind_os_getcwd, bind_os_chdir. case_bool_decide; [|done].
  change (Dict.item LOCATIONS "mingw_w64_i686_prefix") with (Return "./mingw-w64-i686/").
  rewrite bind_result_Return, bind_os_path_abspath.
  change (Dict.item LOCATIONS "mingw_w64_x86_64_prefix") with (Return "./mingw-w64-x86_64/").
  rewrite bind_result_Return, bind_os_path_abspath, bind_environ_get.
  cbn [with_cwd environ]. rewrite Hpath.
  destruct x86_64; rewrite !bind_environ_set, bind_os_chdir;
    (case_bool_decide; [|done]); unfold ret; intros [= <- <- <-];
    eexists path, cc, _; repeat split; try done.
Qed.

(** [set_env] returns when PATH and CC are set and the two [os.chdir] find
    their directories. *)
Lemma set_env_succeeds WORK_FOLDER x86_64 w path cc :
  environ w !! "PATH" = Some path →
  environ w !! "CC" = Some cc →
  abspath_in P (cwd w) WORK_FOLDER ∈ dirs w →
  abspath_in P (abspath_in P (cwd w) WORK_FOLDER) (cwd w) ∈ dirs w →
  ∃ w1,
    set_env P WORK_FOLDER x86_64 w
    = (Return [("old_path", path); ("old_cc", cc)], w1, []).
Proof.
  intros Hpath Hcc Hwork Hback. unfold set_env.
  rewrite !bind_environ_get, Hpath, bind_environ_get, Hcc.
  rewrite bind_os_getcwd, bind_os_chdir, bool_decide_eq_true_2 by done.
  change (Dict.item LOCATIONS "mingw_w64_i686_prefix") with (Return "./mingw-w64-i686/").
  rewrite bind_result_Return, bind_os_path_abspath.
  change (Dict.item LOCATIONS "mingw_w64_x86_64_prefix") with (Return "./mingw-w64-x86_64/").
  rewrite bind_result_Return, bind_os_path_abspath, bind_environ_get.
  cbn [with_cwd environ]. rewrite Hpath.
  destruct x86_64; rewrite !bind_environ_set, bind_os_chdir;
    cbn [with_environ with_cwd cwd dirs];
    rewrite bool_decide_eq_true_2 by done; unfold ret; eauto.
Qed.

Lemma restore_env_unfold (path cc : string) w :
  restore_env [("old_path", path); ("old_cc", cc)] w =
  (Return (),
   (λ w', if str_truthy path then with_environ w' "PATH" path else w')
     (if str_truthy cc then with_environ w "CC" cc else w),
   []).
Proof.
  unfold restore_env.
  change (Dict.item _ "old_cc") with (Return cc).
  change (Dict.item _ "old_path") with (Return path).
  rewrite !bind_result_Return.
  destruct (str_truthy cc), (str_truthy path);
    rewrite ?bind_environ_set, ?bind_ret; done.
Qed.

(** C10. In an environment where PATH and CC are set and not empty, when
    [set_env] returns its map, [restore_env] on that map returns and leaves
    PATH and CC, and with them the whole of [os.environ], as they were before
    [set_env]. *)
Theorem C10_restore_env_undoes_set_env WORK_FOLDER x86_64 w path cc origin w1 ev1 :
  environ w !! "PATH" = Some path → path ≠ "" →
  environ w !! "CC" = Some cc → cc ≠ "" →
  set_env P WORK_FOLDER x86_64 w = (Return origin, w1, ev1) →
  ∃ w2,
    restore_env origin w1 = (Return (), w2, []) ∧
    environ w2 !! "PATH" = Some path ∧
    environ w2 !! "CC" = Some cc ∧
    environ w2 = environ w.
Proof.
  intros Hpath Hpath_ne Hcc Hcc_ne Hset.
  apply set_env_returns in Hset
    as (path' & cc' & new_path & Hpath' & Hcc' & -> & Henv & _).
  rewrite Hpath in Hpath'. rewrite Hcc in Hcc'. simplify_eq.
  rewrite restore_env_unfold.
  destruct path' as [|c1 path']; [done|]. destruct cc' as [|c2 cc']; [done|].
  cbn [str_truthy]. eexists. split; [done|]. cbn [with_environ environ].
  rewrite Henv.
  assert (<["PATH":=String c1 path']>
            (<["CC":=String c2 cc']>
               (<["CC":="gcc"]> (<["PATH":=new_path +:+ ":" +:+ String c1 path']> (environ w))))
          = environ w) as Heq.
  { apply map_eq. intros k.
    destruct (decide (k = "PATH")) as [->|Hk1].
    - by rewrite lookup_insert_eq.
    - rewrite lookup_insert_ne by done.
      destruct (decide (k = "CC")) as [->|Hk2].
      + by rewrite lookup_insert_eq.
      + by rewrite !lookup_insert_ne by done. }
  rewrite Heq. done.
Qed.
End EnvFacts.

(** The demo world: PATH is [/usr/bin], CC is [cc], and [/work] exists. *)
Lemma C10_restore_env_undoes_set_env_witness :
  ∃ w2,
    restore_env [("old_path", "/usr/bin"); ("old_cc", "cc")]
      (set_env Demo.platform "/work" true Demo.start).1.2 = (Return (), w2, []) ∧
    environ w2 !! "PATH" = Some "/usr/bin" ∧
    environ w2 !! "CC" = Some "cc" ∧
    environ w2 = environ Demo.start.
Proof.
  apply (C10_restore_env_undoes_set_env Demo.platform "/work" true Demo.start
           "/usr/bin" "cc" _ _ []).
  - reflexivity.
  - discriminate.
  - reflexivity.
  - discriminate.
  - vm_compute. reflexivity.
Defined.

(** ** [ftp_get] and [html_get] *)

Section FetchFacts.
Context (P : Platform) (N : Network).
Implicit Types (w : world).

Lemma save_path_for_unfold save_path final_archive w :
  save_path_for P save_path final_archive w =
  (Return (final_path_in P (cwd w) save_path final_archive),
   prepared P w save_path, prepared_events P w save_path).
Proof.
  unfold save_path_for, final_path_in, prepared, prepared_events.
  destruct save_path as [[|c sp]|]; [by rewrite bind_os_getcwd | | by rewrite bind_os_getcwd].
  unfold ensured, ensured_events.
  destruct (str_truthy (dirname (String c sp))).
  - rewrite bind_bind, bind_os_path_exists.
    destruct (exists_in P w (dirname (String c sp))).
    + by rewrite bind_ret.
    + by rewrite bind_os_makedirs.
  - by rewrite bind_ret.
Qed.

Lemma net_bind_events {A B : Type} (m : Net A) (f : A → Net B) (Q : event → Prop) :
  Forall Q m.2 → (∀ a, Forall Q (f a).2) → Forall Q (net_bind m f).2.
Proof.
  intros Hm Hf. unfold net_bind. destruct m as [[a|e] ev]; [|done].
  specialize (Hf a). destruct (f a) as [r ev']. by apply Forall_app.
Qed.

Lemma ftp_cwd_quiet server dir folder : Forall quiet (ftp_cwd N server dir folder).2.
Proof.
  unfold ftp_cwd. apply net_bind_events; [by repeat constructor|].
  intros _. by destruct (ftp_chdir N server dir folder).
Qed.

Lemma ftp_listing_quiet server dir pattern group kind :
  Forall quiet (ftp_listing P N server dir pattern group kind).2.
Proof.
  unfold ftp_listing. apply net_bind_events; [by repeat constructor|].
  intros _. destruct (ftp_mlsd N server dir); [done|].
  apply net_bind_events; [by repeat constructor|].
  intros _. by destruct (ftp_nlst N server dir).
Qed.

Lemma ftp_locate_quiet server home folder filename_re group preferred folder_re fgroup fpreferred :
  Forall quiet
    (ftp_locate P N server home folder filename_re group preferred folder_re fgroup
       fpreferred).2.
Proof.
  unfold ftp_locate. apply net_bind_events; [apply ftp_cwd_quiet|].
  intros dir. apply net_bind_events.
  - destruct folder_re as [[|c re]|]; try done.
    apply net_bind_events; [apply ftp_listing_quiet|].
    intros found. apply net_bind_events; [done|].
    intros name. apply ftp_cwd_quiet.
  - intros dir'. apply net_bind_events; [apply ftp_listing_quiet|].
    intros found. apply net_bind_events; [done|]. done.
Qed.

(** C9. When the server name, the base folder or the filename pattern is
    empty, or the capture group of the file version is below 1, [ftp_get]
    returns [None] with no event at all, no connection among them, and
    leaves the world as it was. *)
Theorem C9_ftp_get_guard server folder filename_re group save_path preferred
    folder_re fgroup fpreferred w :
  server = "" ∨ folder = "" ∨ filename_re = "" ∨ (group < 1)%Z →
  ftp_get P N server folder filename_re group save_path preferred folder_re fgroup
    fpreferred w = (Return PyNone, w, []).
Proof.
  intros Hguard. unfold ftp_get.
  destruct server as [|c1 server]; [done|].
  destruct folder as [|c2 folder]; [done|].
  destruct filename_re as [|c3 filename_re]; [done|].
  destruct Hguard as [?|[?|[?|Hgroup]]]; try done.
  cbn [str_truthy negb]. by rewrite (proj2 (Z.ltb_lt _ _) Hgroup).
Qed.


Lemma ensured_exists w p : exists_in P (ensured P w p) p = true.
Proof.
  unfold ensured. destruct (exists_in P w p) eqn:Hp; [done|]. apply exists_in_with_dir.
Qed.

Lemma prepared_cwd w save_path : cwd (prepared P w save_path) = cwd w.
Proof.
  unfold prepared, ensured. destruct save_path as [[|c sp]|]; try done.
  destruct (str_truthy _); [|done]. by destruct (exists_in P w _).
Qed.

(** Once the directory of the save path is there, preparing it again does
    nothing. *)
Lemma prepared_again w w1 save_path :
  cwd w1 = cwd w →
  (∀ p, exists_in P (prepared P w save_path) p = true → exists_in P w1 p = true) →
  prepared P w1 save_path = w1 ∧ prepared_events P w1 save_path = [].
Proof.
  intros Hcwd Hkeep. unfold prepared, prepared_events in *.
  destruct save_path as [[|c sp]|]; try done.
  destruct (str_truthy (dirname (String c sp))); [|done].
  unfold ensured, ensured_events. by rewrite (Hkeep _ (ensured_exists w _)).
Qed.

Lemma ftp_get_unfold server folder filename_re group save_path preferred folder_re fgroup
    fpreferred home w :
  str_truthy server = true → str_truthy folder = true → str_truthy filename_re = true →
  (group <? 1)%Z = false →
  ftp_open_session N server = LoggedIn home →
  ftp_get P N server folder filename_re group save_path preferred folder_re fgroup
    fpreferred w =
  let loc := ftp_locate P N server home folder filename_re group preferred folder_re
               fgroup fpreferred in
  match loc.1 with
  | Raise e => (Raise e, w, [FtpConnect server; FtpLogin] ++ loc.2)
  | Return located =>
      let w' := prepared P w save_path in
      let final_path := final_path_in P (cwd w) save_path located.2 in
      let saved := abspath_in P (cwd w) final_path in
      let head := [FtpConnect server; FtpLogin] ++ loc.2 ++ prepared_events P w save_path in
      if exists_in P w' final_path then (Return (PyStr final_path), w', head ++ [FtpQuit])
      else
        match ftp_retr N server located.1 located.2 with
        | None =>
            let partial := ftp_retr_partial N server located.1 located.2 in
            if str_truthy partial
            then (Raise FtpError, with_file (with_file w' saved "") saved partial,
                  head ++ [WriteFile saved; FtpRetr located.2; WriteFile saved])
            else (Raise FtpError, with_file w' saved "",
                  head ++ [WriteFile saved; FtpRetr located.2])
        | Some data =>
            (Return (PyStr final_path), with_file (with_file w' saved "") saved data,
             head ++ [WriteFile saved; FtpRetr located.2; WriteFile saved; FtpQuit])
        end
  end.
Proof.
  intros Hs Hf Hr Hg Hopen. cbv zeta. unfold ftp_get. rewrite Hs, Hf, Hr, Hg. cbn [negb].
  rewrite bind_emit, Hopen, bind_emit, bind_lift.
  destruct (ftp_locate _ _ _ _ _ _ _ _ _ _ _) as [[located|e] evl]; cbn [fst snd]; [|done].
  unfold bind at 1. rewrite save_path_for_unfold.
  rewrite bind_os_path_exists.
  destruct (exists_in P (prepared P w save_path) _) eqn:Hpresent.
  - rewrite bind_emit. unfold ret. by rewrite <- !app_assoc.
  - rewrite bind_write_file, bind_emit, !prepared_cwd.
    destruct (ftp_retr N server located.1 located.2) as [data|].
    + rewrite bind_write_file, bind_emit. unfold ret. cbn [with_file cwd].
      rewrite prepared_cwd. by rewrite <- !app_assoc.
    + destruct (str_truthy (ftp_retr_partial N server located.1 located.2)).
      * rewrite bind_write_file. unfold raise. cbn [with_file cwd].
        rewrite prepared_cwd. by rewrite <- !app_assoc.
      * rewrite bind_ret. unfold raise. by rewrite <- !app_assoc.
Qed.



Lemma html_get_unfold url filename_re group save_path preferred links w :
  str_truthy url = true → str_truthy filename_re = true →
  http_links N url = Some links →
  html_get P N url filename_re group save_path preferred w =
  let found := scan_names P filename_re group links in
  match select_version (versions found) (names found) preferred with
  | Raise e => (Raise e, w, [HttpOpen url])
  | Return link =>
      let parsed_url := urlparse P link in
      let final_url := if negb (str_truthy parsed_url.1) then urljoin P url link else link in
      let w' := prepared P w save_path in
      let final_path := final_path_in P (cwd w) save_path (basename parsed_url.2) in
      let saved := abspath_in P (cwd w) final_path in
      let head := [HttpOpen url] ++ prepared_events P w save_path in
      if exists_in P w' final_path then (Return (PyStr final_path), w', head)
      else
        match http_body N final_url with
        | None => (Raise URLError, w', head ++ [HttpRetrieve final_url])
        | Some data =>
            (Return (if str_truthy final_path then PyStr final_path else PyNone),
             with_file w' saved data, head ++ [HttpRetrieve final_url; WriteFile saved])
        end
  end.
Proof.
  intros Hu Hr Hlinks. cbv zeta. unfold html_get. rewrite Hu, Hr. cbn [negb].
  rewrite bind_emit, Hlinks.
  destruct (select_version _ _ preferred) as [link|e]; [|done].
  rewrite bind_result_Return. unfold bind at 1. rewrite save_path_for_unfold.
  rewrite bind_os_path_exists.
  destruct (exists_in P (prepared P w save_path) _) eqn:Hpresent.
  - unfold ret. by rewrite app_nil_r.
  - rewrite bind_emit. destruct (http_body N _) as [data|].
    + rewrite bind_write_file. unfold ret. by rewrite !prepared_cwd.
    + unfold raise. done.
Qed.


End FetchFacts.

(** A call with capture group 0. *)
Lemma C9_ftp_get_guard_witness :
  ftp_get Demo.platform Demo.network "ftp.example.org" "/pub/pkg/" "pkg-*.tar.gz" 0
    (Some "/work/dl/") "99" None 1 "99" Demo.start
  = (Return PyNone, Demo.start, []).
Proof.
  apply C9_ftp_get_guard. right. right. right. reflexivity.
Defined.




(** * Further properties *)

(** ** Scanning and version selection *)

(** X1. In [ftp_get] and [html_get] a scan numbers the matches of a listing
    from 0, in listing order. After the loop over an NLST listing, which is
    also the loop over the links of a page, and after the loop over an MLSD
    listing, [keyid] is the number of matched entries, and key [i] of the
    name dictionary and of the version dictionary holds the name and the
    version of the matched entry number [i], for every [i]; a key from the
    number of matches on is in neither dictionary. *)
Theorem X1_scan_numbers_the_matches_in_listing_order (P : Platform) (pattern : string)
    (group : Z) (kind : string) (name_list : list string)
    (listing : list (string * mlsd_fact)) :
  let found := scan_names P pattern group name_list in
  let entries := matched P pattern group name_list in
  let found' := scan_mlsd P pattern group kind listing in
  let entries' := matched_mlsd P pattern group kind listing in
  (keyid found = length entries ∧
   ∀ i, Dict.get (names found) i = fst <$> entries !! i ∧
        Dict.get (versions found) i = snd <$> entries !! i) ∧
  (keyid found' = length entries' ∧
   ∀ i, Dict.get (names found') i = fst <$> entries' !! i ∧
        Dict.get (versions found') i = snd <$> entries' !! i).
Proof.
  cbv zeta. rewrite scan_names_scanned, scan_mlsd_scanned. cbn [scanned keyid names versions].
  split; (split; [done|]); intros i; by rewrite !keyed_get, !list_lookup_fmap.
Qed.

(** X2. A preferred version found at a key other than 0 is selected: when
    the first entry whose version is the preferred one is at key [i + 1],
    the selection returns the name of that entry, whatever is listed after
    it. *)
Theorem X2_first_preferred_entry_after_key_zero_is_selected
    (entries : list (string * string)) (i : nat) (name preferred : string) :
  entries !! S i = Some (name, preferred) →
  (∀ j n v, (j < S i)%nat → entries !! j = Some (n, v) → v ≠ preferred) →
  select_version (versions (scanned entries)) (names (scanned entries)) preferred
  = Return name.
Proof. cbn [scanned versions names]. apply select_version_preferred. Qed.

Lemma X2_first_preferred_entry_after_key_zero_is_selected_witness :
  select_version
    (versions (scanned [("pkg-1.0.tar.gz", "1.0"); ("pkg-2.5.tar.gz", "2.5");
                        ("pkg-9.9.tar.gz", "9.9"); ("pkg-2.5.zip", "2.5")]))
    (names (scanned [("pkg-1.0.tar.gz", "1.0"); ("pkg-2.5.tar.gz", "2.5");
                     ("pkg-9.9.tar.gz", "9.9"); ("pkg-2.5.zip", "2.5")]))
    "2.5"
  = Return "pkg-2.5.tar.gz".
Proof.
  apply (X2_first_preferred_entry_after_key_zero_is_selected _ 0).
  - reflexivity.
  - intros j n v Hj Hlookup. destruct j as [|j]; [|lia].
    injection Hlookup as <- <-. discriminate.
Defined.

Section LastMax.
Context {A K : Type} (key : A → K) (leb : K → K → bool).
Hypothesis leb_total : ∀ a b, leb a b = true ∨ leb b a = true.
Hypothesis leb_trans : ∀ a b c, leb a b = true → leb b c = true → leb a c = true.

Lemma ascending_le_last l x m :
  ascending key leb l → x ∈ l → last l = Some m → leb (key x) (key m) = true.
Proof. intros Hl Hx Hm. by eapply (ascending_last key leb leb_total). Qed.

Lemma last_insert_by x l :
  ascending key leb l →
  last (insert_by key leb x l) =
  match last l with
  | None => Some x
  | Some m => if leb (key x) (key m) then Some m else Some x
  end.
Proof.
  induction 1 as [|y l Hy Hl IH]; [done|]. cbn [insert_by].
  destruct (leb (key x) (key y)) eqn:Hxy.
  - destruct (last (y :: l)) as [m|] eqn:Hm; [|by apply last_None in Hm].
    assert (leb (key y) (key m) = true) as Hym.
    { eapply ascending_le_last; [by constructor | left | done]. }
    rewrite (leb_trans _ _ _ Hxy Hym).
    change (last (x :: y :: l)) with (last (y :: l)). done.
  - destruct l as [|z l].
    + simpl. by rewrite Hxy.
    + assert (last (y :: insert_by key leb x (z :: l)) = last (insert_by key leb x (z :: l)))
        as ->.
      { destruct (insert_by key leb x (z :: l)) eqn:Hins; [|done].
        apply (f_equal length) in Hins. rewrite insert_by_perm in Hins. done. }
      rewrite IH. done.
Qed.

(** [sorted(l, key=...).pop()] is the last of the elements of [l] whose key
    is the greatest. *)
Lemma pop_sorted_by_last_max l x :
  pop (sorted_by key leb l) = Return x →
  ∃ i, l !! i = Some x ∧
       (∀ y, y ∈ l → leb (key y) (key x) = true) ∧
       ∀ j y, (i < j)%nat → l !! j = Some y → leb (key x) (key y) = false.
Proof.
  unfold pop. destruct (last (sorted_by key leb l)) as [m|] eqn:Hlast; [|done].
  intros [= ->]. revert x Hlast.
  induction l as [|a l IH]; intros x; [done|]. cbn [sorted_by].
  rewrite last_insert_by by by apply sorted_by_ascending.
  destruct (last (sorted_by key leb l)) as [m|] eqn:Hm.
  - destruct (IH m eq_refl) as (i & Hi & Hmax & Hlater).
    destruct (leb (key a) (key m)) eqn:Ham; intros [= <-].
    + exists (S i). split; [done|]. split.
      * intros y [->|Hy]%elem_of_cons; auto.
      * intros [|j] y Hj Hy; [lia|]. apply (Hlater j); [lia | done].
    + assert (leb (key m) (key a) = true) as Hma by (destruct (leb_total (key a) (key m)); congruence).
      exists 0%nat. split; [done|]. split.
      * intros y [->|Hy]%elem_of_cons; [destruct (leb_total (key a) (key a)); done|].
        eauto.
      * intros [|j] y Hj Hy; [lia|]. simpl in Hy.
        destruct (leb (key a) (key y)) eqn:Hay; [|done].
        rewrite (leb_trans _ _ _ Hay (Hmax y (list_elem_of_lookup_2 _ _ _ Hy))) in Ham. done.
  - apply last_None in Hm. apply (f_equal length) in Hm.
    rewrite sorted_by_length in Hm. destruct l; [|done].
    intros [= <-]. exists 0%nat. split; [done|]. split.
    + intros y ->%list_elem_of_singleton. destruct (leb_total (key a) (key a)); done.
    + intros [|j] y Hj Hy; [lia | done].
Qed.

End LastMax.

Lemma keyed_from_lookup b l i :
  keyed_from b l !! i = (λ x, ((b + i)%nat, x)) <$> l !! i.
Proof.
  revert b i. induction l as [|x l IH]; intros b [|i]; simpl; try done.
  - by rewrite Nat.add_0_r.
  - rewrite IH. by replace (S b + i)%nat with (b + S i)%nat by lia.
Qed.

Lemma keyed_lookup l i : keyed l !! i = (λ x, (i, x)) <$> l !! i.
Proof. apply keyed_from_lookup. Qed.

(** X3. With no entry of the preferred version, the selection on a listing
    that is not empty returns a name, and of the entries whose version is
    greatest in the order of [str] it takes the one listed last: no entry
    has a version above the one chosen, and every entry listed after the
    chosen one has a version strictly below it. *)
Theorem X3_latest_is_the_last_listed_of_the_greatest
    (entries : list (string * string)) (preferred : string) :
  entries ≠ [] →
  Forall (λ entry, entry.2 ≠ preferred) entries →
  ∃ i name version,
    select_version (versions (scanned entries)) (names (scanned entries)) preferred
      = Return name ∧
    entries !! i = Some (name, version) ∧
    (∀ j n v, entries !! j = Some (n, v) → String.leb v version = true) ∧
    (∀ j n v, (i < j)%nat → entries !! j = Some (n, v) → String.leb version v = false).
Proof.
  intros Hne Hnone. cbn [scanned versions names]. unfold select_version.
  assert (find_version (keyed entries.*2) preferred = None) as ->.
  { apply find_version_None. intros k v Hin%keyed_elem_of.
    rewrite list_lookup_fmap in Hin.
    destruct (entries !! k) as [[n v']|] eqn:Hk; simplify_eq/=.
    rewrite Forall_forall in Hnone.
    apply (Hnone (n, v)). by eapply list_elem_of_lookup_2. }
  cbn [key_truthy]. unfold latest_key.
  destruct (pop_sorted_by snd String.leb string_leb_total string_leb_trans
              (keyed entries.*2)) as ([k v] & Hpop & _).
  { destruct entries; [done | discriminate]. }
  rewrite Hpop.
  destruct (pop_sorted_by_last_max snd String.leb string_leb_total string_leb_trans _ _ Hpop)
    as (i & Hi & Hmax & Hlater).
  rewrite keyed_lookup, list_lookup_fmap in Hi.
  destruct (entries !! i) as [[name v']|] eqn:Hentry; [|done].
  simpl in Hi. injection Hi as <- ->. simpl in Hmax, Hlater.
  exists i, name, v. split; [|split; [done|split]].
  - unfold Dict.item. by rewrite keyed_get, list_lookup_fmap, Hentry.
  - intros j n v' Hj. apply (Hmax (j, v')). apply keyed_elem_of.
    by rewrite list_lookup_fmap, Hj.
  - intros j n v' Hij Hj. apply (Hlater j (j, v')); [done|].
    by rewrite keyed_lookup, list_lookup_fmap, Hj.
Qed.

Lemma X3_latest_is_the_last_listed_of_the_greatest_witness :
  ∃ i name version,
    select_version
      (versions (scanned [("pkg-2.5.tar.gz", "2.5"); ("pkg-1.0.tar.gz", "1.0");
                          ("mirror/pkg-2.5.tar.gz", "2.5")]))
      (names (scanned [("pkg-2.5.tar.gz", "2.5"); ("pkg-1.0.tar.gz", "1.0");
                       ("mirror/pkg-2.5.tar.gz", "2.5")]))
      "99" = Return name ∧
    [("pkg-2.5.tar.gz", "2.5"); ("pkg-1.0.tar.gz", "1.0"); ("mirror/pkg-2.5.tar.gz", "2.5")]
      !! i = Some (name, version) ∧
    (∀ j n v,
       [("pkg-2.5.tar.gz", "2.5"); ("pkg-1.0.tar.gz", "1.0"); ("mirror/pkg-2.5.tar.gz", "2.5")]
         !! j = Some (n, v) → String.leb v version = true) ∧
    (∀ j n v, (i < j)%nat →
       [("pkg-2.5.tar.gz", "2.5"); ("pkg-1.0.tar.gz", "1.0"); ("mirror/pkg-2.5.tar.gz", "2.5")]
         !! j = Some (n, v) → String.leb version v = false).
Proof.
  apply (X3_latest_is_the_last_listed_of_the_greatest
           [("pkg-2.5.tar.gz", "2.5"); ("pkg-1.0.tar.gz", "1.0");
            ("mirror/pkg-2.5.tar.gz", "2.5")] "99").
  - discriminate.
  - repeat constructor; simpl; discriminate.
Defined.

(** ** Fetching *)

Section FetchMore.
Context (P : Platform) (N : Network).
Implicit Types (w : world).

(** X4. When the URL and the pattern are not empty, the page opens and
    none of its links matches the pattern,
    [html_get] raises [IndexError], from [pop] on the empty list, after the
    one request for the page; the world is as it was, nothing is created
    and nothing is retrieved. *)
Theorem X4_html_get_without_a_matching_link url filename_re group save_path preferred
    links w :
  url ≠ "" → filename_re ≠ "" →
  http_links N url = Some links →
  matched P filename_re group links = [] →
  html_get P N url filename_re group save_path preferred w
  = (Raise IndexError, w, [HttpOpen url]).
Proof.
  intros Hu Hr Hlinks Hnone.
  rewrite (html_get_unfold P N _ _ _ _ _ links);
    [| by destruct url | by destruct filename_re | done].
  cbv zeta. by rewrite scan_names_scanned, Hnone.
Qed.

(** X5. When the arguments pass the guard, the session is open, no folder
    pattern is given and no file of the listing matches the pattern, [ftp_get] raises [IndexError] right
    after the listing: the world is as it was, and the events stop at the
    listing, so [quit] is not sent. *)
Theorem X5_ftp_get_without_a_matching_file server folder filename_re group save_path
    preferred fgroup fpreferred home dir found listed w :
  server ≠ "" → folder ≠ "" → filename_re ≠ "" → (1 ≤ group)%Z →
  ftp_open_session N server = LoggedIn home →
  ftp_chdir N server home folder = Some dir →
  ftp_listing P N server dir filename_re group "file" = (Return found, listed) →
  versions found = [] →
  ftp_get P N server folder filename_re group save_path preferred None fgroup fpreferred w
  = (Raise IndexError, w, [FtpConnect server; FtpLogin; FtpCwd folder] ++ listed).
Proof.
  intros Hs Hf Hr Hg Hopen Hcwd Hlist Hnone.
  rewrite (ftp_get_unfold P N _ _ _ _ _ _ _ _ _ home);
    [| by destruct server | by destruct folder | by destruct filename_re
     | by apply Z.ltb_ge | done].
  cbv zeta. unfold ftp_locate, ftp_cwd, net_bind, send, net_ret, net_result.
  rewrite Hcwd. cbn -[ftp_listing select_version]. rewrite Hlist, Hnone.
  change (select_version [] (names found) preferred) with (@Raise string IndexError).
  cbn. by rewrite app_nil_r.
Qed.

(** X6. When the arguments pass the guard and the server accepts the
    connection and refuses the login,
    [ftp_get] sends [quit] and returns [False], which is not [None]; the
    world is as it was. *)
Theorem X6_ftp_get_refused_login_returns_False server folder filename_re group save_path
    preferred folder_re fgroup fpreferred w :
  server ≠ "" → folder ≠ "" → filename_re ≠ "" → (1 ≤ group)%Z →
  ftp_open_session N server = LoginFails →
  ftp_get P N server folder filename_re group save_path preferred folder_re fgroup
    fpreferred w
  = (Return PyFalse, w, [FtpConnect server; FtpLogin; FtpQuit]).
Proof.
  intros Hs Hf Hr Hg Hopen. unfold ftp_get.
  destruct server; [done|]. destruct folder; [done|]. destruct filename_re; [done|].
  cbn [str_truthy negb]. rewrite (proj2 (Z.ltb_ge _ _) Hg).
  rewrite bind_emit, Hopen. done.
Qed.


Lemma ftp_locate_requests server home folder filename_re group preferred folder_re fgroup
    fpreferred (Q : event → Prop) :
  (∀ f, Q (FtpCwd f)) → Q FtpMlsd → Q FtpNlst →
  Forall Q
    (ftp_locate P N server home folder filename_re group preferred folder_re fgroup
       fpreferred).2.
Proof.
  intros Hcwd Hmlsd Hnlst.
  assert (∀ dir f, Forall Q (ftp_cwd N server dir f).2) as Hc.
  { intros dir f. unfold ftp_cwd. apply net_bind_events; [by repeat constructor|].
    intros _. by destruct (ftp_chdir N server dir f). }
  assert (∀ dir pattern g kind, Forall Q (ftp_listing P N server dir pattern g kind).2) as Hl.
  { intros dir pattern g kind. unfold ftp_listing.
    apply net_bind_events; [by repeat constructor|].
    intros _. destruct (ftp_mlsd N server dir); [done|].
    apply net_bind_events; [by repeat constructor|].
    intros _. by destruct (ftp_nlst N server dir). }
  unfold ftp_locate. apply net_bind_events; [apply Hc|].
  intros dir. apply net_bind_events.
  - destruct folder_re as [[|c re]|]; try done.
    apply net_bind_events; [apply Hl|].
    intros found. apply net_bind_events; [done|].
    intros name. apply Hc.
  - intros dir'. apply net_bind_events; [apply Hl|].
    intros found. apply net_bind_events; [done|]. done.
Qed.

Lemma prepared_events_MakeDirs w save_path e :
  e ∈ prepared_events P w save_path → ∃ p, e = MakeDirs p.
Proof.
  unfold prepared_events. destruct save_path as [[|c sp]|]; try by intros ?%elem_of_nil.
  destruct (str_truthy _); [apply ensured_events_MakeDirs | by intros ?%elem_of_nil].
Qed.

Lemma prepared_environ w save_path : environ (prepared P w save_path) = environ w.
Proof.
  unfold prepared, ensured. destruct save_path as [[|c sp]|]; try done.
  destruct (str_truthy _); [|done]. by destruct (exists_in P w _).
Qed.

(** X7. When [ftp_get] returns a path, something exists at that path in the
    world it leaves, the working directory and the environment are as
    before, [quit] is the last event, and when the run sent RETR for a name,
    the file at the path holds the bytes the server sent for that name. *)
Theorem X7_ftp_get_leaves_the_file_it_names server folder filename_re group save_path
    preferred folder_re fgroup fpreferred w p w1 ev :
  ftp_get P N server folder filename_re group save_path preferred folder_re fgroup
    fpreferred w = (Return (PyStr p), w1, ev) →
  exists_in P w1 p = true ∧ cwd w1 = cwd w ∧ environ w1 = environ w ∧
  last ev = Some FtpQuit ∧
  ∀ name, FtpRetr name ∈ ev →
    ∃ dir data, ftp_retr N server dir name = Some data ∧
                files w1 !! abspath_in P (cwd w1) p = Some data.
Proof.
  intros Hfirst.
  destruct (str_truthy server) eqn:Hs; [|by unfold ftp_get in Hfirst; rewrite Hs in Hfirst].
  destruct (str_truthy folder) eqn:Hf;
    [|by unfold ftp_get in Hfirst; rewrite Hs, Hf in Hfirst].
  destruct (str_truthy filename_re) eqn:Hr;
    [|by unfold ftp_get in Hfirst; rewrite Hs, Hf, Hr in Hfirst].
  destruct (group <? 1)%Z eqn:Hg;
    [by unfold ftp_get in Hfirst; rewrite Hs, Hf, Hr, Hg in Hfirst|].
  destruct (ftp_open_session N server) as [|answered| |home] eqn:Hopen;
    [unfold ftp_get in Hfirst; rewrite Hs, Hf, Hr, Hg, Hopen in Hfirst;
     try destruct answered; done..|].
  rewrite (ftp_get_unfold P N _ _ _ _ _ _ _ _ _ home) in Hfirst by done.
  cbv zeta in Hfirst.
  pose proof (ftp_locate_requests server home folder filename_re group preferred folder_re
                fgroup fpreferred (λ e, ∀ name, e ≠ FtpRetr name)) as Hreq.
  destruct (ftp_locate _ _ _ _ _ _ _ _ _ _ _) as [[located|e] evl]; cbn [fst snd] in *;
    [|done].
  assert (∀ name, FtpRetr name ∉ evl ++ prepared_events P w save_path) as Hhead.
  { intros name [Hin|Hin]%elem_of_app.
    - eapply Forall_forall in Hreq; [by apply (Hreq name) | done..].
    - by apply prepared_events_MakeDirs in Hin as [? ?]. }
  destruct (exists_in P (prepared P w save_path) _) eqn:Hpresent.
  - injection Hfirst as <- <- <-.
    split; [done|]. split; [apply prepared_cwd|]. split; [apply prepared_environ|].
    split; [rewrite !app_comm_cons; apply last_snoc|].
    intros name Hin. exfalso. apply (Hhead name).
    apply elem_of_cons in Hin as [?|Hin]; [done|].
    apply elem_of_cons in Hin as [?|Hin]; [done|].
    apply elem_of_app in Hin as [Hin|Hin]; [done|].
    by apply list_elem_of_singleton in Hin.
  - destruct (ftp_retr N server located.1 located.2) as [data|] eqn:Hretr;
      [|by destruct (str_truthy (ftp_retr_partial _ _ _ _))].
    injection Hfirst as <- <- <-. cbn [with_file cwd environ files].
    split.
    { unfold exists_in. cbn [with_file files cwd]. by rewrite prepared_cwd, lookup_insert_eq. }
    split; [apply prepared_cwd|]. split; [apply prepared_environ|].
    split.
    { change [WriteFile ?a; FtpRetr ?b; WriteFile ?c; FtpQuit]
        with ([WriteFile a; FtpRetr b; WriteFile c] ++ [FtpQuit]).
      rewrite app_assoc, !app_comm_cons. apply last_snoc. }
    intros name Hin. exists located.1, data.
    assert (name = located.2) as ->.
    { apply elem_of_cons in Hin as [?|Hin]; [done|].
      apply elem_of_cons in Hin as [?|Hin]; [done|].
      apply elem_of_app in Hin as [Hin|Hin]; [by apply Hhead in Hin|].
      apply elem_of_cons in Hin as [?|Hin]; [done|].
      apply elem_of_cons in Hin as [Hin|Hin]; [by injection Hin|].
      apply elem_of_cons in Hin as [?|Hin]; [done|].
      by apply list_elem_of_singleton in Hin. }
    split; [done|]. by rewrite prepared_cwd, lookup_insert_eq.
Qed.

(** X8. When [html_get] returns a path, something exists at that path in the
    world it leaves, the working directory and the environment are as
    before, and when the run retrieved a URL, the file at the path holds the
    bytes served at that URL. *)
Theorem X8_html_get_leaves_the_file_it_names url filename_re group save_path preferred
    w p w1 ev :
  html_get P N url filename_re group save_path preferred w = (Return (PyStr p), w1, ev) →
  exists_in P w1 p = true ∧ cwd w1 = cwd w ∧ environ w1 = environ w ∧
  ∀ final_url, HttpRetrieve final_url ∈ ev →
    ∃ data, http_body N final_url = Some data ∧
            files w1 !! abspath_in P (cwd w1) p = Some data.
Proof.
  intros Hfirst.
  destruct (str_truthy url) eqn:Hu; [|by unfold html_get in Hfirst; rewrite Hu in Hfirst].
  destruct (str_truthy filename_re) eqn:Hr;
    [|by unfold html_get in Hfirst; rewrite Hu, Hr in Hfirst].
  destruct (http_links N url) as [links|] eqn:Hlinks;
    [|by unfold html_get in Hfirst; rewrite Hu, Hr, Hlinks in Hfirst].
  rewrite (html_get_unfold P N _ _ _ _ _ links) in Hfirst by done.
  cbv zeta in Hfirst.
  destruct (select_version _ _ preferred) as [link|e]; [|done].
  assert (∀ u, HttpRetrieve u ∉ prepared_events P w save_path) as Hhead.
  { intros u Hin. by apply prepared_events_MakeDirs in Hin as [? ?]. }
  destruct (exists_in P (prepared P w save_path) _) eqn:Hpresent.
  - injection Hfirst as <- <- <-.
    split; [done|]. split; [apply prepared_cwd|]. split; [apply prepared_environ|].
    intros u Hin. exfalso.
    apply elem_of_cons in Hin as [?|Hin]; [done|]. by apply Hhead in Hin.
  - destruct (http_body N _) as [data|] eqn:Hbody; [|done].
    destruct (str_truthy (final_path_in _ _ _ _)); [|done].
    injection Hfirst as <- <- <-. cbn [with_file cwd environ files].
    split.
    { unfold exists_in. cbn [with_file files cwd]. by rewrite prepared_cwd, lookup_insert_eq. }
    split; [apply prepared_cwd|]. split; [apply prepared_environ|].
    intros u Hin. exists data.
    apply elem_of_cons in Hin as [?|Hin]; [done|].
    apply elem_of_app in Hin as [Hin|Hin]; [by apply Hhead in Hin|].
    apply elem_of_cons in Hin as [Hin|Hin].
    + injection Hin as ->. split; [done|]. by rewrite prepared_cwd, lookup_insert_eq.
    + by apply list_elem_of_singleton in Hin.
Qed.

(** X9. When [ftp_get] raises after it has sent RETR, the file it opened
    for writing stays behind with the blocks that had arrived: the transfer
    of that name is the one that raised, the world left has at the save path
    a file that holds the bytes delivered before the transfer broke off,
    none when it broke off at once, and the same call run again in that
    world returns that path with no transfer and no write. The incomplete
    file passes for the archive. *)
Theorem X9_interrupted_transfer_passes_for_the_archive server folder filename_re group
    save_path preferred folder_re fgroup fpreferred w e w1 ev1 name :
  ftp_get P N server folder filename_re group save_path preferred folder_re fgroup
    fpreferred w = (Raise e, w1, ev1) →
  FtpRetr name ∈ ev1 →
  ∃ p dir ev2,
    ftp_retr N server dir name = None ∧
    ftp_get P N server folder filename_re group save_path preferred folder_re fgroup
      fpreferred w1 = (Return (PyStr p), w1, ev2) ∧
    files w1 !! abspath_in P (cwd w1) p = Some (ftp_retr_partial N server dir name) ∧
    Forall quiet ev2.
Proof.
  intros Hfirst Hname.
  destruct (str_truthy server) eqn:Hs; [|by unfold ftp_get in Hfirst; rewrite Hs in Hfirst].
  destruct (str_truthy folder) eqn:Hf;
    [|by unfold ftp_get in Hfirst; rewrite Hs, Hf in Hfirst].
  destruct (str_truthy filename_re) eqn:Hr;
    [|by unfold ftp_get in Hfirst; rewrite Hs, Hf, Hr in Hfirst].
  destruct (group <? 1)%Z eqn:Hg;
    [by unfold ftp_get in Hfirst; rewrite Hs, Hf, Hr, Hg in Hfirst|].
  destruct (ftp_open_session N server) as [|answered| |home] eqn:Hopen.
  - unfold ftp_get in Hfirst. rewrite Hs, Hf, Hr, Hg, Hopen in Hfirst.
    injection Hfirst as <- <- <-.
    apply elem_of_cons in Hname as [?|Hname]; [done|]. by apply elem_of_nil in Hname.
  - unfold ftp_get in Hfirst. rewrite Hs, Hf, Hr, Hg, Hopen in Hfirst.
    destruct answered; [done|]. injection Hfirst as <- <- <-.
    apply elem_of_cons in Hname as [?|Hname]; [done|].
    apply elem_of_cons in Hname as [?|Hname]; [done|]. by apply elem_of_nil in Hname.
  - by unfold ftp_get in Hfirst; rewrite Hs, Hf, Hr, Hg, Hopen in Hfirst.
  - rewrite (ftp_get_unfold P N _ _ _ _ _ _ _ _ _ home) in Hfirst by done.
    rewrite (ftp_get_unfold P N _ _ _ _ _ _ _ _ _ home) by done.
    cbv zeta in *.
    pose proof (ftp_locate_quiet P N server home folder filename_re group preferred
                  folder_re fgroup fpreferred) as Hquiet.
    pose proof (ftp_locate_requests server home folder filename_re group preferred
                  folder_re fgroup fpreferred (λ e, ∀ name, e ≠ FtpRetr name)) as Hreq.
    destruct (ftp_locate _ _ _ _ _ _ _ _ _ _ _) as [[located|e'] evl]; cbn [fst snd] in *.
    + set (w' := prepared P w save_path) in *.
      set (final_path := final_path_in P (cwd w) save_path located.2) in *.
      set (saved := abspath_in P (cwd w) final_path) in *.
      destruct (exists_in P w' final_path) eqn:Hpresent; [done|].
      destruct (ftp_retr N server located.1 located.2) as [data|] eqn:Hretr; [done|].
      set (partial := ftp_retr_partial N server located.1 located.2) in *.
      assert (name = located.2) as ->.
      { assert (∀ tail, FtpRetr name
                  ∈ FtpConnect server :: FtpLogin :: (evl ++ prepared_events P w save_path)
                    ++ WriteFile saved :: FtpRetr located.2 :: tail →
                  (∀ n, FtpRetr n ∉ tail) → name = located.2) as Hin.
        { intros tail Hin Htail.
          apply elem_of_cons in Hin as [?|Hin]; [done|].
          apply elem_of_cons in Hin as [?|Hin]; [done|].
          apply elem_of_app in Hin as [Hin|Hin].
          - apply elem_of_app in Hin as [Hin|Hin].
            + eapply Forall_forall in Hreq; [by destruct (Hreq name) | done..].
            + by apply prepared_events_MakeDirs in Hin as [? ?].
          - apply elem_of_cons in Hin as [?|Hin]; [done|].
            apply elem_of_cons in Hin as [Hin|Hin]; [by injection Hin|].
            by apply Htail in Hin. }
        destruct (str_truthy partial); injection Hfirst as <- <- <-;
          apply (Hin _ Hname); intros n Hn.
        - apply elem_of_cons in Hn as [?|Hn]; [done|]. by apply elem_of_nil in Hn.
        - by apply elem_of_nil in Hn. }
      assert (w1 = with_file (with_file w' saved "") saved partial) as ->.
      { destruct (str_truthy partial) eqn:Hpartial; injection Hfirst as <- <- <-; [done|].
        destruct partial; [|done]. unfold with_file. cbn [files dirs cwd environ].
        by rewrite insert_insert_eq. }
      set (w2 := with_file (with_file w' saved "") saved partial).
      assert (cwd w2 = cwd w) as Hcwd by apply prepared_cwd.
      assert (∀ q, exists_in P w' q = true → exists_in P w2 q = true)
        as Hkeep by (intros q Hq; by do 2 apply exists_in_with_file).
      destruct (prepared_again P w w2 save_path Hcwd Hkeep) as [-> ->].
      rewrite Hcwd. fold final_path. fold saved.
      assert (files w2 !! saved = Some partial) as Hfile
        by (cbn [w2 with_file files]; apply lookup_insert_eq).
      unfold exists_in at 1. rewrite Hcwd. fold saved. rewrite Hfile.
      rewrite (bool_decide_eq_true_2 (is_Some (Some partial))) by eauto. cbn [orb].
      eexists final_path, located.1, _. split; [done|]. split; [done|]. split; [done|].
      rewrite app_nil_r.
      repeat (apply Forall_app; split); try done; by repeat constructor.
    + injection Hfirst as <- <- <-. exfalso.
      apply elem_of_cons in Hname as [?|Hname]; [done|].
      apply elem_of_cons in Hname as [?|Hname]; [done|].
      eapply Forall_forall in Hreq; [by apply (Hreq name) | done..].
Qed.

(** X10. [ftp_get] sends nothing after [quit]: when QUIT is among the
    events of a run it is the last of them and is there once, whether [quit]
    then returns or raises; and a value other than [None], a path or
    [False], is returned only after [quit]. *)
Theorem X10_ftp_get_sends_nothing_after_quit server folder filename_re group save_path
    preferred folder_re fgroup fpreferred w r w1 ev :
  ftp_get P N server folder filename_re group save_path preferred folder_re fgroup
    fpreferred w = (r, w1, ev) →
  (∀ v, r = Return v → v ≠ PyNone → FtpQuit ∈ ev) ∧
  (FtpQuit ∈ ev → ∃ before, ev = before ++ [FtpQuit] ∧ FtpQuit ∉ before).
Proof.
  intros Hrun.
  assert (∀ before, FtpQuit ∉ before →
            (∀ v : pyval, FtpQuit ∈ before ++ [FtpQuit]) ∧
            (FtpQuit ∈ before ++ [FtpQuit] →
             ∃ before', before ++ [FtpQuit] = before' ++ [FtpQuit] ∧ FtpQuit ∉ before'))
    as Hquit.
  { intros before Hbefore. split; [|by eauto].
    intros _. apply elem_of_app. right. apply list_elem_of_here. }
  assert (∀ e, FtpQuit ∉ ev → r = Raise e ∨ r = Return PyNone →
            (∀ v, r = Return v → v ≠ PyNone → FtpQuit ∈ ev) ∧
            (FtpQuit ∈ ev → ∃ before, ev = before ++ [FtpQuit] ∧ FtpQuit ∉ before))
    as Hnone.
  { intros e Hev [-> | ->]; (split; [|done]); [done|]. by intros v [= <-]. }
  destruct (str_truthy server) eqn:Hs;
    [|unfold ftp_get in Hrun; rewrite Hs in Hrun; injection Hrun as <- <- <-;
      apply (Hnone IndexError); [apply not_elem_of_nil | by right]].
  destruct (str_truthy folder) eqn:Hf;
    [|unfold ftp_get in Hrun; rewrite Hs, Hf in Hrun; injection Hrun as <- <- <-;
      apply (Hnone IndexError); [apply not_elem_of_nil | by right]].
  destruct (str_truthy filename_re) eqn:Hr;
    [|unfold ftp_get in Hrun; rewrite Hs, Hf, Hr in Hrun; injection Hrun as <- <- <-;
      apply (Hnone IndexError); [apply not_elem_of_nil | by right]].
  destruct (group <? 1)%Z eqn:Hg;
    [unfold ftp_get in Hrun; rewrite Hs, Hf, Hr, Hg in Hrun; injection Hrun as <- <- <-;
     apply (Hnone IndexError); [apply not_elem_of_nil | by right]|].
  destruct (ftp_open_session N server) as [|answered| |home] eqn:Hopen.
  - unfold ftp_get in Hrun. rewrite Hs, Hf, Hr, Hg, Hopen in Hrun.
    injection Hrun as <- <- <-. apply (Hnone AttributeError); [|by left].
    intros Hin. apply elem_of_cons in Hin as [?|Hin]; [done|]. by apply elem_of_nil in Hin.
  - unfold ftp_get in Hrun. rewrite Hs, Hf, Hr, Hg, Hopen in Hrun.
    assert (FtpQuit ∉ [FtpConnect server]) as Hbefore.
    { intros Hin. apply elem_of_cons in Hin as [?|Hin]; [done|].
      by apply elem_of_nil in Hin. }
    destruct (Hquit _ Hbefore) as [Hsent Hlast].
    destruct answered; injection Hrun as <- <- <-; (split; [|exact Hlast]);
      intros v _ _; apply (Hsent v).
  - unfold ftp_get in Hrun. rewrite Hs, Hf, Hr, Hg, Hopen in Hrun.
    injection Hrun as <- <- <-.
    assert (FtpQuit ∉ [FtpConnect server; FtpLogin]) as Hbefore.
    { intros Hin. apply elem_of_cons in Hin as [?|Hin]; [done|].
      apply elem_of_cons in Hin as [?|Hin]; [done|]. by apply elem_of_nil in Hin. }
    destruct (Hquit _ Hbefore) as [Hsent Hlast].
    split; [|exact Hlast]. intros v _ _. apply (Hsent v).
  - rewrite (ftp_get_unfold P N _ _ _ _ _ _ _ _ _ home) in Hrun by done.
    cbv zeta in Hrun.
    pose proof (ftp_locate_requests server home folder filename_re group preferred
                  folder_re fgroup fpreferred (λ e, e ≠ FtpQuit)) as Hreq.
    destruct (ftp_locate _ _ _ _ _ _ _ _ _ _ _) as [[located|e'] evl]; cbn [fst snd] in *.
    + set (saved := abspath_in P (cwd w) _) in *.
      assert (∀ tail, FtpQuit ∉ tail →
                FtpQuit ∉ ([FtpConnect server; FtpLogin]
                            ++ evl ++ prepared_events P w save_path) ++ tail) as Hhead.
      { intros tail Htail Hin. apply elem_of_app in Hin as [Hin|Hin]; [|done].
        apply elem_of_cons in Hin as [?|Hin]; [done|].
        apply elem_of_cons in Hin as [?|Hin]; [done|].
        apply elem_of_app in Hin as [Hin|Hin].
        - eapply Forall_forall in Hreq; [by apply Hreq | done..].
        - by apply prepared_events_MakeDirs in Hin as [? ?]. }
      assert (∀ tail, Forall (λ e, e ≠ FtpQuit) tail → FtpQuit ∉ tail) as Htail.
      { intros tail Hall Hin. eapply Forall_forall in Hall; [by apply Hall | done]. }
      destruct (exists_in P _ _).
      * injection Hrun as <- <- <-.
        destruct (Hquit _ (Hhead [] (not_elem_of_nil _))) as [Hsent Hlast].
        rewrite app_nil_r in Hsent, Hlast.
        split; [|exact Hlast]. intros v _ _. apply (Hsent v).
      * destruct (ftp_retr N server located.1 located.2) as [data|].
        -- injection Hrun as <- <- <-.
           destruct (Hquit _ (Hhead [WriteFile saved; FtpRetr located.2; WriteFile saved]
                                ltac:(apply Htail; by repeat constructor)))
             as [Hsent Hlast].
           rewrite <- app_assoc in Hsent, Hlast.
           split; [|exact Hlast]. intros v _ _. apply (Hsent v).
        -- destruct (str_truthy (ftp_retr_partial _ _ _ _)); injection Hrun as <- <- <-;
             (apply (Hnone FtpError); [|by left]);
             apply Hhead, Htail; by repeat constructor.
    + injection Hrun as <- <- <-. apply (Hnone e'); [|by left].
      intros Hin.
      apply elem_of_cons in Hin as [?|Hin]; [done|].
      apply elem_of_cons in Hin as [?|Hin]; [done|].
      eapply Forall_forall in Hreq; [by apply Hreq | done..].
Qed.

End FetchMore.

Lemma X4_html_get_without_a_matching_link_witness :
  html_get Demo.platform Faulty.network "http://example.org/" "pkg-*.tar.gz" 1
    (Some "/work/dl/pkg.tar.gz") "99" Demo.start
  = (Raise IndexError, Demo.start, [HttpOpen "http://example.org/"]).
Proof.
  apply (X4_html_get_without_a_matching_link Demo.platform Faulty.network
           "http://example.org/" "pkg-*.tar.gz" 1%Z (Some "/work/dl/pkg.tar.gz") "99"
           ["index.html"] Demo.start).
  - discriminate.
  - discriminate.
  - reflexivity.
  - reflexivity.
Defined.

Lemma X5_ftp_get_without_a_matching_file_witness :
  ftp_get Demo.platform Demo.network "ftp.example.org" "/pub/pkg/" "tool-*.zip" 1
    (Some "/work/dl/tool.zip") "99" None 1 "99" Demo.start
  = (Raise IndexError, Demo.start,
     [FtpConnect "ftp.example.org"; FtpLogin; FtpCwd "/pub/pkg/"] ++ [FtpMlsd; FtpNlst]).
Proof.
  apply (X5_ftp_get_without_a_matching_file Demo.platform Demo.network "ftp.example.org"
           "/pub/pkg/" "tool-*.zip" 1%Z (Some "/work/dl/tool.zip") "99" 1%Z "99" "/"
           "/pub/pkg/" no_matches [FtpMlsd; FtpNlst] Demo.start).
  - discriminate.
  - discriminate.
  - discriminate.
  - lia.
  - reflexivity.
  - reflexivity.
  - reflexivity.
  - reflexivity.
Defined.

Lemma X6_ftp_get_refused_login_returns_False_witness :
  ftp_get Demo.platform Faulty.no_login "ftp.example.org" "/pub/pkg/" "pkg-*.tar.gz" 1
    (Some "/work/dl/pkg.tar.gz") "99" None 1 "99" Demo.start
  = (Return PyFalse, Demo.start, [FtpConnect "ftp.example.org"; FtpLogin; FtpQuit]).
Proof.
  apply (X6_ftp_get_refused_login_returns_False Demo.platform Faulty.no_login
           "ftp.example.org" "/pub/pkg/" "pkg-*.tar.gz" 1%Z (Some "/work/dl/pkg.tar.gz")
           "99" None 1%Z "99" Demo.start).
  - discriminate.
  - discriminate.
  - discriminate.
  - lia.
  - reflexivity.
Defined.

Lemma X7_ftp_get_leaves_the_file_it_names_witness :
  let first := ftp_get Demo.platform Demo.network "ftp.example.org" "/pub/pkg/"
                 "pkg-*.tar.gz" 1 (Some "/work/dl/pkg.tar.gz") "2.5" None 1 "99"
                 Demo.start in
  exists_in Demo.platform first.1.2 "/work/dl/pkg.tar.gz" = true ∧
  cwd first.1.2 = cwd Demo.start ∧ environ first.1.2 = environ Demo.start ∧
  last first.2 = Some FtpQuit ∧
  ∀ name, FtpRetr name ∈ first.2 →
    ∃ dir data, ftp_retr Demo.network "ftp.example.org" dir name = Some data ∧
                files first.1.2 !! abspath_in Demo.platform (cwd first.1.2)
                                     "/work/dl/pkg.tar.gz" = Some data.
Proof.
  intros first.
  apply (X7_ftp_get_leaves_the_file_it_names Demo.platform Demo.network "ftp.example.org"
           "/pub/pkg/" "pkg-*.tar.gz" 1%Z (Some "/work/dl/pkg.tar.gz") "2.5" None 1%Z "99"
           Demo.start "/work/dl/pkg.tar.gz" first.1.2 first.2).
  vm_compute. reflexivity.
Defined.

Lemma X8_html_get_leaves_the_file_it_names_witness :
  let first := html_get Demo.platform Demo.network "http://example.org/" "pkg-*.tar.gz" 1
                 (Some "/work/dl/pkg.tar.gz") "2.5" Demo.start in
  exists_in Demo.platform first.1.2 "/work/dl/pkg.tar.gz" = true ∧
  cwd first.1.2 = cwd Demo.start ∧ environ first.1.2 = environ Demo.start ∧
  ∀ final_url, HttpRetrieve final_url ∈ first.2 →
    ∃ data, http_body Demo.network final_url = Some data ∧
            files first.1.2 !! abspath_in Demo.platform (cwd first.1.2)
                                 "/work/dl/pkg.tar.gz" = Some data.
Proof.
  intros first.
  apply (X8_html_get_leaves_the_file_it_names Demo.platform Demo.network
           "http://example.org/" "pkg-*.tar.gz" 1%Z (Some "/work/dl/pkg.tar.gz") "2.5"
           Demo.start "/work/dl/pkg.tar.gz" first.1.2 first.2).
  vm_compute. reflexivity.
Defined.

(** A transfer cut short after its first block, [bytes of ]. *)
Lemma X9_interrupted_transfer_passes_for_the_archive_witness :
  let fetch := ftp_get Demo.platform Faulty.network "ftp.example.org" "/pub/pkg/"
                 "pkg-*.tar.gz" 1 (Some "/work/dl/pkg.tar.gz") "2.5" None 1 "99" in
  let first := fetch Demo.start in
  ∃ p dir ev2,
    ftp_retr Faulty.network "ftp.example.org" dir "pkg-2.5.tar.gz" = None ∧
    fetch first.1.2 = (Return (PyStr p), first.1.2, ev2) ∧
    files first.1.2 !! abspath_in Demo.platform (cwd first.1.2) p
      = Some (ftp_retr_partial Faulty.network "ftp.example.org" dir "pkg-2.5.tar.gz") ∧
    Forall quiet ev2.
Proof.
  intros fetch first.
  apply (X9_interrupted_transfer_passes_for_the_archive Demo.platform Faulty.network
           "ftp.example.org" "/pub/pkg/" "pkg-*.tar.gz" 1%Z (Some "/work/dl/pkg.tar.gz")
           "2.5" None 1%Z "99" Demo.start FtpError first.1.2 first.2 "pkg-2.5.tar.gz").
  - vm_compute. reflexivity.
  - vm_compute. do 7 apply list_elem_of_further. apply list_elem_of_here.
Defined.

(** A server that refuses the greeting and hangs up: QUIT is sent, and
    [quit] raises. *)
Lemma X10_ftp_get_sends_nothing_after_quit_witness :
  let run := ftp_get Demo.platform Faulty.no_greeting "ftp.example.org" "/pub/pkg/"
               "pkg-*.tar.gz" 1 (Some "/work/dl/pkg.tar.gz") "2.5" None 1 "99"
               Demo.start in
  (∀ v, Raise FtpError = Return v → v ≠ PyNone → FtpQuit ∈ run.2) ∧
  (FtpQuit ∈ run.2 → ∃ before, run.2 = before ++ [FtpQuit] ∧ FtpQuit ∉ before).
Proof.
  intros run.
  apply (X10_ftp_get_sends_nothing_after_quit Demo.platform Faulty.no_greeting
           "ftp.example.org" "/pub/pkg/" "pkg-*.tar.gz" 1%Z (Some "/work/dl/pkg.tar.gz")
           "2.5" None 1%Z "99" Demo.start (Raise FtpError) run.1.2 run.2).
  vm_compute. reflexivity.
Defined.

(** ** Mirror selection *)

Lemma dict_set_elem_of {K V : Type} `{EqDecision K} (d : list (K * V)) k v k' v' :
  (k', v') ∈ Dict.set d k v → (k', v') = (k, v) ∨ (k', v') ∈ d.
Proof.
  induction d as [|[k0 v0] d IH]; simpl.
  - intros ?%list_elem_of_singleton. by left.
  - destruct (decide (k0 = k)) as [->|Hne].
    + intros [?|?]%elem_of_cons; [by left | right; by right].
    + intros [->|Hin]%elem_of_cons; [right; by left|].
      destruct (IH Hin) as [?|?]; [by left | right; by right].
Qed.

Section MirrorMore.
Context (N : Network).
Implicit Types (server_list : list string) (port priority : Z) (timeout : Q).

(** The benchmark that the loop of [select_mirror] builds on top of
    [benchmark]. *)
Lemma probe_servers_cases server_list port timeout benchmark :
  (all_caught N server_list port timeout ∧
   probe_servers N server_list port timeout benchmark =
   Return (fold_left
             (λ benchmark server,
                match sock_connect N server port timeout with
                | Connected t => Dict.set benchmark server t
                | _ => benchmark
                end)
             server_list benchmark)) ∨
  (Exists (λ server, sock_connect N server port timeout = Refused) server_list ∧
   probe_servers N server_list port timeout benchmark = Raise ConnectionRefusedError).
Proof.
  revert benchmark. induction server_list as [|server rest IH]; intros benchmark.
  - left. split; [constructor | done].
  - simpl. destruct (sock_connect N server port timeout) as [t| | | |] eqn:Hserver.
    5: { right. split; [by left | done]. }
    all: destruct (IH (match sock_connect N server port timeout with
                       | Connected t => Dict.set benchmark server t
                       | _ => benchmark
                       end)) as [[Hall Hret]|[Hex Hraise]];
      rewrite Hserver in *;
      [left; split; [constructor; [by rewrite Hserver | done] | done]
      |right; split; [by right | done]].
Qed.

Lemma benchmark_sound server_list port timeout benchmark server t :
  (server, t) ∈ fold_left
                  (λ benchmark server,
                     match sock_connect N server port timeout with
                     | Connected t => Dict.set benchmark server t
                     | _ => benchmark
                     end)
                  server_list benchmark →
  (server, t) ∈ benchmark ∨
  (server ∈ server_list ∧ sock_connect N server port timeout = Connected t).
Proof.
  revert benchmark. induction server_list as [|s rest IH]; intros benchmark; simpl.
  - by left.
  - intros Hin. destruct (IH _ Hin) as [Hb|[Hrest Ht]].
    + destruct (sock_connect N s port timeout) as [t'| | | |] eqn:Hs; try by left.
      apply dict_set_elem_of in Hb as [[= -> ->]|Hb]; [|by left].
      right. split; [by left | done].
    + right. split; [by right | done].
Qed.

Lemma benchmark_complete server_list port timeout benchmark server t :
  sock_connect N server port timeout = Connected t →
  server ∈ server_list ∨ Dict.get benchmark server = Some t →
  Dict.get (fold_left
              (λ benchmark server,
                 match sock_connect N server port timeout with
                 | Connected t => Dict.set benchmark server t
                 | _ => benchmark
                 end)
              server_list benchmark) server = Some t.
Proof.
  intros Ht. revert benchmark.
  induction server_list as [|s rest IH]; intros benchmark; simpl.
  - intros [Hin|Hget]; [by apply elem_of_nil in Hin | done].
  - intros Hcase. apply IH.
    destruct (decide (s = server)) as [->|Hne].
    + right. rewrite Ht. apply dict_get_set_eq.
    + destruct Hcase as [[?|Hin]%elem_of_cons|Hget]; [done | by left | right].
      destruct (sock_connect N s port timeout); try done.
      by rewrite dict_get_set_ne.
Qed.

(** X11. [select_mirror] raises exactly when a probe ends in an exception
    that the loop does not catch, and then with that exception. In
    particular the index into the sorted benchmark is in range for every
    [priority], negative, zero or beyond the number of hosts. *)
Theorem X11_select_mirror_raises_only_on_an_uncaught_probe server_list priority protocol
    timeout :
  (∀ e, select_mirror N server_list priority protocol timeout = Raise e →
        e = ConnectionRefusedError) ∧
  (select_mirror N server_list priority protocol timeout = Raise ConnectionRefusedError ↔
   Exists (λ server, sock_connect N server (port_of protocol) timeout = Refused)
     server_list).
Proof.
  unfold select_mirror.
  destruct (probe_servers_cases server_list (port_of protocol) timeout [])
    as [[Hall ->]|[Hex ->]].
  - set (benchmark := fold_left _ server_list []).
    assert (∀ e,
      (if (Z.of_nat (length benchmark) <=? 0)%Z then Return None
       else match sorted_by snd Qle_bool benchmark
                    !! Z.to_nat (Z.max 0 (Z.min (Z.of_nat (length benchmark)) priority - 1))
            with
            | Some mirror => Return (Some mirror)
            | None => Raise IndexError
            end) ≠ Raise e) as Hreturns.
    { intros e. destruct (Z.leb_spec (Z.of_nat (length benchmark)) 0); [done|].
      destruct (lookup_lt_is_Some_2 (sorted_by snd Qle_bool benchmark)
                  (Z.to_nat (Z.max 0 (Z.min (Z.of_nat (length benchmark)) priority - 1))))
        as [mirror ->]; [rewrite sorted_by_length; lia | done]. }
    split; [intros e He; by apply Hreturns in He|].
    split; [intros He; by apply Hreturns in He|].
    intros Hex. exfalso. apply Exists_exists in Hex as (server & Hin & Hrefused).
    unfold all_caught in Hall. rewrite Forall_forall in Hall. by apply (Hall server).
  - split; [by intros e [= <-]|]. done.
Qed.

(** X12. [select_mirror] returns the pair of [None] exactly when every probe
    ends in [socket.herror], [socket.gaierror] or [socket.timeout]. *)
Theorem X12_select_mirror_gives_None_when_no_host_connects server_list priority protocol
    timeout :
  select_mirror N server_list priority protocol timeout = Return None ↔
  Forall (λ server,
            sock_connect N server (port_of protocol) timeout = HostnameError ∨
            sock_connect N server (port_of protocol) timeout = AddressError ∨
            sock_connect N server (port_of protocol) timeout = TimedOut) server_list.
Proof.
  split; [|apply select_mirror_none_reachable].
  unfold select_mirror.
  destruct (probe_servers_cases server_list (port_of protocol) timeout [])
    as [[Hall ->]|[Hex ->]]; [|done].
  set (benchmark := fold_left _ server_list []).
  destruct (Z.leb_spec (Z.of_nat (length benchmark)) 0) as [Hempty|Hsome].
  - intros _. assert (benchmark = []) as Hnil by (destruct benchmark; [done | simpl in *; lia]).
    unfold all_caught in Hall. rewrite Forall_forall in Hall. apply Forall_forall.
    intros server Hin. specialize (Hall server Hin).
    destruct (sock_connect N server (port_of protocol) timeout) as [t| | | |] eqn:Hserver;
      auto; [|done].
    pose proof (benchmark_complete server_list (port_of protocol) timeout [] server t
                  Hserver (or_introl Hin)) as Hget.
    fold benchmark in Hget. by rewrite Hnil in Hget.
  - by destruct (_ !! _).
Qed.

(** X13. A mirror that [select_mirror] returns is a server of the list it
    was given, and the latency returned with it is the time the connection
    to that server took. *)
Theorem X13_selected_mirror_was_listed_and_connected server_list priority protocol timeout
    mirror latency :
  select_mirror N server_list priority protocol timeout = Return (Some (mirror, latency)) →
  mirror ∈ server_list ∧
  sock_connect N mirror (port_of protocol) timeout = Connected latency.
Proof.
  unfold select_mirror.
  destruct (probe_servers_cases server_list (port_of protocol) timeout [])
    as [[Hall ->]|[Hex ->]]; [|done].
  set (benchmark := fold_left _ server_list []).
  destruct (_ <=? _)%Z; [done|].
  destruct (_ !! _) as [found|] eqn:Hfound; [|done]. intros [= ->].
  apply list_elem_of_lookup_2 in Hfound. rewrite sorted_by_perm in Hfound.
  apply benchmark_sound in Hfound as [Hnil|?]; [by apply elem_of_nil in Hnil | done].
Qed.

(** X14. With [priority] at most 1, the default among them, the mirror that
    [select_mirror] returns has the least latency of all the servers of the
    list that connected. *)
Theorem X14_first_priority_gives_the_least_latency server_list priority protocol timeout
    mirror latency :
  (priority ≤ 1)%Z →
  select_mirror N server_list priority protocol timeout = Return (Some (mirror, latency)) →
  ∀ server t,
    server ∈ server_list →
    sock_connect N server (port_of protocol) timeout = Connected t →
    (latency <= t)%Q.
Proof.
  intros Hpriority. unfold select_mirror.
  destruct (probe_servers_cases server_list (port_of protocol) timeout [])
    as [[Hall ->]|[Hex ->]]; [|done].
  set (benchmark := fold_left _ server_list []).
  destruct (_ <=? _)%Z; [done|].
  replace (Z.to_nat (Z.max 0 (Z.min (Z.of_nat (length benchmark)) priority - 1)))
    with 0%nat by lia.
  destruct (_ !! _) as [found|] eqn:Hfound; [|done]. intros [= ->] server t Hin Hserver.
  pose proof (benchmark_complete server_list (port_of protocol) timeout [] server t
                Hserver (or_introl Hin)) as Hget.
  fold benchmark in Hget. apply dict_get_elem_of in Hget.
  rewrite <- (sorted_by_perm snd Qle_bool) in Hget.
  apply list_elem_of_lookup in Hget as [j Hj].
  apply Qle_bool_iff.
  apply (ascending_lookup snd Qle_bool Qle_bool_total (sorted_by snd Qle_bool benchmark)
           0 j (mirror, latency) (server, t));
    [apply (sorted_by_ascending _ _ Qle_bool_total Qle_bool_trans) | done | done | lia].
Qed.

End MirrorMore.

Lemma X11_select_mirror_raises_only_on_an_uncaught_probe_witness :
  select_mirror Demo.network ["near.example.org"; "closed.example.org"; "far.example.org"]
    1 "FTP" 5 = Raise ConnectionRefusedError.
Proof.
  apply (proj2 (X11_select_mirror_raises_only_on_an_uncaught_probe Demo.network
                  ["near.example.org"; "closed.example.org"; "far.example.org"] 1 "FTP" 5)).
  right. left. reflexivity.
Defined.

Lemma X12_select_mirror_gives_None_when_no_host_connects_witness :
  select_mirror Demo.network ["silent.example.org"; "unknown.example.org"] 1 "FTP" 5
  = Return None.
Proof.
  apply (X12_select_mirror_gives_None_when_no_host_connects Demo.network
           ["silent.example.org"; "unknown.example.org"] 1 "FTP" 5).
  constructor; [right; right; reflexivity|].
  constructor; [right; left; reflexivity|].
  constructor.
Defined.

Lemma X13_selected_mirror_was_listed_and_connected_witness :
  "mid.example.org" ∈ ["far.example.org"; "silent.example.org"; "mid.example.org";
                       "near.example.org"] ∧
  sock_connect Demo.network "mid.example.org" (port_of "FTP") 5 = Connected (1 # 10).
Proof.
  apply (X13_selected_mirror_was_listed_and_connected Demo.network
           ["far.example.org"; "silent.example.org"; "mid.example.org"; "near.example.org"]
           2 "FTP" 5 "mid.example.org" (1 # 10)).
  vm_compute. reflexivity.
Defined.

Lemma X14_first_priority_gives_the_least_latency_witness : (1 # 100 <= 3 # 10)%Q.
Proof.
  apply (X14_first_priority_gives_the_least_latency Demo.network
           ["far.example.org"; "silent.example.org"; "mid.example.org"; "near.example.org"]
           1 "FTP" 5 "near.example.org" (1 # 100) ltac:(lia) eq_refl
           "far.example.org" (3 # 10)).
  - apply list_elem_of_here.
  - reflexivity.
Defined.

(** ** Unpacking *)

Lemma prefix_app (s t : string) : String.prefix s (s +:+ t) = true.
Proof.
  induction s as [|c s IH]; [by destruct t|].
  change (String c s +:+ t) with (String c (s +:+ t)). simpl.
  by destruct (ascii_dec c c).
Qed.

Lemma contains_app (needle before after : string) :
  contains needle (before +:+ needle +:+ after) = true.
Proof.
  induction before as [|c before IH].
  - change ("" +:+ needle +:+ after) with (needle +:+ after).
    destruct (needle +:+ after) eqn:Heq; cbn [contains]; rewrite <- Heq, prefix_app; done.
  - change (String c before +:+ needle +:+ after)
      with (String c (before +:+ needle +:+ after)).
    cbn [contains]. rewrite IH. apply orb_true_r.
Qed.

Section UntarMore.
Context (P : Platform).
Implicit Types (w : world) (src dst data : string).

(** The outcomes of [untar] on an archive that is there: the world is the
    one with the destination folder, with or without a new sidecar, and the
    events are those of the folder and of the archive. *)
Lemma untar_in_place_outcomes w src dst data :
  let out := untar_in_place P w src dst data in
  (out.1.2 = w ∨
   out.1.2 = with_file w (abspath_in P (cwd w) (src +:+ ".md5")) (md5_hexdigest P data)) ∧
  (∀ d, out.1.1 = Return (PyStr d) → d = dst) ∧
  Forall (λ e, is_network e = false) out.2.
Proof.
  unfold untar_in_place.
  destruct (files w !! _) as [old|];
    [destruct (contains _ old) | case_bool_decide];
    try (cbn [fst snd]; split; [by left|]; split; [by intros d [= ->] | done]).
  all: destruct (tar_behaviour P data dst); cbn [fst snd];
    (split; [by (left + right)|]); (split; [by intros d [= ->]|]); by repeat constructor.
Qed.

(** X15. [untar] on a path where nothing exists returns [None] with no event
    and leaves the world as it was: the destination folder is not
    created. *)
Theorem X15_untar_without_the_archive_does_nothing w src dst :
  exists_in P w src = false →
  untar P src dst w = (Return PyNone, w, []).
Proof.
  intros Hsrc. unfold untar. by rewrite bind_os_path_exists, Hsrc.
Qed.

(** X16. The test on the sidecar is a substring test. When the archive is
    there and the sidecar holds its digest anywhere in its text, as in a
    line written by [md5sum], [untar] returns the destination folder without
    opening the archive; all it does is create the destination folder when
    it is missing. *)
Theorem X16_untar_skips_when_the_sidecar_mentions_the_digest w src dst data before after :
  files w !! abspath_in P (cwd w) src = Some data →
  files w !! abspath_in P (cwd w) (src +:+ ".md5")
    = Some (before +:+ md5_hexdigest P data +:+ after) →
  untar P src dst w = (Return (PyStr dst), ensured P w dst, ensured_events P w dst).
Proof.
  intros Hdata Hsidecar.
  destruct (untar_cases P w src dst data Hdata) as (Hfiles & Hcwd & _ & ->).
  unfold untar_in_place. rewrite Hfiles, Hcwd, Hsidecar, contains_app.
  by rewrite app_nil_r.
Qed.


(** X18. When [untar] returns a string, it is the destination folder it was
    given, and that folder exists in the world it leaves. *)
Theorem X18_untar_returns_the_folder_it_was_given w src dst d w1 ev :
  untar P src dst w = (Return (PyStr d), w1, ev) →
  d = dst ∧ exists_in P w1 dst = true.
Proof.
  intros Hrun.
  destruct (files w !! abspath_in P (cwd w) src) as [data|] eqn:Hdata.
  - destruct (untar_cases P w src dst data Hdata) as (Hfiles & Hcwd & Hdst & Hcase).
    rewrite Hcase in Hrun.
    destruct (untar_in_place_outcomes (ensured P w dst) src dst data) as (Hw & Hd & _).
    destruct (untar_in_place _ _ _ _ _) as [[r' w'] ev']. cbn [fst snd] in *.
    injection Hrun as -> <- <-. split; [by apply Hd|].
    destruct Hw as [->| ->]; [done | by apply exists_in_with_file].
  - rewrite untar_no_archive in Hrun by done. by destruct (exists_in P w src).
Qed.

Lemma untar_events w src dst (Q : event → Prop) :
  (∀ p, Q (MakeDirs p)) → Q (TarOpen src) → Q (Unpack src dst) → (∀ p, Q (WriteFile p)) →
  Forall Q (untar P src dst w).2.
Proof.
  intros Hmk Hopen Hunpack Hwrite.
  assert (Forall Q (ensured_events P w dst)) as Hensure.
  { unfold ensured_events. destruct (exists_in P w dst); by repeat constructor. }
  destruct (files w !! abspath_in P (cwd w) src) as [data|] eqn:Hdata.
  - destruct (untar_cases P w src dst data Hdata) as (_ & _ & _ & ->).
    assert (Forall Q (untar_in_place P (ensured P w dst) src dst data).2) as Hev.
    { clear Hdata. unfold untar_in_place.
      destruct (files _ !! _) as [old|];
        [destruct (contains _ old) | case_bool_decide]; try done.
      all: destruct (tar_behaviour P data dst); cbn [snd]; by repeat constructor. }
    destruct (untar_in_place _ _ _ _ _) as [[r' w'] ev']. cbn [fst snd] in *.
    by apply Forall_app.
  - rewrite untar_no_archive by done. by destruct (exists_in P w src).
Qed.

(** X19. No event of [untar] is a request to the network, whatever the world
    and the arguments. *)
Theorem X19_untar_stays_off_the_network w src dst :
  Forall (λ e, is_network e = false) (untar P src dst w).2.
Proof. by apply untar_events. Qed.

End UntarMore.

Lemma X15_untar_without_the_archive_does_nothing_witness :
  untar Demo.platform "./dl/pkg.tar.gz" "./pkgs/" Demo.start
  = (Return PyNone, Demo.start, []).
Proof.
  apply (X15_untar_without_the_archive_does_nothing Demo.platform Demo.start
           "./dl/pkg.tar.gz" "./pkgs/").
  reflexivity.
Defined.

(** A sidecar in the format of [md5sum]: the digest, two blanks and the
    file name. *)
Lemma X16_untar_skips_when_the_sidecar_mentions_the_digest_witness :
  let w := with_file (Demo.holding "bytes of pkg-2.5.tar.gz") "/work/dl/pkg.tar.gz.md5"
             ("" +:+ md5_hexdigest Demo.platform "bytes of pkg-2.5.tar.gz"
                 +:+ "  pkg.tar.gz") in
  untar Demo.platform "/work/dl/pkg.tar.gz" "/work/pkgs" w
  = (Return (PyStr "/work/pkgs"), ensured Demo.platform w "/work/pkgs",
     ensured_events Demo.platform w "/work/pkgs").
Proof.
  intros w.
  apply (X16_untar_skips_when_the_sidecar_mentions_the_digest Demo.platform w
           "/work/dl/pkg.tar.gz" "/work/pkgs" "bytes of pkg-2.5.tar.gz" "" "  pkg.tar.gz").
  - reflexivity.
  - reflexivity.
Defined.


Lemma X18_untar_returns_the_folder_it_was_given_witness :
  let w := Demo.holding "bytes of pkg-2.5.tar.gz" in
  let run := untar Demo.platform "/work/dl/pkg.tar.gz" "/work/pkgs" w in
  "/work/pkgs" = "/work/pkgs" ∧ exists_in Demo.platform run.1.2 "/work/pkgs" = true.
Proof.
  intros w run.
  apply (X18_untar_returns_the_folder_it_was_given Demo.platform w
           "/work/dl/pkg.tar.gz" "/work/pkgs" "/work/pkgs" run.1.2 run.2).
  vm_compute. reflexivity.
Defined.

(** ** The environment *)

Section EnvMore.
Context (P : Platform).
Implicit Types (w : world).

(** X20. [set_env] reads PATH and CC before it changes anything: when one of
    them is unset it raises [KeyError] and leaves the world, the working
    directory included, as it was. *)
Theorem X20_set_env_needs_PATH_and_CC WORK_FOLDER x86_64 w :
  environ w !! "PATH" = None ∨ environ w !! "CC" = None →
  set_env P WORK_FOLDER x86_64 w = (Raise KeyError, w, []).
Proof.
  intros Hunset. unfold set_env. rewrite bind_environ_get.
  destruct (environ w !! "PATH") as [path|]; [|done].
  rewrite bind_environ_get. by destruct Hunset as [?| ->].
Qed.

(** X21. When [set_env] returns, PATH is the [bin] directory of the prefix
    of the width asked for, x86_64 or i686, taken relative to WORK_FOLDER,
    then a colon, then the PATH of before; CC is [gcc]; and no other
    variable has changed. *)
Theorem X21_set_env_puts_the_prefix_first WORK_FOLDER x86_64 w origin w1 ev :
  set_env P WORK_FOLDER x86_64 w = (Return origin, w1, ev) →
  let work := abspath_in P (cwd w) WORK_FOLDER in
  let prefix := if x86_64 then "./mingw-w64-x86_64/" else "./mingw-w64-i686/" in
  ∃ path,
    environ w !! "PATH" = Some path ∧
    environ w1 !! "PATH" = Some (join (abspath_in P work prefix) "bin" +:+ ":" +:+ path) ∧
    environ w1 !! "CC" = Some "gcc" ∧
    ∀ k, k ≠ "PATH" → k ≠ "CC" → environ w1 !! k = environ w !! k.
Proof.
  unfold set_env. rewrite !bind_environ_get.
  destruct (environ w !! "PATH") as [path|] eqn:Hpath; [|done].
  rewrite bind_environ_get.
  destruct (environ w !! "CC") as [cc|] eqn:Hcc; [|done].
  rewrite bind_os_getcwd, bind_os_chdir. case_bool_decide; [|done].
  change (Dict.item LOCATIONS "mingw_w64_i686_prefix") with (Return "./mingw-w64-i686/").
  rewrite bind_result_Return, bind_os_path_abspath.
  change (Dict.item LOCATIONS "mingw_w64_x86_64_prefix") with (Return "./mingw-w64-x86_64/").
  rewrite bind_result_Return, bind_os_path_abspath, bind_environ_get.
  cbn [with_cwd environ cwd]. rewrite Hpath.
  destruct x86_64; rewrite !bind_environ_set, bind_os_chdir;
    (case_bool_decide; [|done]); unfold ret; intros [= <- <- <-];
    exists path; cbn [with_cwd with_environ environ];
    (split; [done|]); (split; [by rewrite lookup_insert_ne, lookup_insert_eq|]);
    (split; [by rewrite lookup_insert_eq|]);
    intros k Hk1 Hk2; by rewrite !lookup_insert_ne.
Qed.

(** X22. When CC is set and empty before [set_env], [restore_env] on the
    map that [set_env] returned leaves CC at [gcc]: a saved value that is
    empty is not written back. *)
Theorem X22_empty_CC_is_not_restored WORK_FOLDER x86_64 w origin w1 ev :
  environ w !! "CC" = Some "" →
  set_env P WORK_FOLDER x86_64 w = (Return origin, w1, ev) →
  ∃ w2,
    restore_env origin w1 = (Return (), w2, []) ∧
    environ w2 !! "CC" = Some "gcc".
Proof.
  intros Hcc Hset.
  apply set_env_returns in Hset
    as (path & cc & new_path & Hpath & Hcc' & -> & Henv & _).
  rewrite Hcc in Hcc'. injection Hcc' as <-.
  rewrite restore_env_unfold. cbn [str_truthy]. eexists. split; [done|].
  destruct (str_truthy path); cbn [with_environ environ]; rewrite Henv.
  - by rewrite lookup_insert_ne, lookup_insert_eq.
  - by rewrite lookup_insert_eq.
Qed.

End EnvMore.

Lemma X20_set_env_needs_PATH_and_CC_witness :
  set_env Demo.platform "/work" true (Demo.holding "bytes")
  = (Raise KeyError, Demo.holding "bytes", []).
Proof.
  apply (X20_set_env_needs_PATH_and_CC Demo.platform "/work" true (Demo.holding "bytes")).
  right. reflexivity.
Defined.

Lemma X21_set_env_puts_the_prefix_first_witness :
  let w1 := (set_env Demo.platform "/work" false Demo.start).1.2 in
  let work := abspath_in Demo.platform (cwd Demo.start) "/work" in
  let prefix := if false then "./mingw-w64-x86_64/" else "./mingw-w64-i686/" in
  ∃ path,
    environ Demo.start !! "PATH" = Some path ∧
    environ w1 !! "PATH"
      = Some (join (abspath_in Demo.platform work prefix) "bin" +:+ ":" +:+ path) ∧
    environ w1 !! "CC" = Some "gcc" ∧
    ∀ k, k ≠ "PATH" → k ≠ "CC" → environ w1 !! k = environ Demo.start !! k.
Proof.
  intros w1.
  apply (X21_set_env_puts_the_prefix_first Demo.platform "/work" false Demo.start
           [("old_path", "/usr/bin"); ("old_cc", "cc")] w1 []).
  vm_compute. reflexivity.
Defined.

Lemma X22_empty_CC_is_not_restored_witness :
  ∃ w2,
    restore_env [("old_path", "/usr/bin"); ("old_cc", "")]
      (set_env Demo.platform "/work" true Faulty.empty_cc).1.2 = (Return (), w2, []) ∧
    environ w2 !! "CC" = Some "gcc".
Proof.
  apply (X22_empty_CC_is_not_restored Demo.platform "/work" true Faulty.empty_cc _ _ []).
  - reflexivity.
  - vm_compute. reflexivity.
Defined.

(** ** The components *)

Lemma bind_Forall {A B : Type} (m : M A) (f : A → M B) (Q : event → Prop) w :
  Forall Q (m w).2 → (∀ a w', Forall Q (f a w').2) → Forall Q (bind m f w).2.
Proof.
  intros Hm Hf. unfold bind. destruct (m w) as [[[a|e] w'] ev]; [|done].
  specialize (Hf a w'). destruct (f a w') as [[r w''] ev']. by apply Forall_app.
Qed.

Section ComponentsMore.
Context (P : Platform) (N : Network).
Implicit Types (w : world) (g : settings).

Lemma ftp_get_events server folder filename_re group save_path preferred folder_re fgroup
    fpreferred w (Q : event → Prop) :
  Q (FtpConnect server) → Q FtpLogin → (∀ f, Q (FtpCwd f)) → Q FtpMlsd → Q FtpNlst →
  (∀ name, Q (FtpRetr name)) → Q FtpQuit → (∀ p, Q (MakeDirs p)) → (∀ p, Q (WriteFile p)) →
  Forall Q
    (ftp_get P N server folder filename_re group save_path preferred folder_re fgroup
       fpreferred w).2.
Proof.
  intros Hconnect Hlogin Hcwd Hmlsd Hnlst Hretr Hquit Hmk Hwrite.
  destruct (str_truthy server) eqn:Hs; [|by unfold ftp_get; rewrite Hs].
  destruct (str_truthy folder) eqn:Hf; [|by unfold ftp_get; rewrite Hs, Hf].
  destruct (str_truthy filename_re) eqn:Hr; [|by unfold ftp_get; rewrite Hs, Hf, Hr].
  destruct (group <? 1)%Z eqn:Hg; [by unfold ftp_get; rewrite Hs, Hf, Hr, Hg|].
  destruct (ftp_open_session N server) as [|answered| |home] eqn:Hopen.
  - unfold ftp_get. rewrite Hs, Hf, Hr, Hg. cbn [negb]. rewrite bind_emit, Hopen.
    by repeat constructor.
  - unfold ftp_get. rewrite Hs, Hf, Hr, Hg. cbn [negb]. rewrite bind_emit, Hopen.
    destruct answered; by repeat constructor.
  - unfold ftp_get. rewrite Hs, Hf, Hr, Hg. cbn [negb]. rewrite bind_emit, Hopen.
    by repeat constructor.
  - rewrite (ftp_get_unfold P N _ _ _ _ _ _ _ _ _ home) by done. cbv zeta.
    assert (Forall Q (ftp_locate P N server home folder filename_re group preferred
                        folder_re fgroup fpreferred).2) as Hloc
      by (by apply ftp_locate_requests).
    assert (Forall Q (prepared_events P w save_path)) as Hprep.
    { unfold prepared_events, ensured_events.
      destruct save_path as [[|c sp]|]; try done.
      destruct (str_truthy (dirname _)); [|done].
      destruct (exists_in P w _); by repeat constructor. }
    destruct (ftp_locate _ _ _ _ _ _ _ _ _ _ _) as [[located|e] evl]; cbn [fst snd] in *.
    + destruct (exists_in P _ _);
        [|destruct (ftp_retr N server _ _);
          [|destruct (str_truthy (ftp_retr_partial _ _ _ _))]]; cbn [snd];
        repeat first [apply Forall_cons; split | apply Forall_app; split | apply Forall_nil];
        done.
    + by repeat constructor.
Qed.

Lemma not_listed_no_item {V : Type} (d : list (string * V)) (component : string) :
  component ∉ d.*1 → Dict.item d component = Raise KeyError.
Proof. intros Hnot. unfold Dict.item. by rewrite (proj2 (dict_get_None d component) Hnot). Qed.

(** X23. A component that is not in FTP_DOWNLOADS makes
    [ftp_get_by_component] raise before any request is sent, and a component
    that is not in HTML_DOWNLOADS does the same to [html_get_by_component];
    no file and no directory is created. *)
Theorem X23_unknown_component_ends_before_any_request g component w :
  (component ∉ FTP_DOWNLOADS →
   ∃ e w1, ftp_get_by_component P N g component w = (Raise e, w1, []) ∧
           files w1 = files w ∧ dirs w1 = dirs w) ∧
  (component ∉ HTML_DOWNLOADS →
   ∃ e w1, html_get_by_component P N g component w = (Raise e, w1, []) ∧
           files w1 = files w ∧ dirs w1 = dirs w).
Proof.
  split; intros Hnot.
  - unfold ftp_get_by_component. rewrite bind_os_chdir. case_bool_decide; [|by eauto].
    rewrite not_listed_no_item, bind_result_Raise; [by eauto|].
    intros Hin. apply Hnot. unfold FTP_DOWNLOADS. cbn in Hin.
    rewrite !elem_of_cons, elem_of_nil in *. tauto.
  - unfold html_get_by_component. rewrite bind_os_chdir. case_bool_decide; [|by eauto].
    rewrite not_listed_no_item, bind_result_Raise; [by eauto|].
    intros Hin. apply Hnot. unfold HTML_DOWNLOADS. cbn in Hin.
    rewrite !elem_of_cons, elem_of_nil in *. tauto.
Qed.

(** X24. The mirrors chosen when the script starts are not used. FTP_SERVERS
    holds the server names of the time it was built, so
    [ftp_get_by_component] with the settings after the choice of the mirrors
    does what it does with the settings before it, and every connection it
    opens goes to one of the two initial servers. *)
Theorem X24_the_chosen_mirror_is_never_contacted (N' : Network) g g' component w :
  choose_mirrors N' g = Return g' →
  ftp_get_by_component P N g' component w = ftp_get_by_component P N g component w ∧
  Forall (λ e, ∀ server, e = FtpConnect server →
                         server = GCC_SERVER initial_settings ∨
                         server = GNU_SERVER initial_settings)
    (ftp_get_by_component P N g' component w).2.
Proof.
  intros Hchoose. split.
  - unfold choose_mirrors in Hchoose.
    destruct (select_mirror N' GNU_MIRRORS _ _ _) as [gnu|]; [|done].
    destruct (select_mirror N' GCC_MIRRORS _ _ _) as [gcc|]; [|done].
    by injection Hchoose as <-.
  - unfold ftp_get_by_component.
    apply bind_Forall; [unfold os_chdir; by case_bool_decide|]. intros _ w0.
    destruct (Dict.item FTP_SERVERS component) as [server|] eqn:Hserver;
      [|by rewrite bind_result_Raise].
    rewrite bind_result_Return.
    assert (server = GCC_SERVER initial_settings ∨ server = GNU_SERVER initial_settings)
      as Hknown.
    { unfold Dict.item in Hserver.
      destruct (Dict.get FTP_SERVERS component) as [s|] eqn:Hget; [|done].
      injection Hserver as ->. apply dict_get_elem_of in Hget.
      unfold FTP_SERVERS in Hget. rewrite !elem_of_cons, elem_of_nil in Hget.
      destruct Hget as [[= _ ->]|[[= _ ->]|[[= _ ->]|[[= _ ->]|[[= _ ->]|[[= _ ->]|
                        [[= _ ->]|[]]]]]]]]; auto. }
    repeat (apply bind_Forall; [by destruct (Dict.item _ _)|]; intros ? ?).
    apply bind_Forall.
    { apply ftp_get_events; try done. by intros s [= ->]. }
    intros _ w1.
    repeat (apply bind_Forall; [by destruct (Dict.item _ _)|]; intros ? ?).
    apply bind_Forall; [by apply untar_events|]. intros _ ?. done.
Qed.

(** What the tables hold for a component that has an FTP server. *)
Lemma ftp_tables component server :
  Dict.get FTP_SERVERS component = Some server →
  ∃ folder filename_re folder_re,
    Dict.get PRIMARY_FTP_FOLDERS component = Some folder ∧
    Dict.get FILENAME_PATTERNS component = Some filename_re ∧
    Dict.get FILENAME_VERSION_CAPTURE component = Some 1%Z ∧
    Dict.get FOLDER_PATTERNS component = Some folder_re ∧
    Dict.get FOLDER_VERSION_CAPTURE component = Some 1%Z ∧
    str_truthy server = true ∧ str_truthy folder = true ∧ str_truthy filename_re = true.
Proof.
  intros Hserver. apply dict_get_elem_of in Hserver.
  unfold FTP_SERVERS in Hserver. rewrite !elem_of_cons, elem_of_nil in Hserver.
  destruct Hserver as [[= -> ->]|[[= -> ->]|[[= -> ->]|[[= -> ->]|[[= -> ->]|[[= -> ->]|
                       [[= -> ->]|[]]]]]]]];
    eexists _, _, _; repeat split; reflexivity.
Qed.

(** X25. [ftp_get_by_component] drops the value of [ftp_get]. For a
    component of the tables and a work folder that exists, when the login is
    refused it goes on in the work folder to [untar] the save path of the
    component into the package directory, and returns [None] unless [untar]
    raises. *)
Theorem X25_a_refused_login_is_followed_by_the_unpacking g component server save_path
    preferred preferred_folder w :
  Dict.get FTP_SERVERS component = Some server →
  Dict.get SAVE_PATH component = Some save_path →
  Dict.get (PREFERRED_FILE_VERSION g) component = Some preferred →
  Dict.get (PREFERRED_FOLDER_VERSION g) component = Some preferred_folder →
  abspath_in P (cwd w) (WORK_FOLDER g) ∈ dirs w →
  ftp_open_session N server = LoginFails →
  ftp_get_by_component P N g component w =
  let '(r, w1, ev) :=
    untar P save_path "./pkgs/" (with_cwd w (abspath_in P (cwd w) (WORK_FOLDER g))) in
  (match r with Return _ => Return PyNone | Raise e => Raise e end, w1,
   [FtpConnect server; FtpLogin; FtpQuit] ++ ev).
Proof.
  intros Hserver Hsave Hfile Hfolder Hwork Hlogin.
  destruct (ftp_tables component server Hserver)
    as (folder & filename_re & folder_re & H1 & H2 & H3 & H4 & H5 & Hs & Hf & Hr).
  unfold ftp_get_by_component, Dict.item.
  rewrite bind_os_chdir, bool_decide_eq_true_2 by done.
  rewrite Hserver, H1, H2, H3, Hsave, Hfile, H4, H5, Hfolder.
  rewrite !bind_result_Return.
  set (w0 := with_cwd w (abspath_in P (cwd w) (WORK_FOLDER g))).
  assert (ftp_get P N server folder filename_re 1 (Some save_path) preferred folder_re 1
            preferred_folder w0
          = (Return PyFalse, w0, [FtpConnect server; FtpLogin; FtpQuit])) as Hget.
  { unfold ftp_get. rewrite Hs, Hf, Hr. change (1 <? 1)%Z with false. cbn [negb].
    by rewrite bind_emit, Hlogin. }
  unfold bind at 1. rewrite Hget.
  change (Dict.get LOCATIONS "pkg_dir") with (Some "./pkgs/").
  rewrite !bind_result_Return.
  unfold bind, ret.
  destruct (untar P save_path "./pkgs/" w0) as [[[v|e] w1] ev]; [|done].
  by rewrite app_nil_r.
Qed.

(** X26. The preferred version of mingw-w64 given on the command line does
    not reach [html_get]: [html_get_by_component] depends on the arguments
    through the prefix alone. *)
Theorem X26_the_mingw_option_does_not_reach_html_get (args args' : arguments) g g'
    component w :
  arg_prefix args = arg_prefix args' →
  html_get_by_component P N (read_arguments args g) component w
  = html_get_by_component P N (read_arguments args' g') component w.
Proof.
  intros Hprefix. unfold html_get_by_component. cbn [read_arguments WORK_FOLDER].
  by rewrite Hprefix.
Qed.

End ComponentsMore.

Lemma X23_unknown_component_ends_before_any_request_witness :
  let g := read_arguments (Arguments "/work" "99" "99" "99" false) initial_settings in
  ∃ e w1,
    ftp_get_by_component Demo.platform Demo.network g "mingw64" Demo.start
      = (Raise e, w1, []) ∧
    files w1 = files Demo.start ∧ dirs w1 = dirs Demo.start.
Proof.
  intros g.
  apply (proj1 (X23_unknown_component_ends_before_any_request Demo.platform Demo.network
                  g "mingw64" Demo.start)).
  unfold FTP_DOWNLOADS. rewrite !not_elem_of_cons.
  repeat split; try discriminate. apply not_elem_of_nil.
Defined.

Lemma X24_the_chosen_mirror_is_never_contacted_witness :
  let g := read_arguments (Arguments "/work" "99" "99" "99" false) initial_settings in
  let g' := {| WORK_FOLDER := "/work";
               GNU_SERVER := "mirror.jre655.com";
               GCC_SERVER := "ftp.irisa.fr";
               PREFERRED_FOLDER_VERSION := PREFERRED_FOLDER_VERSION g;
               PREFERRED_FILE_VERSION := PREFERRED_FILE_VERSION g;
               USE_SJLJ := false |} in
  ftp_get_by_component Demo.platform Demo.network g' "binutils" Demo.start
    = ftp_get_by_component Demo.platform Demo.network g "binutils" Demo.start ∧
  Forall (λ e, ∀ server, e = FtpConnect server →
                         server = GCC_SERVER initial_settings ∨
                         server = GNU_SERVER initial_settings)
    (ftp_get_by_component Demo.platform Demo.network g' "binutils" Demo.start).2.
Proof.
  intros g g'.
  apply (X24_the_chosen_mirror_is_never_contacted Demo.platform Demo.network
           Faulty.open_mirrors g g' "binutils" Demo.start).
  vm_compute. reflexivity.
Defined.

Lemma X25_a_refused_login_is_followed_by_the_unpacking_witness :
  let g := read_arguments (Arguments "/work" "99" "99" "99" false) initial_settings in
  ftp_get_by_component Demo.platform Faulty.no_login g "binutils" Demo.start =
  let '(r, w1, ev) :=
    untar Demo.platform "./dl/binutils.tar.bz2" "./pkgs/"
      (with_cwd Demo.start (abspath_in Demo.platform (cwd Demo.start) (WORK_FOLDER g))) in
  (match r with Return _ => Return PyNone | Raise e => Raise e end, w1,
   [FtpConnect "ftp.yzu.edu.tw"; FtpLogin; FtpQuit] ++ ev).
Proof.
  intros g.
  apply (X25_a_refused_login_is_followed_by_the_unpacking Demo.platform Faulty.no_login g
           "binutils" "ftp.yzu.edu.tw" "./dl/binutils.tar.bz2" "99" "99" Demo.start).
  - reflexivity.
  - reflexivity.
  - reflexivity.
  - reflexivity.
  - vm_compute. reflexivity.
  - reflexivity.
Defined.

Lemma X26_the_mingw_option_does_not_reach_html_get_witness :
  html_get_by_component Demo.platform Demo.network
    (read_arguments (Arguments "/work" "99" "99" "5.0.4" false) initial_settings)
    "mingw64" Demo.start
  = html_get_by_component Demo.platform Demo.network
      (read_arguments (Arguments "/work" "99" "99" "99" false) initial_settings)
      "mingw64" Demo.start.
Proof.
  apply (X26_the_mingw_option_does_not_reach_html_get Demo.platform Demo.network
           (Arguments "/work" "99" "99" "5.0.4" false)
           (Arguments "/work" "99" "99" "99" false)
           initial_settings initial_settings "mingw64" Demo.start).
  reflexivity.
Defined.

(** ** The source folders and the number of jobs *)

(** The inner loop of [note_entry] over a list of components. *)
Lemma note_components_get (components : list string) (name path : string)
    (folders : list (string * string)) (component : string) :
  Dict.get
    (fold_left
       (λ folders component,
          if contains component name then Dict.set folders component path else folders)
       components folders) component
  = if bool_decide (component ∈ components) && contains component name then Some path
    else Dict.get folders component.
Proof.
  revert folders.
  induction components as [|c components IH]; intros folders; cbn [fold_left].
  - rewrite bool_decide_eq_false_2; [done | apply not_elem_of_nil].
  - rewrite IH. destruct (decide (component = c)) as [->|Hne].
    + rewrite (bool_decide_eq_true_2 (c ∈ c :: components)) by left. cbn [andb].
      destruct (contains c name) eqn:Hc.
      * rewrite dict_get_set_eq. by destruct (bool_decide _ && true).
      * by rewrite andb_false_r.
    + assert (bool_decide (component ∈ c :: components)
              = bool_decide (component ∈ components)) as ->.
      { apply bool_decide_ext. rewrite elem_of_cons. split; [by intros [?|?] | by right]. }
      destruct (bool_decide (component ∈ components) && contains component name); [done|].
      destruct (contains c name); [|done]. by apply dict_get_set_ne.
Qed.

(** X27. After the scan of the package directory, [source_folders] has for a
    component of [all_components] the path of the last directory listed
    whose name contains the name of the component, and it has no entry for a
    component that no directory names or that is not in [all_components]. *)
Theorem X27_source_folder_is_the_last_directory_that_names_the_component
    (entries : list dir_entry) (component : string) :
  Dict.get (find_source_folders entries) component =
  if bool_decide (component ∈ all_components)
  then entry_path <$>
         last (List.filter (λ entry, entry_is_dir entry &&
                                     contains component (entry_name entry)) entries)
  else None.
Proof.
  unfold find_source_folders.
  assert (∀ folders,
    Dict.get (fold_left note_entry entries folders) component =
    match last (List.filter
                  (λ entry, bool_decide (component ∈ all_components) &&
                            (entry_is_dir entry && contains component (entry_name entry)))
                  entries) with
    | Some entry => Some (entry_path entry)
    | None => Dict.get folders component
    end) as Hfold.
  { induction entries as [|entry entries IH]; intros folders; [done|].
    cbn [fold_left List.filter]. rewrite IH.
    assert (Dict.get (note_entry folders entry) component =
            if bool_decide (component ∈ all_components) &&
               (entry_is_dir entry && contains component (entry_name entry))
            then Some (entry_path entry) else Dict.get folders component) as Hnote.
    { unfold note_entry. destruct (entry_is_dir entry); cbn [negb andb].
      - apply note_components_get.
      - by rewrite andb_false_r. }
    rewrite Hnote.
    destruct (bool_decide (component ∈ all_components) &&
              (entry_is_dir entry && contains component (entry_name entry))); [|done].
    destruct (List.filter _ entries) as [|e l] eqn:Hrest; [done|].
    change (last (entry :: e :: l)) with (last (e :: l)).
    by destruct (last (e :: l)) eqn:Hlast; [|apply last_None in Hlast]. }
  rewrite Hfold. case_bool_decide; cbn [andb].
  - by destruct (last _).
  - assert (List.filter (λ _ : dir_entry, false) entries = []) as ->; [|done].
    clear Hfold. induction entries as [|entry entries IH]; [done | exact IH].
Qed.

(** X28. On a count of at least one core, [run_nproc] returns a number
    between 1 and the count, one less than the count when the count is above
    two, and never less for a larger count. *)
Theorem X28_run_nproc_keeps_one_core_free_above_two (cores : Z) :
  (1 ≤ cores)%Z →
  (1 ≤ run_nproc cores ≤ cores)%Z ∧
  ((2 < cores)%Z → run_nproc cores = (cores - 1)%Z) ∧
  ∀ more, (cores ≤ more)%Z → (run_nproc cores ≤ run_nproc more)%Z.
Proof.
  intros Hcores. unfold run_nproc.
  destruct (Z.gtb_spec cores 2); repeat split; try lia.
  all: intros more Hmore; destruct (Z.gtb_spec more 2); lia.
Qed.

Lemma X28_run_nproc_keeps_one_core_free_above_two_witness :
  (1 ≤ run_nproc 8 ≤ 8)%Z ∧
  ((2 < 8)%Z → run_nproc 8 = (8 - 1)%Z) ∧
  ∀ more, (8 ≤ more)%Z → (run_nproc 8 ≤ run_nproc more)%Z.
Proof.
  apply (X28_run_nproc_keeps_one_core_free_above_two 8). lia.
Defined.
